(** * Zeppelin: the ModActions plugin (src/plugins/ModActions.ts)

    A shallow embedding of the moderation-action plugin: the ledger of
    ignored events, the gateway event handlers, the punitive commands, the
    massban runner and the notification routine, followed by the properties
    of the specification settled against them.

    Conventions of the embedding.
    - The plugin instance's mutable fields ([ignoredEvents], the pending
      [setTimeout] callbacks) and the chronological list of calls made to
      collaborators (case store, activity log, platform, operator channel)
      form one [World], threaded through a small command monad.
    - What collaborators answer (does a platform request resolve or reject,
      what does the audit log hold, what does the operator reply) is read
      from an [Env]; the handlers are total functions of [Env] and [World].
    - [await e] where [e] rejects is an exception at that point; a call that
      is not awaited cannot throw into the handler, whatever its result.
    - A JavaScript string is modelled by the [string] of its UTF-8 bytes;
      [Js.chars] reads it back character by character where the code
      looks at characters.  [toLowerCase] is given on the ASCII range. *)

From Stdlib Require Import ZArith NArith List String Ascii Bool Lia DecimalString.
Import ListNotations.
Local Open Scope string_scope.
Local Open Scope list_scope.
Local Open Scope Z_scope.

(* ------------------------------------------------------------------ *)
(** ** JavaScript builtins used by the plugin *)

Module Js.

(** [Array.prototype.findIndex]: index of the first element satisfying
    the predicate, [-1] when there is none. *)
Fixpoint findIndex {A : Type} (p : A -> bool) (l : list A) : Z :=
  match l with
  | [] => -1
  | x :: l' =>
      if p x then 0
      else let i := findIndex p l' in
           if i <? 0 then -1 else i + 1
  end.

(** [Array.prototype.some]. *)
Definition some {A : Type} (p : A -> bool) (l : list A) : bool := existsb p l.

(** [Array.prototype.push]. *)
Definition push {A : Type} (l : list A) (x : A) : list A := l ++ [x].

(** [Array.prototype.splice(start, deleteCount)] (the array after the
    call).  A negative [start] counts from the end of the array:
    [start := max (len + start) 0]; otherwise [start := min start len];
    [deleteCount] is clamped to [0 .. len - start]. *)
Definition splice {A : Type} (start deleteCount : Z) (l : list A) : list A :=
  let len := Z.of_nat (List.length l) in
  let s := if start <? 0 then Z.max (len + start) 0 else Z.min start len in
  let dc := Z.min (Z.max deleteCount 0) (len - s) in
  firstn (Z.to_nat s) l ++ skipn (Z.to_nat (s + dc)) l.

(** Truthiness of a possibly absent string: [undefined], [null] and the
    empty string are falsy. *)
Definition truthy (s : option string) : bool :=
  match s with
  | Some EmptyString => false
  | Some _ => true
  | None => false
  end.

(** Truthiness of a possibly absent number: [null] and [0] are falsy. *)
Definition truthyNum (n : option Z) : bool :=
  match n with
  | Some z => negb (z =? 0)
  | None => false
  end.

Definition byte (c : ascii) : N := N_of_ascii c.

(** A continuation byte, [10xxxxxx], and the six bits it carries. *)
Definition isCont (c : ascii) : bool := ((128 <=? byte c) && (byte c <=? 191))%N.
Definition payload (c : ascii) : N := (byte c - 128)%N.

(** The characters of a string: the code point of each and the bytes that
    spell it.  A byte that does not begin a sequence of the expected
    length is read as the character of its own value. *)
Fixpoint chars (s : string) : list (N * string) :=
  match s with
  | EmptyString => []
  | String b0 s1 =>
      let n0 := byte b0 in
      let alone := (n0, String b0 EmptyString) :: chars s1 in
      if (n0 <? 194)%N then alone
      else if (n0 <? 224)%N then
        match s1 with
        | String b1 s2 =>
            if isCont b1 then
              (((n0 - 192) * 64 + payload b1)%N, String b0 (String b1 EmptyString))
              :: chars s2
            else alone
        | EmptyString => alone
        end
      else if (n0 <? 240)%N then
        match s1 with
        | String b1 (String b2 s3) =>
            if isCont b1 && isCont b2 then
              ((((n0 - 224) * 64 + payload b1) * 64 + payload b2)%N,
               String b0 (String b1 (String b2 EmptyString)))
              :: chars s3
            else alone
        | _ => alone
        end
      else if (n0 <? 245)%N then
        match s1 with
        | String b1 (String b2 (String b3 s4)) =>
            if isCont b1 && isCont b2 && isCont b3 then
              (((((n0 - 240) * 64 + payload b1) * 64 + payload b2) * 64 + payload b3)%N,
               String b0 (String b1 (String b2 (String b3 EmptyString))))
              :: chars s4
            else alone
        | _ => alone
        end
      else alone
  end.

(** The code points of WhiteSpace and LineTerminator: TAB, LF, VT, FF,
    CR, SP, NBSP, U+1680, U+2000 to U+200A, LS, PS, U+202F, U+205F,
    U+3000 and U+FEFF. *)
Definition isWhiteSpace (cp : N) : bool :=
  ((9 <=? cp) && (cp <=? 13)
   || (cp =? 32) || (cp =? 160) || (cp =? 5760)
   || (8192 <=? cp) && (cp <=? 8202)
   || (cp =? 8232) || (cp =? 8233) || (cp =? 8239) || (cp =? 8287)
   || (cp =? 12288) || (cp =? 65279))%N.

Fixpoint dropWhiteSpace (l : list (N * string)) : list (N * string) :=
  match l with
  | ch :: l' => if isWhiteSpace (fst ch) then dropWhiteSpace l' else l
  | [] => []
  end.

(** [String.prototype.trim]: the string without the white space and line
    terminators at its two ends. *)
Definition trim (s : string) : string :=
  String.concat EmptyString
    (map snd (List.rev (dropWhiteSpace (List.rev (dropWhiteSpace (chars s)))))).

Definition lowerChar (c : ascii) : ascii :=
  let n := nat_of_ascii c in
  if (Nat.leb 65 n && Nat.leb n 90)%bool then ascii_of_nat (n + 32) else c.

(** [String.prototype.toLowerCase]. *)
Fixpoint toLowerCase (s : string) : string :=
  match s with
  | String c s' => String (lowerChar c) (toLowerCase s')
  | EmptyString => EmptyString
  end.

(** The value of [a || b] on possibly absent numbers. *)
Definition orNum (a : option Z) (b : Z) : Z :=
  match a with
  | Some z => if z =? 0 then b else z
  | None => b
  end.

End Js.

(* ------------------------------------------------------------------ *)
(** ** Data model *)

(** [enum IgnoredEventType { Ban = 1, Unban, Kick }] *)
Module IgnoredEventType.
Inductive t : Set := Ban | Unban | Kick.

Definition code (x : t) : Z :=
  match x with Ban => 1 | Unban => 2 | Kick => 3 end.

(** [===] on two members of the enum. *)
Definition eqb (x y : t) : bool := code x =? code y.
End IgnoredEventType.

(** The members of [CaseTypes] (../data/CaseTypes) the plugin names. *)
Module CaseTypes.
Inductive t : Set := Ban | Unban | Note | Warn | Kick | Mute | Unmute | Softban.
End CaseTypes.

(** The members of [LogType] (../data/LogType) the plugin names. *)
Module LogType.
Inductive t : Set :=
| MEMBER_WARN | MEMBER_MUTE | MEMBER_UNMUTE | MEMBER_KICK | MEMBER_BAN
| MEMBER_UNBAN | MEMBER_SOFTBAN | MEMBER_FORCEBAN | MEMBER_ROLE_ADD
| MEMBER_ROLE_REMOVE | MASSBAN | CASE_CREATE.
End LogType.

(** [ErisConstants.AuditLogActions], the three the handlers look up. *)
Module AuditLogActions.
Inductive t : Set := MEMBER_KICK | MEMBER_BAN_ADD | MEMBER_BAN_REMOVE.
End AuditLogActions.

(** [interface IIgnoredEvent { type; userId }] *)
Record IIgnoredEvent : Set := mkIgnored {
  ie_type : IgnoredEventType.t;
  ie_userId : string
}.

(** A pending [setTimeout] callback of [ignoreEvent]: it will call
    [clearIgnoredEvent(type, userId)] after [tm_delay] milliseconds. *)
Record Timer : Set := mkTimer {
  tm_type : IgnoredEventType.t;
  tm_userId : string;
  tm_delay : Z
}.

Record User : Set := mkUser {
  id : string;
  username : string;
  discriminator : string
}.

(** An Eris [Member]; [member.id] is the id of [member.user]. *)
Record Member : Set := mkMember { user : User }.

Definition member_id (m : Member) : string := id (user m).

(** The audit-log entry [findRelevantAuditLogEntry] resolves to. *)
Record AuditLogEntry : Set := mkAudit {
  al_id : string;
  al_user : User;
  al_reason : option string
}.

(** The [Mute] entity, as far as the plugin reads it. *)
Record Mute : Set := mkMute {
  mute_user_id : string;
  case_id : option Z
}.

(** The object literal passed to [actions.fire("createCase", ...)]; a key
    the literal does not mention is [None]. *)
Record CaseArgs : Set := mkCaseArgs {
  c_userId : string;
  c_modId : option string;
  c_type : CaseTypes.t;
  c_auditLogId : option string;
  c_reason : option string;
  c_automatic : option bool;
  c_postInCaseLog : option bool
}.

(** What the plugin posts in the operator's channel; [errorMessage] and
    [successMessage] (../utils) are kept as tags. *)
Inductive ChannelMessage : Set :=
| errorMessage (s : string)
| successMessage (s : string)
| plainMessage (s : string).

Inductive Reaction : Set := CheckMark | CrossMark.

(** Calls to collaborators, in the order the handlers make them.  A
    platform request carries whether it resolved ([true]) or rejected. *)
Inductive Effect : Set :=
| CreateMessage (m : ChannelMessage)
| DeleteMessage
| WaitForReaction
| WaitForReply
| FindAuditLogEntry (action : AuditLogActions.t) (userId : string)
| FireCreateCase (c : CaseArgs)
| FireCreateCaseNote (caseId : Z) (modId note : string)
| FireMute (memberId : string) (muteTime : option Z)
| SetCaseId (userId : string) (caseId : Z)
| Log (t : LogType.t) (modId : string) (subject : option string) (count : option Z)
| IgnoreLog (t : LogType.t) (userId : string) (timeout : option Z)
| DirectMessage (userId text : string) (ok : bool)
| FallbackMessage (channelId text : string) (ok : bool)
| MemberKick (userId : string) (reason : option string) (ok : bool)
| BanMember (userId : string) (deleteMessageDays : option Z)
            (reason : option string) (ok : bool)
| UnbanMember (userId : string) (ok : bool).

(** The plugin instance and everything it has done so far. *)
Record World : Set := mkWorld {
  ignoredEvents : list IIgnoredEvent;
  timers : list Timer;
  trace : list Effect
}.

(* ------------------------------------------------------------------ *)
(** ** The command monad *)

(** How a piece of a handler ends: with a value, with the handler's
    [return;], or with an uncaught exception. *)
Inductive Outcome (A : Type) : Type :=
| Value (a : A)
| Returned
| Thrown.
Arguments Value {A} a.
Arguments Returned {A}.
Arguments Thrown {A}.

Definition Cmd (A : Type) : Type := World -> Outcome A * World.

Definition ret {A} (a : A) : Cmd A := fun w => (Value a, w).

Definition bind {A B} (m : Cmd A) (k : A -> Cmd B) : Cmd B :=
  fun w =>
    match m w with
    | (Value a, w') => k a w'
    | (Returned, w') => (Returned, w')
    | (Thrown, w') => (Thrown, w')
    end.

Definition return_ {A} : Cmd A := fun w => (Returned, w).
Definition throw {A} : Cmd A := fun w => (Thrown, w).

(** [try { body } catch (e) { handler }] *)
Definition tryCatch {A} (body handler : Cmd A) : Cmd A :=
  fun w =>
    match body w with
    | (Thrown, w') => handler w'
    | r => r
    end.

Definition emit (e : Effect) : Cmd unit :=
  fun w => (Value tt, mkWorld (ignoredEvents w) (timers w) (trace w ++ [e])).

(** A request to the platform that is awaited: it is recorded with its
    result and throws when it rejects. *)
Definition await (request : bool -> Effect) (ok : bool) : Cmd unit :=
  fun w =>
    let w' := mkWorld (ignoredEvents w) (timers w) (trace w ++ [request ok]) in
    if ok then (Value tt, w') else (Thrown, w').

Definition when (b : bool) (c : Cmd unit) : Cmd unit :=
  if b then c else ret tt.

Declare Scope cmd_scope.
Delimit Scope cmd_scope with cmd.
Notation "x <- m ;; k" := (bind m (fun x => k))
  (at level 61, m at next level, right associativity) : cmd_scope.
Notation "m ;; k" := (bind m (fun _ => k))
  (at level 61, right associativity) : cmd_scope.
Local Open Scope cmd_scope.

(* ------------------------------------------------------------------ *)
(** ** The ledger of ignored events *)

(** [info => type === info.type && userId === info.userId] *)
Definition sameEvent (type : IgnoredEventType.t) (userId : string)
    (info : IIgnoredEvent) : bool :=
  IgnoredEventType.eqb type (ie_type info) && String.eqb userId (ie_userId info).

(** [ignoreEvent(type, userId, timeout = null)] *)
Definition ignoreEvent (type : IgnoredEventType.t) (userId : string)
    (timeout : option Z) : Cmd unit :=
  fun w =>
    (Value tt,
     mkWorld (Js.push (ignoredEvents w) (mkIgnored type userId))
             (Js.push (timers w) (mkTimer type userId (Js.orNum timeout (1000 * 15))))
             (trace w)).

(** [isEventIgnored(type, userId)] *)
Definition isEventIgnored (type : IgnoredEventType.t) (userId : string) : Cmd bool :=
  fun w => (Value (Js.some (sameEvent type userId) (ignoredEvents w)), w).

(** [clearIgnoredEvent(type, userId)] *)
Definition clearIgnoredEvent (type : IgnoredEventType.t) (userId : string) : Cmd unit :=
  fun w =>
    (Value tt,
     mkWorld (Js.splice (Js.findIndex (sameEvent type userId) (ignoredEvents w)) 1
                        (ignoredEvents w))
             (timers w) (trace w)).

(** The [n]-th pending timer fires: its callback runs and it is gone. *)
Definition fireTimer (n : nat) : Cmd unit :=
  fun w =>
    match nth_error (timers w) n with
    | Some tm =>
        clearIgnoredEvent (tm_type tm) (tm_userId tm)
          (mkWorld (ignoredEvents w)
                   (firstn n (timers w) ++ skipn (S n) (timers w)) (trace w))
    | None => (Value tt, w)
    end.


(* ------------------------------------------------------------------ *)
(** ** Configuration and collaborators *)

(** The configuration keys the modelled handlers read ([configValue]). *)
Record Config : Set := mkConfig {
  mute_role : option string;
  dm_on_warn : bool;
  dm_on_mute : bool;
  dm_on_kick : bool;
  dm_on_ban : bool;
  message_on_warn : bool;
  message_on_mute : bool;
  message_on_kick : bool;
  message_on_ban : bool;
  message_channel : option string;
  warn_message : string;
  mute_message : string;
  timed_mute_message : string;
  kick_message : string;
  ban_message : string
}.

(** A value handed to [formatTemplateString] or put into a template
    literal: [undefined], [null], a number or a string. *)
Inductive TemplateValue : Set :=
| Undefined
| Null
| Num (n : Z)
| Str (s : string).

(** A possibly absent string argument, as such a value. *)
Definition valueOf (s : option string) : TemplateValue :=
  match s with
  | Some x => Str x
  | None => Undefined
  end.

(** [`${v}`] *)
Definition interpolate (v : TemplateValue) : string :=
  match v with
  | Undefined => "undefined"
  | Null => "null"
  | Num n => DecimalString.NilZero.string_of_int (Z.to_int n)
  | Str x => x
  end.

(** What the collaborators answer during one handler run.  The case store
    and the activity log always answer; platform requests may reject.
    [banResolves n u]: does the ban request for [u] resolve, [n] being the
    position of [u] in a massban list (single-target commands use [0]). *)
Record Env : Type := mkEnv {
  guildName : string;
  config : Config;
  canActOn : Member -> Member -> bool;
  guildMembers : string -> option Member;
  dmResolves : string -> string -> bool;
  channelResolves : string -> string -> bool;
  findRelevantAuditLogEntry : AuditLogActions.t -> string -> option AuditLogEntry;
  fireMute : Member -> option Z -> option Mute;
  newCaseId : CaseArgs -> Z;
  kickResolves : string -> bool;
  banResolves : nat -> string -> bool;
  unbanResolves : string -> bool;
  waitForReaction : option Reaction;
  waitForReply : option string;
  convertDelayStringToMS : string -> option Z;
  humanizeDuration : Z -> string;
  formatTemplateString : string -> list (string * TemplateValue) -> string;
  replace : string -> string -> string -> string
}.

(** The command message: its author and the author's member object. *)
Record Message : Set := mkMessage {
  author : User;
  member : Member
}.

Definition orEmpty (s : option string) : string :=
  match s with Some x => x | None => "" end.

(** [`${user.username}#${user.discriminator}`] *)
Definition tag (u : User) : string :=
  (username u ++ "#" ++ discriminator u)%string.

(* ------------------------------------------------------------------ *)
(** ** Notification *)

(** [tryToMessageUser(user, str, useDM, useChannel)] *)
Definition tryToMessageUser (env : Env) (user : User) (str : string)
    (useDM useChannel : bool) : Cmd bool :=
  if negb useDM && negb useChannel then ret true
  else
    sentDM <-
      (if useDM then
         tryCatch
           (await (DirectMessage (id user) str) (dmResolves env (id user) str) ;;
            ret true)
           (ret false)
       else ret false) ;;
    (if useChannel && Js.truthy (message_channel (config env)) then
       let channel := orEmpty (message_channel (config env)) in
       let text := ("<@!" ++ id user ++ "> " ++ str)%string in
       tryCatch
         (await (FallbackMessage channel text) (channelResolves env channel text) ;;
          ret true)
         (ret sentDM)
     else ret sentDM).

(* ------------------------------------------------------------------ *)
(** ** Gateway event handlers *)

(** [onGuildBanAdd(guild, user)] *)
Definition onGuildBanAdd (env : Env) (user : User) : Cmd unit :=
  ignored <- isEventIgnored IgnoredEventType.Ban (id user) ;;
  when ignored (clearIgnoredEvent IgnoredEventType.Ban (id user) ;; return_) ;;
  emit (FindAuditLogEntry AuditLogActions.MEMBER_BAN_ADD (id user)) ;;
  match findRelevantAuditLogEntry env AuditLogActions.MEMBER_BAN_ADD (id user) with
  | Some relevantAuditLogEntry =>
      emit (FireCreateCase
              {| c_userId := id user;
                 c_modId := Some (id (al_user relevantAuditLogEntry));
                 c_type := CaseTypes.Ban;
                 c_auditLogId := Some (al_id relevantAuditLogEntry);
                 c_reason := al_reason relevantAuditLogEntry;
                 c_automatic := Some true;
                 c_postInCaseLog := None |})
  | None =>
      emit (FireCreateCase
              {| c_userId := id user;
                 c_modId := None;
                 c_type := CaseTypes.Ban;
                 c_auditLogId := None;
                 c_reason := None;
                 c_automatic := None;
                 c_postInCaseLog := None |})
  end.

(** [onGuildBanRemove(guild, user)] *)
Definition onGuildBanRemove (env : Env) (user : User) : Cmd unit :=
  ignored <- isEventIgnored IgnoredEventType.Unban (id user) ;;
  when ignored (clearIgnoredEvent IgnoredEventType.Unban (id user) ;; return_) ;;
  emit (FindAuditLogEntry AuditLogActions.MEMBER_BAN_REMOVE (id user)) ;;
  match findRelevantAuditLogEntry env AuditLogActions.MEMBER_BAN_REMOVE (id user) with
  | Some relevantAuditLogEntry =>
      emit (FireCreateCase
              {| c_userId := id user;
                 c_modId := Some (id (al_user relevantAuditLogEntry));
                 c_type := CaseTypes.Unban;
                 c_auditLogId := Some (al_id relevantAuditLogEntry);
                 c_reason := None;
                 c_automatic := Some true;
                 c_postInCaseLog := None |})
  | None =>
      emit (FireCreateCase
              {| c_userId := id user;
                 c_modId := None;
                 c_type := CaseTypes.Unban;
                 c_auditLogId := None;
                 c_reason := None;
                 c_automatic := Some true;
                 c_postInCaseLog := None |})
  end.

(** [onGuildMemberRemove(_, member)] *)
Definition onGuildMemberRemove (env : Env) (member : Member) : Cmd unit :=
  ignored <- isEventIgnored IgnoredEventType.Kick (member_id member) ;;
  when ignored (clearIgnoredEvent IgnoredEventType.Kick (member_id member) ;; return_) ;;
  emit (FindAuditLogEntry AuditLogActions.MEMBER_KICK (member_id member)) ;;
  match findRelevantAuditLogEntry env AuditLogActions.MEMBER_KICK (member_id member) with
  | Some kickAuditLogEntry =>
      emit (FireCreateCase
              {| c_userId := member_id member;
                 c_modId := Some (id (al_user kickAuditLogEntry));
                 c_type := CaseTypes.Kick;
                 c_auditLogId := Some (al_id kickAuditLogEntry);
                 c_reason := al_reason kickAuditLogEntry;
                 c_automatic := Some true;
                 c_postInCaseLog := None |}) ;;
      emit (Log LogType.MEMBER_KICK (id (al_user kickAuditLogEntry))
                (Some (id (user member))) None)
  | None => ret tt
  end.


(* ------------------------------------------------------------------ *)
(** ** Commands *)

Definition failedToMessage (messageSent : bool) : string :=
  if messageSent then "" else " (failed to message user)".

Definition commandedCase (userId modId : string) (type : CaseTypes.t)
    (reason : option string) : CaseArgs :=
  {| c_userId := userId;
     c_modId := Some modId;
     c_type := type;
     c_auditLogId := None;
     c_reason := reason;
     c_automatic := None;
     c_postInCaseLog := None |}.

(** The local [warnMessage] of [warnCmd]. *)
Definition warnMessage (env : Env) (a_reason : string) : string :=
  replace env (replace env (warn_message (config env)) "{guildName}" (guildName env))
          "{reason}" a_reason.

(** [warnCmd(msg, args)], [args = { member, reason }] *)
Definition warnCmd (env : Env) (msg : Message) (a_member : Member)
    (a_reason : string) : Cmd unit :=
  when (negb (canActOn env (member msg) a_member))
    (emit (CreateMessage (errorMessage "Cannot warn: insufficient permissions")) ;;
     return_) ;;
  messageSent <- tryToMessageUser env (user a_member) (warnMessage env a_reason)
                   (dm_on_warn (config env)) (message_on_warn (config env)) ;;
  when (negb messageSent)
    (emit (CreateMessage
             (plainMessage "Failed to message the user. Log the warning anyway?")) ;;
     emit WaitForReaction ;;
     emit DeleteMessage ;;
     match waitForReaction env with
     | None => return_
     | Some CrossMark => return_
     | Some CheckMark => ret tt
     end) ;;
  emit (FireCreateCase
          (commandedCase (member_id a_member) (id (author msg)) CaseTypes.Warn
                         (Some a_reason))) ;;
  emit (CreateMessage
          (successMessage ("Warned **" ++ tag (user a_member) ++ "**")%string)) ;;
  emit (Log LogType.MEMBER_WARN (id (user (member msg)))
            (Some (member_id a_member)) None).

(** The mute duration: [args.time ? convertDelayStringToMS(args.time) : null] *)
Definition muteTimeOf (env : Env) (a_time : option string) : option Z :=
  if Js.truthy a_time then convertDelayStringToMS env (orEmpty a_time) else None.

(** [args.reason] after the handler's reassignment: a [time] argument that
    is no duration is taken as the beginning of the reason. *)
Definition muteReasonOf (env : Env) (a_time a_reason : option string) : option string :=
  match muteTimeOf env a_time with
  | None =>
      if Js.truthy a_time then
        Some (Js.trim (orEmpty a_time ++ " "
                       ++ (if Js.truthy a_reason then orEmpty a_reason else ""))%string)
      else a_reason
  | Some _ => a_reason
  end.

(** The local [timeUntilUnmute] of [muteCmd]:
    [muteTime && humanizeDuration(muteTime)], which is [null] or [0] when
    [muteTime] is. *)
Definition timeUntilUnmute (env : Env) (muteTime : option Z) : TemplateValue :=
  match muteTime with
  | Some ms => if ms =? 0 then Num 0 else Str (humanizeDuration env ms)
  | None => Null
  end.

(** The local [muteMessage] of [muteCmd]. *)
Definition muteMessage (env : Env) (muteTime : option Z) (reason : option string)
    : string :=
  let template :=
    if Js.truthyNum muteTime then timed_mute_message (config env)
    else mute_message (config env) in
  formatTemplateString env template
    [("guildName", Str (guildName env)); ("reason", valueOf reason);
     ("time", timeUntilUnmute env muteTime)].

(** The local [response] of [muteCmd], before the remark on delivery. *)
Definition muteResponse (env : Env) (a_member : Member) (muteTime : option Z) : string :=
  (if Js.truthyNum muteTime then
     "Muted **" ++ tag (user a_member) ++ "** for "
     ++ interpolate (timeUntilUnmute env muteTime)
   else
     "Muted **" ++ tag (user a_member) ++ "** indefinitely")%string.

(** [muteCmd(msg, args)], [args = { member, time?, reason? }] *)
Definition muteCmd (env : Env) (msg : Message) (a_member : Member)
    (a_time a_reason : option string) : Cmd unit :=
  when (negb (Js.truthy (mute_role (config env))))
    (emit (CreateMessage (errorMessage "Cannot mute: no mute role specified")) ;;
     return_) ;;
  when (negb (canActOn env (member msg) a_member))
    (emit (CreateMessage (errorMessage "Cannot mute: insufficient permissions")) ;;
     return_) ;;
  let muteTime := muteTimeOf env a_time in
  let reason := muteReasonOf env a_time a_reason in
  emit (IgnoreLog LogType.MEMBER_ROLE_ADD (member_id a_member) None) ;;
  emit (FireMute (member_id a_member) muteTime) ;;
  match fireMute env a_member muteTime with
  | None =>
      emit (CreateMessage (errorMessage "Could not mute the user")) ;;
      return_
  | Some mute =>
      let hasOldCase := match case_id mute with Some _ => true | None => false end in
      match case_id mute with
      | Some oldCase =>
          when (Js.truthy reason)
            (emit (FireCreateCaseNote oldCase (id (author msg)) (orEmpty reason)))
      | None =>
          let theCase :=
            commandedCase (member_id a_member) (id (author msg)) CaseTypes.Mute reason in
          emit (FireCreateCase theCase) ;;
          emit (SetCaseId (member_id a_member) (newCaseId env theCase))
      end ;;
      messageSent <-
        (if Js.truthy reason && negb hasOldCase then
           tryToMessageUser env (user a_member) (muteMessage env muteTime reason)
             (dm_on_mute (config env)) (message_on_mute (config env))
         else ret true) ;;
      emit (CreateMessage
              (successMessage
                 (muteResponse env a_member muteTime
                  ++ failedToMessage messageSent)%string)) ;;
      emit (Log LogType.MEMBER_MUTE (id (user (member msg)))
                (Some (member_id a_member)) None)
  end.

(** The local [kickMessage] of [kickCmd]. *)
Definition kickMessage (env : Env) (reason : option string) : string :=
  formatTemplateString env (kick_message (config env))
    [("guildName", Str (guildName env)); ("reason", valueOf reason)].

(** [kickCmd(msg, args)], [args = { member, reason }] *)
Definition kickCmd (env : Env) (msg : Message) (a_member : Member)
    (a_reason : option string) : Cmd unit :=
  when (negb (canActOn env (member msg) a_member))
    (emit (CreateMessage (errorMessage "Cannot kick: insufficient permissions")) ;;
     return_) ;;
  messageSent <-
    (if Js.truthy a_reason then
       tryToMessageUser env (user a_member) (kickMessage env a_reason)
         (dm_on_kick (config env)) (message_on_kick (config env))
     else ret true) ;;
  emit (IgnoreLog LogType.MEMBER_KICK (member_id a_member) None) ;;
  ignoreEvent IgnoredEventType.Kick (member_id a_member) None ;;
  (* args.member.kick(args.reason) is not awaited *)
  emit (MemberKick (member_id a_member) a_reason (kickResolves env (member_id a_member))) ;;
  emit (FireCreateCase
          (commandedCase (member_id a_member) (id (author msg)) CaseTypes.Kick a_reason)) ;;
  emit (CreateMessage
          (successMessage
             ("Kicked **" ++ tag (user a_member) ++ "**" ++ failedToMessage messageSent)%string)) ;;
  emit (Log LogType.MEMBER_KICK (id (user (member msg)))
            (Some (id (user a_member))) None).

(** The local [banMessage] of [banCmd]. *)
Definition banMessage (env : Env) (reason : option string) : string :=
  formatTemplateString env (ban_message (config env))
    [("guildName", Str (guildName env)); ("reason", valueOf reason)].

(** [banCmd(msg, args)], [args = { member, reason }] *)
Definition banCmd (env : Env) (msg : Message) (a_member : Member)
    (a_reason : option string) : Cmd unit :=
  when (negb (canActOn env (member msg) a_member))
    (emit (CreateMessage (errorMessage "Cannot ban: insufficient permissions")) ;;
     return_) ;;
  messageSent <-
    (if Js.truthy a_reason then
       tryToMessageUser env (user a_member) (banMessage env a_reason)
         (dm_on_ban (config env)) (message_on_ban (config env))
     else ret true) ;;
  emit (IgnoreLog LogType.MEMBER_BAN (member_id a_member) None) ;;
  ignoreEvent IgnoredEventType.Ban (member_id a_member) None ;;
  (* args.member.ban(1, args.reason) is not awaited *)
  emit (BanMember (member_id a_member) (Some 1) a_reason
                  (banResolves env 0%nat (member_id a_member))) ;;
  emit (FireCreateCase
          (commandedCase (member_id a_member) (id (author msg)) CaseTypes.Ban a_reason)) ;;
  emit (CreateMessage
          (successMessage
             ("Banned **" ++ tag (user a_member) ++ "**" ++ failedToMessage messageSent)%string)) ;;
  emit (Log LogType.MEMBER_BAN (id (user (member msg)))
            (Some (member_id a_member)) None).

(** [softbanCmd(msg, args)], [args = { member, reason }] *)
Definition softbanCmd (env : Env) (msg : Message) (a_member : Member)
    (a_reason : option string) : Cmd unit :=
  when (negb (canActOn env (member msg) a_member))
    (emit (CreateMessage (errorMessage "Cannot ban: insufficient permissions")) ;;
     return_) ;;
  emit (IgnoreLog LogType.MEMBER_BAN (member_id a_member) None) ;;
  emit (IgnoreLog LogType.MEMBER_UNBAN (member_id a_member) None) ;;
  ignoreEvent IgnoredEventType.Ban (member_id a_member) None ;;
  ignoreEvent IgnoredEventType.Unban (member_id a_member) None ;;
  await (BanMember (member_id a_member) (Some 1) a_reason)
        (banResolves env 0%nat (member_id a_member)) ;;
  await (UnbanMember (member_id a_member)) (unbanResolves env (member_id a_member)) ;;
  emit (FireCreateCase
          (commandedCase (member_id a_member) (id (author msg)) CaseTypes.Softban a_reason)) ;;
  emit (CreateMessage
          (successMessage ("Softbanned **" ++ tag (user a_member) ++ "**")%string)) ;;
  emit (Log LogType.MEMBER_SOFTBAN (id (user (member msg)))
            (Some (member_id a_member)) None).

(** [unbanCmd(msg, args)], [args = { userId, reason }] *)
Definition unbanCmd (env : Env) (msg : Message) (a_userId : string)
    (a_reason : option string) : Cmd unit :=
  emit (IgnoreLog LogType.MEMBER_UNBAN a_userId None) ;;
  tryCatch
    (ignoreEvent IgnoredEventType.Unban a_userId None ;;
     await (UnbanMember a_userId) (unbanResolves env a_userId))
    (emit (CreateMessage (errorMessage "Failed to unban member")) ;;
     return_) ;;
  emit (CreateMessage (successMessage "Member unbanned!")) ;;
  emit (FireCreateCase
          (commandedCase a_userId (id (author msg)) CaseTypes.Unban a_reason)) ;;
  emit (Log LogType.MEMBER_UNBAN (id (user (member msg))) (Some a_userId) None).

(** [forcebanCmd(msg, args)], [args = { userId, reason }] *)
Definition forcebanCmd (env : Env) (msg : Message) (a_userId : string)
    (a_reason : option string) : Cmd unit :=
  match guildMembers env a_userId with
  | Some target =>
      when (negb (canActOn env (member msg) target))
        (emit (CreateMessage
                 (errorMessage "Cannot forceban this user: insufficient permissions")) ;;
         return_)
  | None => ret tt
  end ;;
  ignoreEvent IgnoredEventType.Ban a_userId None ;;
  emit (IgnoreLog LogType.MEMBER_BAN a_userId None) ;;
  tryCatch
    (await (BanMember a_userId (Some 1) a_reason) (banResolves env 0%nat a_userId))
    (emit (CreateMessage (errorMessage "Failed to forceban member")) ;;
     return_) ;;
  emit (CreateMessage (successMessage "Member forcebanned!")) ;;
  emit (FireCreateCase
          (commandedCase a_userId (id (author msg)) CaseTypes.Ban a_reason)) ;;
  emit (Log LogType.MEMBER_FORCEBAN (id (user (member msg))) (Some a_userId) None).


(** *** The massban runner *)

(** Decimal rendering of a count in a template literal. *)
Definition numberToString (n : Z) : string :=
  DecimalString.NilZero.string_of_int (Z.to_int n).

(** [!banReasonReply || !banReasonReply.content ||
     banReasonReply.content.toLowerCase().trim() === "cancel"].
    Lower-casing the ASCII letters decides the comparison: no character
    outside ASCII lower-cases to one of the letters of "cancel". *)
Definition massbanCancelled (reply : option string) : bool :=
  match reply with
  | None => true
  | Some content =>
      negb (Js.truthy (Some content))
      || String.eqb (Js.trim (Js.toLowerCase content)) "cancel"
  end.

(** The first loop of [massbanCmd]: verify we can act on each user. *)
Fixpoint massbanVerify (env : Env) (msg : Message) (userIds : list string) : Cmd unit :=
  match userIds with
  | [] => ret tt
  | userId :: rest =>
      match guildMembers env userId with
      | Some target =>
          when (negb (canActOn env (member msg) target))
            (emit (CreateMessage
                     (errorMessage
                        "Cannot massban one or more users: insufficient permissions")) ;;
             return_)
      | None => ret tt
      end ;;
      massbanVerify env msg rest
  end.

(** The [forEach] of [massbanCmd]: ignore the ban echoes, 120 s each. *)
Fixpoint massbanIgnore (userIds : list string) : Cmd unit :=
  match userIds with
  | [] => ret tt
  | userId :: rest =>
      ignoreEvent IgnoredEventType.Ban userId (Some (120 * 1000)) ;;
      emit (IgnoreLog LogType.MEMBER_BAN userId (Some (120 * 1000))) ;;
      massbanIgnore rest
  end.

Definition massbanCase (msg : Message) (banReason userId : string) : CaseArgs :=
  {| c_userId := userId;
     c_modId := Some (id (author msg));
     c_type := CaseTypes.Ban;
     c_auditLogId := None;
     c_reason := Some ("Mass ban: " ++ banReason)%string;
     c_automatic := None;
     c_postInCaseLog := Some false |}.

(** The second loop of [massbanCmd]: ban each user, collecting the failed
    ones; [i] is the position of the head of [userIds] in the whole list. *)
Fixpoint massbanLoop (env : Env) (msg : Message) (banReason : string)
    (i : nat) (userIds failedBans : list string) : Cmd (list string) :=
  match userIds with
  | [] => ret failedBans
  | userId :: rest =>
      failedBans' <-
        tryCatch
          (await (BanMember userId None None) (banResolves env i userId) ;;
           emit (FireCreateCase (massbanCase msg banReason userId)) ;;
           ret failedBans)
          (ret (Js.push failedBans userId)) ;;
      massbanLoop env msg banReason (S i) rest failedBans'
  end.

(** [massbanCmd(msg, args)], [args = { userIds }] *)
Definition massbanCmd (env : Env) (msg : Message) (userIds : list string) : Cmd unit :=
  when (100 <? Z.of_nat (List.length userIds))
    (emit (CreateMessage (errorMessage "Can only massban max 100 users at once")) ;;
     return_) ;;
  emit (CreateMessage (plainMessage "Ban reason? `cancel` to cancel")) ;;
  emit WaitForReply ;;
  when (massbanCancelled (waitForReply env))
    (emit (CreateMessage (plainMessage "Cancelled")) ;;
     return_) ;;
  let banReason := orEmpty (waitForReply env) in
  massbanVerify env msg userIds ;;
  massbanIgnore userIds ;;
  emit (CreateMessage (plainMessage "Banning...")) ;;
  failedBans <- massbanLoop env msg banReason 0%nat userIds [] ;;
  emit DeleteMessage ;;
  let successfulBanCount :=
    Z.of_nat (List.length userIds) - Z.of_nat (List.length failedBans) in
  if successfulBanCount =? 0 then
    emit (CreateMessage (errorMessage "All bans failed. Make sure the IDs are valid."))
  else
    emit (Log LogType.MASSBAN (id (author msg)) None (Some successfulBanCount)) ;;
    if negb (Nat.eqb (List.length failedBans) 0) then
      emit (CreateMessage
              (successMessage
                 ("Banned " ++ numberToString successfulBanCount ++ " users, "
                  ++ numberToString (Z.of_nat (List.length failedBans))
                  ++ " failed: " ++ String.concat " " failedBans)%string))
    else
      emit (CreateMessage
              (successMessage
                 ("Banned " ++ numberToString successfulBanCount
                  ++ " users successfully")%string)).

(* ------------------------------------------------------------------ *)
(** ** Reading a run *)

(** Run a handler on a plugin whose ledger is [ledger], with nothing done
    yet; the result is the plugin afterwards and what the handler did. *)
Definition run {A} (c : Cmd A) (ledger : list IIgnoredEvent) : World :=
  snd (c (mkWorld ledger [] [])).

(** The plugin after one more handler has run on it. *)
Definition after {A} (c : Cmd A) (w : World) : World := snd (c w).

(** The gateway handler that observes an event of the given kind. *)
Definition observe (env : Env) (kind : IgnoredEventType.t) (u : User) : Cmd unit :=
  match kind with
  | IgnoredEventType.Ban => onGuildBanAdd env u
  | IgnoredEventType.Unban => onGuildBanRemove env u
  | IgnoredEventType.Kick => onGuildMemberRemove env (mkMember u)
  end.

(** The audit-log action that handler looks up. *)
Definition auditActionOf (kind : IgnoredEventType.t) : AuditLogActions.t :=
  match kind with
  | IgnoredEventType.Ban => AuditLogActions.MEMBER_BAN_ADD
  | IgnoredEventType.Unban => AuditLogActions.MEMBER_BAN_REMOVE
  | IgnoredEventType.Kick => AuditLogActions.MEMBER_KICK
  end.

(** The cases a trace creates, in order. *)
Fixpoint createdCases (t : list Effect) : list CaseArgs :=
  match t with
  | FireCreateCase c :: t' => c :: createdCases t'
  | _ :: t' => createdCases t'
  | [] => []
  end.

(** The notes a trace appends: (case id, author, body). *)
Fixpoint createdNotes (t : list Effect) : list (Z * string * string) :=
  match t with
  | FireCreateCaseNote c m n :: t' => (c, m, n) :: createdNotes t'
  | _ :: t' => createdNotes t'
  | [] => []
  end.

(** The users a trace asks the platform to ban, in order. *)
Fixpoint banRequests (t : list Effect) : list string :=
  match t with
  | BanMember u _ _ _ :: t' => u :: banRequests t'
  | _ :: t' => banRequests t'
  | [] => []
  end.

(** The [count] fields of the MASSBAN entries a trace writes to the
    activity log. *)
Fixpoint massbanLogs (t : list Effect) : list (option Z) :=
  match t with
  | Log LogType.MASSBAN _ _ n :: t' => n :: massbanLogs t'
  | _ :: t' => massbanLogs t'
  | [] => []
  end.

(** The users for whom a trace asks the activity log to ignore an entry. *)
Fixpoint ignoredLogs (t : list Effect) : list string :=
  match t with
  | IgnoreLog _ u _ :: t' => u :: ignoredLogs t'
  | _ :: t' => ignoredLogs t'
  | [] => []
  end.

Definition isNotification (e : Effect) : bool :=
  match e with
  | DirectMessage _ _ _ | FallbackMessage _ _ _ => true
  | _ => false
  end.

(** Kick, ban and unban requests to the platform. *)
Definition isMutation (e : Effect) : bool :=
  match e with
  | MemberKick _ _ _ | BanMember _ _ _ _ | UnbanMember _ _ => true
  | _ => false
  end.

(** Which notification attempt reaches the user: the value
    [tryToMessageUser] resolves to. *)
Definition delivered (env : Env) (u : User) (str : string)
    (useDM useChannel : bool) : bool :=
  if negb useDM && negb useChannel then true
  else
    (useDM && dmResolves env (id u) str)
    || (useChannel && Js.truthy (message_channel (config env))
        && channelResolves env (orEmpty (message_channel (config env)))
             ("<@!" ++ id u ++ "> " ++ str)%string).

(** The deliveries that are due for a message under the two switches: the
    direct message when it is switched on, then the message in the
    fallback channel when that is switched on and a channel is configured. *)
Definition expectedAttempts (env : Env) (u : User) (str : string)
    (useDM useChannel : bool) : list Effect :=
  (if useDM then [DirectMessage (id u) str (dmResolves env (id u) str)] else [])
  ++ (if useChannel && Js.truthy (message_channel (config env))
      then
        let channel := orEmpty (message_channel (config env)) in
        let text := ("<@!" ++ id u ++ "> " ++ str)%string in
        [FallbackMessage channel text (channelResolves env channel text)]
      else []).

(** The delivery attempts [tryToMessageUser] makes, in order. *)
Definition attempts (env : Env) (u : User) (str : string)
    (useDM useChannel : bool) : list Effect :=
  trace (run (tryToMessageUser env u str useDM useChannel) []).

(** Every notification attempt of a trace comes before every request that
    removes the user. *)
Definition notificationsPrecedeMutations (t : list Effect) : Prop :=
  forall (i j : nat) (e1 e2 : Effect),
    nth_error t i = Some e1 -> isNotification e1 = true ->
    nth_error t j = Some e2 -> isMutation e2 = true ->
    (i < j)%nat.

Definition isFallback (e : Effect) : bool :=
  match e with
  | FallbackMessage _ _ _ => true
  | _ => false
  end.

(** What the notification of a kick or a ban attempts and whether it
    reaches the user; without a reason nothing is sent and the handler's
    [messageSent] stays [true]. *)
Definition kickAttempts (env : Env) (target : Member) (reason : option string)
    : list Effect :=
  if Js.truthy reason then
    attempts env (user target) (kickMessage env reason)
             (dm_on_kick (config env)) (message_on_kick (config env))
  else [].

Definition banAttempts (env : Env) (target : Member) (reason : option string)
    : list Effect :=
  if Js.truthy reason then
    attempts env (user target) (banMessage env reason)
             (dm_on_ban (config env)) (message_on_ban (config env))
  else [].

Definition kickDelivered (env : Env) (target : Member) (reason : option string) : bool :=
  if Js.truthy reason then
    delivered env (user target) (kickMessage env reason)
              (dm_on_kick (config env)) (message_on_kick (config env))
  else true.

Definition banDelivered (env : Env) (target : Member) (reason : option string) : bool :=
  if Js.truthy reason then
    delivered env (user target) (banMessage env reason)
              (dm_on_ban (config env)) (message_on_ban (config env))
  else true.

(** Whether the notification of a warning reaches the user. *)
Definition warnDelivered (env : Env) (target : Member) (reason : string) : bool :=
  delivered env (user target) (warnMessage env reason)
            (dm_on_warn (config env)) (message_on_warn (config env)).

(** The operator answered the prompt of [warnCmd] with the check mark. *)
Definition confirmed (reaction : option Reaction) : bool :=
  match reaction with
  | Some CheckMark => true
  | _ => false
  end.

(** Whether the notification of a first mute reaches the user; without a
    reason nothing is sent and [messageSent] stays [true]. *)
Definition muteDelivered (env : Env) (target : Member) (time reason : option string)
    : bool :=
  if Js.truthy (muteReasonOf env time reason) then
    delivered env (user target)
              (muteMessage env (muteTimeOf env time) (muteReasonOf env time reason))
              (dm_on_mute (config env)) (message_on_mute (config env))
  else true.

Ltac unfold_cmd :=
  unfold bind, when, emit, await, tryCatch, ret, return_, throw,
    ignoreEvent, isEventIgnored, Js.push in *.

(** The targets of a massban whose ban request resolves / rejects, [i]
    being the position of the head of the list. *)
Fixpoint succeededFrom (env : Env) (i : nat) (userIds : list string) : list string :=
  match userIds with
  | [] => []
  | u :: rest =>
      if banResolves env i u then u :: succeededFrom env (S i) rest
      else succeededFrom env (S i) rest
  end.

Fixpoint failedFrom (env : Env) (i : nat) (userIds : list string) : list string :=
  match userIds with
  | [] => []
  | u :: rest =>
      if banResolves env i u then failedFrom env (S i) rest
      else u :: failedFrom env (S i) rest
  end.

(** Every target that is a member of the server passes the authority
    check / some target that is a member fails it. *)
Definition mayActOnAll (env : Env) (msg : Message) (userIds : list string) : Prop :=
  forall u target,
    In u userIds -> guildMembers env u = Some target ->
    canActOn env (member msg) target = true.

Definition mayNotActOnSome (env : Env) (msg : Message) (userIds : list string) : Prop :=
  exists u target,
    In u userIds /\ guildMembers env u = Some target
    /\ canActOn env (member msg) target = false.

(** What the second loop of [massbanCmd] does for the targets from
    position [i] on: a ban request each, and a case after each request
    that resolves. *)
Fixpoint massbanEffects (env : Env) (msg : Message) (banReason : string)
    (i : nat) (userIds : list string) : list Effect :=
  match userIds with
  | [] => []
  | u :: rest =>
      (if banResolves env i u
       then [BanMember u None None true; FireCreateCase (massbanCase msg banReason u)]
       else [BanMember u None None false])
      ++ massbanEffects env msg banReason (S i) rest
  end.

(** No notification attempt comes after a request that removes the user. *)
Fixpoint notifiedBeforeMutated (t : list Effect) : bool :=
  match t with
  | [] => true
  | e :: t' =>
      (if isMutation e then forallb (fun x => negb (isNotification x)) t' else true)
      && notifiedBeforeMutated t'
  end.

(* ------------------------------------------------------------------ *)
(** ** Sample collaborators, for concrete runs *)

Definition sampleConfig : Config :=
  {| mute_role := Some "500";
     dm_on_warn := true;
     dm_on_mute := false;
     dm_on_kick := false;
     dm_on_ban := false;
     message_on_warn := false;
     message_on_mute := false;
     message_on_kick := false;
     message_on_ban := false;
     message_channel := None;
     warn_message := "You have received a warning on {guildName}: {reason}";
     mute_message := "You have been muted on {guildName}. Reason given: {reason}";
     timed_mute_message :=
       "You have been muted on {guildName} for {time}. Reason given: {reason}";
     kick_message := "You have been kicked from {guildName}. Reason given: {reason}";
     ban_message := "You have been banned from {guildName}. Reason given: {reason}" |}.

(** A server described by: the answer of the authority check, the member
    cache, whether messages to users go through, which platform requests
    resolve, the operator's reaction, the case id of the mute the Mutes
    plugin hands back, and the audit log. *)
Definition sampleEnvWith (allowed : bool) (members : string -> option Member)
    (messages : bool) (platform : nat -> string -> bool)
    (reaction : option Reaction) (muteCase : option Z)
    (audit : AuditLogActions.t -> string -> option AuditLogEntry) : Env :=
  {| guildName := "Guild";
     config := sampleConfig;
     canActOn := fun _ _ => allowed;
     guildMembers := members;
     dmResolves := fun _ _ => messages;
     channelResolves := fun _ _ => messages;
     findRelevantAuditLogEntry := audit;
     fireMute := fun m _ => Some (mkMute (member_id m) muteCase);
     newCaseId := fun _ => 1;
     kickResolves := platform 0%nat;
     banResolves := platform;
     unbanResolves := platform 0%nat;
     waitForReaction := reaction;
     waitForReply := Some "raid";
     convertDelayStringToMS := fun _ => None;
     humanizeDuration := fun _ => "a while";
     formatTemplateString := fun template _ => template;
     replace := fun s _ _ => s |}.

(** A server where every request resolves, the audit log is empty and
    nobody is muted yet. *)
Definition sampleEnv : Env :=
  sampleEnvWith true (fun _ => None) true (fun _ _ => true) None None
                (fun _ _ => None).

Definition moderator : Message :=
  mkMessage (mkUser "100" "mod" "0001") (mkMember (mkUser "100" "mod" "0001")).

Definition alice : User := mkUser "1" "alice" "0002".
Definition bob : User := mkUser "2" "bob" "0003".

(** The same server once the audit log holds a kick of the looked-up user
    by the moderator. *)
Definition kickAuditEnv : Env :=
  sampleEnvWith true (fun _ => None) true (fun _ _ => true) None None
    (fun action _ =>
       match action with
       | AuditLogActions.MEMBER_KICK => Some (mkAudit "900" (author moderator) None)
       | _ => None
       end).

(** A server that messages the user both directly and in channel 700 on
    every punitive command; every request resolves. *)
Definition notifyingEnv : Env :=
  mkEnv "Guild"
    (mkConfig (Some "500") true true true true true true true true (Some "700")
              "warned" "muted" "muted for a time" "kicked" "banned")
    (fun _ _ => true) (fun _ => None) (fun _ _ => true) (fun _ _ => true)
    (fun _ _ => None) (fun m _ => Some (mkMute (member_id m) None)) (fun _ => 1)
    (fun _ => true) (fun _ _ => true) (fun _ => true) None (Some "raid")
    (fun _ => None) (fun _ => "a while") (fun template _ => template)
    (fun s _ _ => s).

(** The same server when the platform rejects every request. *)
Definition rejectingEnv : Env :=
  sampleEnvWith true (fun _ => None) true (fun _ _ => false) None None
                (fun _ _ => None).

(** The same server when no message reaches the user and the operator
    answers the confirmation prompt with the given reaction. *)
Definition undeliverableEnv (reaction : option Reaction) : Env :=
  sampleEnvWith true (fun _ => None) false (fun _ _ => true) reaction None
                (fun _ _ => None).

(** The same server when the target is already muted under case 7. *)
Definition mutedEnv : Env :=
  sampleEnvWith true (fun _ => None) true (fun _ _ => true) None (Some 7)
                (fun _ _ => None).

(** The same server when the ban of user B is rejected. *)
Definition partialEnv : Env :=
  sampleEnvWith true (fun _ => None) true (fun _ u => negb (String.eqb u "B")) None None
                (fun _ _ => None).

(** A server where user 2 is a member the moderator may not act on. *)
Definition protectedEnv : Env :=
  sampleEnvWith false
    (fun u => if String.eqb u "2" then Some (mkMember (mkUser "2" "bob" "0003")) else None)
    true (fun _ _ => true) None None (fun _ _ => None).

(* ------------------------------------------------------------------ *)
(** ** Counting suppressions *)

(** How many entries of the ledger stand for the pair. *)
Definition pending (type : IgnoredEventType.t) (userId : string)
    (ledger : list IIgnoredEvent) : nat :=
  List.length (filter (sameEvent type userId) ledger).

(** Whether a delivery attempt went through. *)
Definition attemptResolved (e : Effect) : bool :=
  match e with
  | DirectMessage _ _ ok => ok
  | FallbackMessage _ _ ok => ok
  | _ => false
  end.

(** The sample server with a fallback channel and both ways of messaging
    a kicked user switched on; direct messages are rejected. *)
Definition channelEnv : Env :=
  mkEnv "Guild"
    (mkConfig (Some "500") true false true false false false true false (Some "700")
              "" "" "" "bye" "")
    (fun _ _ => true) (fun _ => None) (fun _ _ => false) (fun _ _ => true)
    (fun _ _ => None) (fun _ _ => None) (fun _ => 1) (fun _ => true)
    (fun _ _ => true) (fun _ => true) None None (fun _ => None) (fun _ => "")
    (fun template _ => template) (fun s _ _ => s).

(** The sample server when the moderator may act on nobody. *)
Definition deniedEnv : Env :=
  sampleEnvWith false (fun _ => None) true (fun _ _ => true) None None
                (fun _ _ => None).

(* ------------------------------------------------------------------ *)
(** ** More JavaScript builtins *)

Module JsStr.

(** [String.prototype.slice(begin, end)]: a negative index counts from
    the end, both are clamped to the string, and an empty string results
    when [end] does not lie after [begin]. *)
Definition slice (s : string) (begin_ end_ : Z) : string :=
  let len := Z.of_nat (String.length s) in
  let from := if begin_ <? 0 then Z.max (len + begin_) 0 else Z.min begin_ len in
  let to := if end_ <? 0 then Z.max (len + end_) 0 else Z.min end_ len in
  substring (Z.to_nat from) (Z.to_nat (Z.max (to - from) 0)) s.

(** [s.slice(begin)] *)
Definition sliceFrom (s : string) (begin_ : Z) : string :=
  slice s begin_ (Z.of_nat (String.length s)).

Definition upperChar (c : ascii) : ascii :=
  let n := nat_of_ascii c in
  if (Nat.leb 97 n && Nat.leb n 122)%bool then ascii_of_nat (n - 32) else c.

(** [String.prototype.toUpperCase]. *)
Fixpoint toUpperCase (s : string) : string :=
  match s with
  | String c s' => String (upperChar c) (toUpperCase s')
  | EmptyString => EmptyString
  end.

Definition isDigit (c : ascii) : bool :=
  let n := nat_of_ascii c in (Nat.leb 48 n && Nat.leb n 57)%bool.

Fixpoint allDigits (s : string) : bool :=
  match s with
  | String c s' => isDigit c && allDigits s'
  | EmptyString => true
  end.

(** The UTF-16 code units of a string, which [length] counts and
    [slice] cuts by: one for a character of the basic plane, a high and a
    low surrogate for any other. *)
Definition unitsOf (cp : N) : list N :=
  if (cp <? 65536)%N then [cp]
  else [(55296 + (cp - 65536) / 1024)%N; (56320 + (cp - 65536) mod 1024)%N].

Definition units (s : string) : list N := flat_map (fun ch => unitsOf (fst ch)) (Js.chars s).

(** [String.prototype.slice(begin, end)] on the code units. *)
Definition sliceUnits (u : list N) (begin_ end_ : Z) : list N :=
  let len := Z.of_nat (List.length u) in
  let from := if begin_ <? 0 then Z.max (len + begin_) 0 else Z.min begin_ len in
  let to := if end_ <? 0 then Z.max (len + end_) 0 else Z.min end_ len in
  firstn (Z.to_nat (Z.max (to - from) 0)) (skipn (Z.to_nat from) u).

(** The class [[.,!?\s]], on a code unit. *)
Definition isBreak (u : N) : bool :=
  ((u =? 46) || (u =? 44) || (u =? 33) || (u =? 63))%N || Js.isWhiteSpace u.

(** [s.match(/(?:[.,!?\s]|$)/).index]: the position of the first code
    unit of the class, the length of [s] when there is none (the [$]
    alternative); the match never fails. *)
Fixpoint breakIndex (u : list N) : Z :=
  match u with
  | x :: u' => if isBreak x then 0 else 1 + breakIndex u'
  | [] => 0
  end.

(** [String.prototype.startsWith]. *)
Definition startsWith (s pre : string) : bool := String.prefix pre s.

End JsStr.

(* ------------------------------------------------------------------ *)
(** ** The commands that only talk to the stores *)

(** Calls these handlers and the censor make, beside the ones named so
    far; a request carries whether it resolved. *)
Inductive Call : Set :=
| Core (e : Effect)
| FindByCaseNumber (caseNumber : Z)
| GetByUserId (userId : string)
| FindExistingMuteForUserId (userId : string)
| FireUnmute (memberId : string) (unmuteTime : option Z)
| FirePostCase (caseId : Z)
| FirePostMuteList
| AlertSend (channelId text : string)
| GetInvite (code : string) (ok : bool)
| IgnoreMessageDelete (messageId : string)
| MessageDelete (messageId : string) (ok : bool)
| LogCensor (messageId reason : string).

Record CaseNote : Set := mkCaseNote {
  body : string;
  created_at : string
}.

(** The [Case] entity, as far as these handlers read it. *)
Record Case : Set := mkCase {
  case_pk : Z;
  case_number : Z;
  case_type : CaseTypes.t;
  notes : list CaseNote
}.

(** What the stores and caches answer, and the helpers of ../utils these
    handlers pass their text through.  [guildChannels c]: the guild has a
    channel [c]; [caseTypeByName n]: the truthy value of [CaseTypes[n]];
    [sortNotes]: the array after [notes.sort(...)] with the handler's
    comparator; [disableLinkPreviews]: the helper's result on the string
    of the given code units. *)
Record Services : Type := mkServices {
  findByCaseNumber : Z -> option Case;
  getByUserId : string -> list Case;
  findExistingMuteForUserId : string -> option Mute;
  botUsers : string -> option User;
  alert_on_rejoin : bool;
  alert_channel : option string;
  guildChannels : string -> bool;
  prefix : string;
  caseTypeByName : string -> option CaseTypes.t;
  sortNotes : list CaseNote -> list CaseNote;
  disableLinkPreviews : list N -> string;
  trimLines : string -> string;
  chunkMessageLines : string -> list string
}.

(** These handlers keep no state of their own: a run is the list of its
    calls, and ends like a command does. *)
Definition Act (A : Type) : Type := list Call -> Outcome A * list Call.

Definition act_ret {A} (a : A) : Act A := fun t => (Value a, t).

Definition act_bind {A B} (m : Act A) (k : A -> Act B) : Act B :=
  fun t =>
    match m t with
    | (Value a, t') => k a t'
    | (Returned, t') => (Returned, t')
    | (Thrown, t') => (Thrown, t')
    end.

Definition act_return {A} : Act A := fun t => (Returned, t).
Definition act_throw {A} : Act A := fun t => (Thrown, t).

Definition call (c : Call) : Act unit := fun t => (Value tt, t ++ [c]).

Definition act_when (b : bool) (c : Act unit) : Act unit :=
  if b then c else act_ret tt.

Fixpoint act_forEach {A} (f : A -> Act unit) (l : list A) : Act unit :=
  match l with
  | [] => act_ret tt
  | x :: rest => act_bind (f x) (fun _ => act_forEach f rest)
  end.

Declare Scope act_scope.
Delimit Scope act_scope with act.
Notation "x <- m ;; k" := (act_bind m (fun x => k))
  (at level 61, m at next level, right associativity) : act_scope.
Notation "m ;; k" := (act_bind m (fun _ => k))
  (at level 61, right associativity) : act_scope.

(** The calls of a handler run from scratch. *)
Definition calls {A} (c : Act A) : list Call := snd (c []).

Definition reply (m : ChannelMessage) : Act unit := call (Core (CreateMessage m)).

(** [onGuildMemberAdd(_, member)] *)
Definition onGuildMemberAdd (svc : Services) (member : Member) : Act unit :=
  (act_when (negb (alert_on_rejoin svc)) act_return ;;
   act_when (negb (Js.truthy (alert_channel svc))) act_return ;;
   let alertChannelId := orEmpty (alert_channel svc) in
   call (GetByUserId (member_id member)) ;;
   let actions := getByUserId svc (member_id member) in
   act_when (negb (Nat.eqb (List.length actions) 0))
     (if guildChannels svc alertChannelId then
        call (AlertSend alertChannelId
                ("<@!" ++ member_id member ++ "> (" ++ tag (user member) ++ " `"
                 ++ member_id member ++ "`) joined with "
                 ++ numberToString (Z.of_nat (List.length actions))
                 ++ " prior record(s)")%string)
      else act_throw))%act.

(** [updateCmd(msg, args)], [args = { caseNumber, note }] *)
Definition updateCmd (svc : Services) (msg : Message) (a_caseNumber : Z)
    (a_note : string) : Act unit :=
  (call (FindByCaseNumber a_caseNumber) ;;
   match findByCaseNumber svc a_caseNumber with
   | None => reply (errorMessage "Case not found") ;; act_return
   | Some theCase =>
       call (Core (FireCreateCaseNote (case_pk theCase) (id (author msg)) a_note)) ;;
       reply (successMessage
                ("Case `#" ++ numberToString (case_number theCase) ++ "` updated")%string)
   end)%act.

(** [noteCmd(msg, args)], [args = { userId, note }] *)
Definition noteCmd (svc : Services) (msg : Message) (a_userId a_note : string)
    : Act unit :=
  (let userName :=
     match botUsers svc a_userId with
     | Some u => tag u
     | None => "member"
     end in
   call (Core (FireCreateCase
                 (commandedCase a_userId (id (author msg)) CaseTypes.Note (Some a_note)))) ;;
   reply (successMessage ("Note added on " ++ userName)%string))%act.

(** [unmuteCmd(msg, args)], [args = { member, time?, reason? }] *)
Definition unmuteCmd (env : Env) (svc : Services) (msg : Message) (a_member : Member)
    (a_time a_reason : option string) : Act unit :=
  (act_when (negb (Js.truthy (mute_role (config env))))
     (reply (errorMessage "Cannot unmute: no mute role specified") ;; act_return) ;;
   act_when (negb (canActOn env (member msg) a_member))
     (reply (errorMessage "Cannot unmute: insufficient permissions") ;; act_return) ;;
   call (FindExistingMuteForUserId (member_id a_member)) ;;
   match findExistingMuteForUserId svc (member_id a_member) with
   | None => reply (errorMessage "Cannot unmute: member is not muted") ;; act_return
   | Some _ =>
       let unmuteTime := muteTimeOf env a_time in
       let reason := muteReasonOf env a_time a_reason in
       reason' <-
         (if Js.truthyNum unmuteTime then
            call (FireUnmute (member_id a_member) unmuteTime) ;;
            reply (successMessage
                     ("Unmuting **" ++ tag (user a_member) ++ "** in "
                      ++ interpolate (timeUntilUnmute env unmuteTime))%string) ;;
            act_ret (if Js.truthy reason
                     then Some ("Timed unmute: " ++ orEmpty reason)%string
                     else Some "Timed unmute")
          else
            call (Core (IgnoreLog LogType.MEMBER_ROLE_REMOVE (member_id a_member) None)) ;;
            call (FireUnmute (member_id a_member) None) ;;
            reply (successMessage ("Unmuted **" ++ tag (user a_member) ++ "**")%string) ;;
            act_ret reason) ;;
       call (Core (FireCreateCase
                     (commandedCase (member_id a_member) (id (author msg))
                                    CaseTypes.Unmute reason'))) ;;
       call (Core (Log LogType.MEMBER_UNMUTE (id (user (member msg)))
                       (Some (member_id a_member)) None))
   end)%act.

(** [mutesCmd(msg)] *)
Definition mutesCmd : Act unit := call FirePostMuteList.

(** The arguments of addcase, as the signature
    ["<type:string> <target:userId> [reason:string$]"] names them. *)
Record AddcaseArgs : Set := mkAddcaseArgs {
  ac_type : string;
  ac_target : string;
  ac_reason : option string
}.

(** [args.userId]: the signature has no argument of that name. *)
Definition ac_userId (args : AddcaseArgs) : option string := None.

(** [this.guild.members.get(key)], [key] possibly [undefined]. *)
Definition membersGet (env : Env) (key : option string) : option Member :=
  match key with
  | Some k => guildMembers env k
  | None => None
  end.

(** [target.match(/^[0-9]{17,20}$/)] *)
Definition isSnowflakeish (target : string) : bool :=
  JsStr.allDigits target
  && Nat.leb 17 (String.length target) && Nat.leb (String.length target) 20.

(** [addcaseCmd(msg, args)] *)
Definition addcaseCmd (env : Env) (svc : Services) (msg : Message)
    (args : AddcaseArgs) : Act unit :=
  (act_when (negb (isSnowflakeish (ac_target args)))
     (reply (errorMessage "Cannot add case: invalid user id") ;; act_return) ;;
   match membersGet env (ac_userId args) with
   | Some target =>
       act_when (negb (canActOn env (member msg) target))
         (reply (errorMessage "Cannot add case on this user: insufficient permissions") ;;
          act_return)
   | None => act_ret tt
   end ;;
   match ac_type args with
   | EmptyString => act_throw
   | String c rest =>
       let type :=
         String (JsStr.upperChar c)
                (Js.toLowerCase (JsStr.sliceFrom (ac_type args) 1)) in
       match caseTypeByName svc type with
       | None => reply (errorMessage "Cannot add case: invalid case type") ;; act_return
       | Some caseType =>
           call (Core (FireCreateCase
                         (commandedCase (ac_target args) (id (author msg)) caseType
                                        (ac_reason args)))) ;;
           reply (successMessage "Case created!") ;;
           call (Core (Log LogType.CASE_CREATE (id (user (member msg)))
                           (ac_userId args) None))
       end
   end)%act.

(** [showcaseCmd(msg, args)], [args = { caseNumber }] *)
Definition showcaseCmd (svc : Services) (a_caseNumber : Z) : Act unit :=
  (call (FindByCaseNumber a_caseNumber) ;;
   match findByCaseNumber svc a_caseNumber with
   | None => reply (errorMessage "Case not found") ;; act_return
   | Some theCase => call (FirePostCase (case_pk theCase))
   end)%act.

Definition CASE_LIST_REASON_MAX_LENGTH : Z := 80.

(** The preview of a case's first note in the compact list of
    [usercasesCmd], before [disableLinkPreviews], as code units: the cut
    is counted in them and can fall between two surrogates. *)
Definition previewReason (firstNote : option CaseNote) : list N :=
  let reason := JsStr.units (match firstNote with Some n => body n | None => "" end) in
  if CASE_LIST_REASON_MAX_LENGTH <? Z.of_nat (List.length reason) then
    let matchIndex :=
      JsStr.breakIndex (JsStr.sliceUnits reason CASE_LIST_REASON_MAX_LENGTH 20) in
    let nextWhitespaceIndex := CASE_LIST_REASON_MAX_LENGTH + matchIndex in
    if nextWhitespaceIndex <? Z.of_nat (List.length reason) then
      JsStr.sliceUnits reason 0 (nextWhitespaceIndex - 1) ++ JsStr.units "..."
    else reason
  else reason.

(** [CaseTypes[theCase.type]]: the name of the enum member. *)
Definition caseTypeName (t : CaseTypes.t) : string :=
  match t with
  | CaseTypes.Ban => "Ban"
  | CaseTypes.Unban => "Unban"
  | CaseTypes.Note => "Note"
  | CaseTypes.Warn => "Warn"
  | CaseTypes.Kick => "Kick"
  | CaseTypes.Mute => "Mute"
  | CaseTypes.Unmute => "Unmute"
  | CaseTypes.Softban => "Softban"
  end.

(** One line of the compact list. *)
Definition caseLine (svc : Services) (theCase : Case) : string :=
  let reason :=
    disableLinkPreviews svc (previewReason (hd_error (sortNotes svc (notes theCase)))) in
  ("Case `#" ++ numberToString (case_number theCase) ++ "` __"
   ++ caseTypeName (case_type theCase) ++ "__ " ++ reason)%string.

Definition newline : string := String (ascii_of_nat 10) EmptyString.

(** [usercasesCmd(msg, args)], [args = { userId, expanded? }] *)
Definition usercasesCmd (svc : Services) (a_userId : string)
    (a_expanded : option string) : Act unit :=
  (call (GetByUserId a_userId) ;;
   let cases := getByUserId svc a_userId in
   let userName :=
     match botUsers svc a_userId with
     | Some u => tag u
     | None => "Unknown#0000"
     end in
   if Nat.eqb (List.length cases) 0 then
     reply (plainMessage "No cases found for the specified user!")
   else if Js.truthy a_expanded && JsStr.startsWith (orEmpty a_expanded) "expand" then
     act_when (Nat.ltb 8 (List.length cases))
       (reply (plainMessage
                 "Too many cases for expanded view. Please use compact view instead.") ;;
        act_return) ;;
     act_forEach (fun theCase => call (FirePostCase (case_pk theCase))) cases
   else
     let lines := map (caseLine svc) cases in
     let finalMessage :=
       trimLines svc
         (newline ++ "        Cases for **" ++ userName ++ "**:" ++ newline
          ++ newline ++ "        " ++ String.concat newline lines ++ newline
          ++ newline ++ "        Use `" ++ prefix svc
          ++ "case <num>` to see more info about individual cases" ++ newline
          ++ "      ")%string in
     act_forEach (fun msgChunk => reply (plainMessage msgChunk))
                 (chunkMessageLines svc finalMessage))%act.

(** The calls of a run that the first part names. *)
Fixpoint coreEffects (t : list Call) : list Effect :=
  match t with
  | Core e :: t' => e :: coreEffects t'
  | _ :: t' => coreEffects t'
  | [] => []
  end.

(** The unmutes a run fires: member and delay. *)
Fixpoint unmutesFired (t : list Call) : list (string * option Z) :=
  match t with
  | FireUnmute m d :: t' => (m, d) :: unmutesFired t'
  | _ :: t' => unmutesFired t'
  | [] => []
  end.

(** The cases a run asks to have posted. *)
Fixpoint postedCases (t : list Call) : list Z :=
  match t with
  | FirePostCase c :: t' => c :: postedCases t'
  | _ :: t' => postedCases t'
  | [] => []
  end.

(** The reason of the Unmute case: a delayed unmute is marked as such. *)
Definition unmuteReasonOf (env : Env) (a_time a_reason : option string) : option string :=
  let reason := muteReasonOf env a_time a_reason in
  if Js.truthyNum (muteTimeOf env a_time) then
    if Js.truthy reason then Some ("Timed unmute: " ++ orEmpty reason)%string
    else Some "Timed unmute"
  else reason.

(** Stores that know one case (number 5, with the given notes) for every
    user, hold a mute for every member, and have the alert switched on. *)
Definition sampleServices (cases : list Case) : Services :=
  {| findByCaseNumber := fun n => if n =? 5 then hd_error cases else None;
     getByUserId := fun _ => cases;
     findExistingMuteForUserId := fun u => Some (mkMute u (Some 5));
     botUsers := fun _ => None;
     alert_on_rejoin := true;
     alert_channel := Some "800";
     guildChannels := fun _ => true;
     prefix := "!";
     caseTypeByName := fun n => if String.eqb n "Warn" then Some CaseTypes.Warn else None;
     sortNotes := fun l => l;
     disableLinkPreviews := fun _ => "";
     trimLines := fun s => s;
     chunkMessageLines := fun s => [s] |}.

Definition sampleCase : Case :=
  mkCase 41 5 CaseTypes.Warn [mkCaseNote "spam" "2018-07-01"].

(** A server where every user is a member the moderator may not act on. *)
Definition lockedEnv : Env :=
  sampleEnvWith false (fun _ => Some (mkMember bob)) true (fun _ _ => true) None None
                (fun _ _ => None).

(** A server where "10m" is a delay of ten minutes. *)
Definition timedEnv : Env :=
  mkEnv "Guild" sampleConfig (fun _ _ => true) (fun _ => None)
    (fun _ _ => true) (fun _ _ => true) (fun _ _ => None)
    (fun _ _ => None) (fun _ => 1) (fun _ => true) (fun _ _ => true)
    (fun _ => true) None None
    (fun s => if String.eqb s "10m" then Some 600000 else None)
    (fun _ => "10 minutes") (fun template _ => template) (fun s _ _ => s).

(* ------------------------------------------------------------------ *)
(** ** The censor (src/plugins/Censor.ts) *)

Module Censor.

(** One element of a pattern: an ASCII character, compared without
    regard to case (the [i] flag), or [.], any code unit but a line
    terminator. *)
Inductive Pat : Set := Lit (c : ascii) | AnyChar.

(** LF, CR, U+2028 and U+2029. *)
Definition isLineTerminator (cp : N) : bool :=
  ((cp =? 10) || (cp =? 13) || (cp =? 8232) || (cp =? 8233))%N.

(** Under the [i] flag a character outside ASCII never equals an ASCII
    letter, so comparing the bytes decides a literal. *)
Definition matchesLit (a c : ascii) : bool :=
  Ascii.eqb (Js.lowerChar a) (Js.lowerChar c).

Fixpoint dropBytes (n : nat) (s : string) : string :=
  match n, s with
  | S k, String _ s' => dropBytes k s'
  | _, _ => s
  end.

(** [.] at the head of [s]: the rest of [s] after one code unit that is
    not a line terminator.  A character above U+FFFF is two code units;
    [.] takes the first and no literal matches the second, and the
    patterns below go on with a literal, so there is no match then. *)
Definition matchAny (s : string) : option string :=
  match Js.chars s with
  | ch :: _ =>
      if ((fst ch <? 65536)%N && negb (isLineTerminator (fst ch)))%bool
      then Some (dropBytes (String.length (snd ch)) s)
      else None
  | [] => None
  end.

(** Match a sequence of pattern elements at the head of [s]; the rest of
    [s] when it matches. *)
Fixpoint matchPrefix (ps : list Pat) (s : string) : option string :=
  match ps with
  | [] => Some s
  | Lit a :: ps' =>
      match s with
      | String c s' => if matchesLit a c then matchPrefix ps' s' else None
      | EmptyString => None
      end
  | AnyChar :: ps' =>
      match matchAny s with
      | Some s' => matchPrefix ps' s'
      | None => None
      end
  end.

Definition lits (s : string) : list Pat := map Lit (list_ascii_of_string s).

(** [discord.gg] and [discordapp.com\/invite], each followed by [\/]. *)
Definition discordGg : list Pat := lits "discord" ++ [AnyChar] ++ lits "gg/".
Definition discordApp : list Pat := lits "discordapp" ++ [AnyChar] ++ lits "com/invite/".

(** [[a-z0-9]] under the [i] flag. *)
Definition isCodeChar (c : ascii) : bool :=
  let n := nat_of_ascii (Js.lowerChar c) in
  ((Nat.leb 97 n && Nat.leb n 122) || (Nat.leb 48 n && Nat.leb n 57))%bool.

(** The longest run of code characters at the head of [s]. *)
Fixpoint takeCode (s : string) : string :=
  match s with
  | String c s' => if isCodeChar c then String c (takeCode s') else EmptyString
  | EmptyString => EmptyString
  end.

(** One attempt of
    [/(?:discord.gg|discordapp.com\/invite)\/([a-z0-9]+)/gi] at the head
    of [s]: the captured code and the length of the whole match, in
    bytes of [s]. *)
Definition matchAt (s : string) : option (string * nat) :=
  let after_ (ps : list Pat) :=
    match matchPrefix ps s with
    | Some rest =>
        match takeCode rest with
        | EmptyString => None
        | code =>
            Some (code,
                  (String.length s - String.length rest + String.length code)%nat)
        end
    | None => None
    end in
  match after_ discordGg with
  | Some m => Some m
  | None => after_ discordApp
  end.

(** The [exec] loop: the leftmost match from the current position, then
    on from the end of that match ([skip] bytes are still inside the last
    match).  A match begins with the letter d, so none begins inside a
    character of several bytes. *)
Fixpoint scanInvites (skip : nat) (s : string) : list string :=
  match s with
  | EmptyString => []
  | String c s' =>
      match skip with
      | S k => scanInvites k s'
      | O =>
          match matchAt s with
          | Some (code, len) => code :: scanInvites (len - 1) s'
          | None => scanInvites 0 s'
          end
      end
  end.

(** [getInviteCodesInString(str)] *)
Definition getInviteCodesInString (str : string) : list string := scanInvites 0 str.

(** [String.prototype.includes]. *)
Fixpoint includes (s token : string) : bool :=
  String.prefix token s
  || match s with
     | String _ s' => includes s' token
     | EmptyString => false
     end.

(** [Array.prototype.includes] on strings. *)
Definition listIncludes (l : list string) (x : string) : bool :=
  existsb (String.eqb x) l.

Record Invite : Set := mkInvite {
  invite_code : string;
  guild_id : string;
  guild_name : string
}.

(** The message, as far as the filters read it. *)
Record ChatMessage : Set := mkChatMessage {
  message_id : string;
  author_bot : bool;
  message_type : Z;
  content : string
}.

(** [configValueForMsg(msg, key)] for the keys of the plugin; a list that
    is [null] is [None]. *)
Record Config : Set := mkConfig {
  filter_invites : bool;
  invite_guild_whitelist : option (list string);
  invite_guild_blacklist : option (list string);
  invite_code_whitelist : option (list string);
  invite_code_blacklist : option (list string);
  filter_domains : bool;
  domain_whitelist : option (list string);
  domain_blacklist : option (list string);
  blocked_tokens : option (list string);
  blocked_words : option (list string);
  blocked_regex : option (list string)
}.

(** The platform and the language, seen from the filters.
    [getInvite c]: the invite behind the code, [None] when the look-up
    rejects; [urlHostnames s]: the host names of [getUrlsInString(s)];
    [wordTest w s]: does the regular expression built around the escaped
    word match; [regexTest r s]: the same for a configured expression,
    [None] when [new RegExp(r)] throws. *)
Record Env : Type := mkEnv {
  config : Config;
  getInvite : string -> option Invite;
  urlHostnames : string -> list string;
  wordTest : string -> string -> bool;
  regexTest : string -> string -> option bool;
  deleteResolves : string -> bool
}.

(** [censorMessage(msg, reason)] *)
Definition censorMessage (env : Env) (msg : ChatMessage) (reason : string) : Act unit :=
  (call (IgnoreMessageDelete (message_id msg)) ;;
   call (MessageDelete (message_id msg) (deleteResolves env (message_id msg))) ;;
   act_when (deleteResolves env (message_id msg))
     (call (LogCensor (message_id msg) reason)))%act.

(** [x && ...]: a list that is not [null]. *)
Definition given (l : option (list string)) (test : list string -> bool) : bool :=
  match l with
  | Some xs => test xs
  | None => false
  end.

Definition orNil (l : option (list string)) : list string :=
  match l with
  | Some xs => xs
  | None => []
  end.

(** The loop over the invites of the message. *)
Fixpoint filterInvites (env : Env) (msg : ChatMessage) (invites : list Invite)
    : Act unit :=
  match invites with
  | [] => act_ret tt
  | invite :: rest =>
      let cfg := config env in
      if given (invite_guild_whitelist cfg)
               (fun l => negb (listIncludes l (guild_id invite))) then
        (censorMessage env msg
           ("invite guild (**" ++ guild_name invite ++ "** `" ++ guild_id invite
            ++ "`) not found in whitelist")%string ;;
         act_return)%act
      else if given (invite_guild_blacklist cfg)
                    (fun l => listIncludes l (guild_id invite)) then
        (censorMessage env msg
           ("invite guild (**" ++ guild_name invite ++ "** `" ++ guild_id invite
            ++ "`) found in blacklist")%string ;;
         act_return)%act
      else if given (invite_code_whitelist cfg)
                    (fun l => negb (listIncludes l (invite_code invite))) then
        (censorMessage env msg
           ("invite code (`" ++ invite_code invite ++ "`) not found in whitelist")%string ;;
         act_return)%act
      else if given (invite_code_blacklist cfg)
                    (fun l => listIncludes l (invite_code invite)) then
        (censorMessage env msg
           ("invite code (`" ++ invite_code invite ++ "`) found in blacklist")%string ;;
         act_return)%act
      else filterInvites env msg rest
  end.

(** The loop over the URLs of the message. *)
Fixpoint filterDomains (env : Env) (msg : ChatMessage) (hostnames : list string)
    : Act unit :=
  match hostnames with
  | [] => act_ret tt
  | hostname :: rest =>
      let cfg := config env in
      if given (domain_whitelist cfg) (fun l => negb (listIncludes l hostname)) then
        (censorMessage env msg
           ("domain (`" ++ hostname ++ "`) not found in whitelist")%string ;;
         act_return)%act
      else if given (domain_blacklist cfg) (fun l => listIncludes l hostname) then
        (censorMessage env msg
           ("domain (`" ++ hostname ++ "`) found in blacklist")%string ;;
         act_return)%act
      else filterDomains env msg rest
  end.

(** The loops over the blocked tokens, words and expressions. *)
Fixpoint filterTokens (env : Env) (msg : ChatMessage) (tokens : list string)
    : Act unit :=
  match tokens with
  | [] => act_ret tt
  | token :: rest =>
      if includes (content msg) token then
        (censorMessage env msg ("blocked token (`" ++ token ++ "`) found")%string ;;
         act_return)%act
      else filterTokens env msg rest
  end.

Fixpoint filterWords (env : Env) (msg : ChatMessage) (words : list string)
    : Act unit :=
  match words with
  | [] => act_ret tt
  | word :: rest =>
      if wordTest env word (content msg) then
        (censorMessage env msg ("blocked word (`" ++ word ++ "`) found")%string ;;
         act_return)%act
      else filterWords env msg rest
  end.

Fixpoint filterRegex (env : Env) (msg : ChatMessage) (regexes : list string)
    : Act unit :=
  match regexes with
  | [] => act_ret tt
  | regexStr :: rest =>
      match regexTest env regexStr (content msg) with
      | None => act_throw
      | Some true =>
          (censorMessage env msg ("blocked regex (`" ++ regexStr ++ "`) found")%string ;;
           act_return)%act
      | Some false => filterRegex env msg rest
      end
  end.

(** [Promise.all(inviteCodes.map(code => this.bot.getInvite(code)))]:
    every look-up is started, in the order of the codes; the whole
    resolves to the invites when all of them do and rejects otherwise. *)
Fixpoint allResolved (l : list (option Invite)) : option (list Invite) :=
  match l with
  | [] => Some []
  | Some invite :: rest =>
      match allResolved rest with
      | Some invites => Some (invite :: invites)
      | None => None
      end
  | None :: _ => None
  end.

Definition lookups (env : Env) (codes : list string) : list Call :=
  map (fun code =>
         GetInvite code (match getInvite env code with Some _ => true | None => false end))
      codes.

Definition getInvites (env : Env) (codes : list string) : Act (list Invite) :=
  fun t =>
    match allResolved (map (getInvite env) codes) with
    | Some invites => (Value invites, t ++ lookups env codes)
    | None => (Thrown, t ++ lookups env codes)
    end.

(** [applyFiltersToMsg(msg)] *)
Definition applyFiltersToMsg (env : Env) (msg : ChatMessage) : Act unit :=
  (act_when (author_bot msg) act_return ;;
   act_when (negb (message_type msg =? 0)) act_return ;;
   act_when (negb (Js.truthy (Some (content msg)))) act_return ;;
   act_when (filter_invites (config env))
     (invites <- getInvites env (getInviteCodesInString (content msg)) ;;
      filterInvites env msg invites) ;;
   act_when (filter_domains (config env))
     (filterDomains env msg (urlHostnames env (content msg))) ;;
   filterTokens env msg (orNil (blocked_tokens (config env))) ;;
   filterWords env msg (orNil (blocked_words (config env))) ;;
   filterRegex env msg (orNil (blocked_regex (config env))))%act.

(** What censoring a message amounts to. *)
Definition censored (env : Env) (msg : ChatMessage) (reason : string) : list Call :=
  IgnoreMessageDelete (message_id msg)
  :: MessageDelete (message_id msg) (deleteResolves env (message_id msg))
  :: (if deleteResolves env (message_id msg)
      then [LogCensor (message_id msg) reason] else []).

(** How a filter loop can end: it lets the message through, or it
    censors it once and stops the handler. *)
Definition passesOrCensors (env : Env) (msg : ChatMessage) (f : Act unit) : Prop :=
  forall t,
    f t = (Value tt, t)
    \/ exists reason, f t = (Returned, t ++ censored env msg reason).

(** A piece of the handler that adds nothing to the trace or one
    censoring, however it ends. *)
Definition censorsAtMostOnce (env : Env) (msg : ChatMessage) (f : Act unit) : Prop :=
  forall t,
    exists o rest,
      f t = (o, t ++ rest)
      /\ (rest = [] \/ exists reason, rest = censored env msg reason).

(** The message is one the filters look at: not from a bot, of the
    default type, with some text. *)
Definition eligible (msg : ChatMessage) : bool :=
  negb (author_bot msg) && (message_type msg =? 0) && Js.truthy (Some (content msg)).

Definition isLookup (c : Call) : bool :=
  match c with
  | GetInvite _ _ => true
  | _ => false
  end.

Fixpoint allCodeChars (s : string) : bool :=
  match s with
  | String c s' => isCodeChar c && allCodeChars s'
  | EmptyString => true
  end.

Fixpoint hasSlash (s : string) : bool :=
  match s with
  | String c s' => Ascii.eqb c "/" || hasSlash s'
  | EmptyString => false
  end.

(** The options of [getDefaultOptions]. *)
Definition defaultConfig : Config :=
  mkConfig false None None None None false None None None None None.

(** A platform that knows one invite, code "abc" of guild 9. *)
Definition sampleEnv (cfg : Config) : Env :=
  {| config := cfg;
     getInvite := fun c =>
       if String.eqb c "abc" then Some (mkInvite "abc" "9" "Nine") else None;
     urlHostnames := fun _ => [];
     wordTest := fun _ _ => false;
     regexTest := fun _ _ => Some false;
     deleteResolves := fun _ => true |}.

End Censor.

Ltac unfold_act :=
  unfold calls, act_bind, act_when, act_ret, act_return, act_throw, call, reply in *.

Ltac enter_filters Hel :=
  unfold Censor.applyFiltersToMsg;
  unfold Censor.eligible in Hel;
  apply andb_true_iff in Hel as [Hel ?Hcontent];
  apply andb_true_iff in Hel as [?Hbot ?Htype];
  apply negb_true_iff in Hbot;
  unfold act_bind at 1; unfold act_when at 1;
  rewrite Hbot; unfold act_ret at 1;
  unfold act_bind at 1; unfold act_when at 1;
  rewrite Htype; cbn [negb]; unfold act_ret at 1;
  unfold act_bind at 1; unfold act_when at 1;
  rewrite Hcontent; cbn [negb]; unfold act_ret at 1.


(* ================================================================== *)
(** * Properties *)

(* ------------------------------------------------------------------ *)
(** ** The ledger *)

Section Ledger.

Variable type : IgnoredEventType.t.
Variable userId : string.

Lemma sameEvent_self : sameEvent type userId (mkIgnored type userId) = true.
Proof.
  unfold sameEvent; simpl.
  rewrite String.eqb_refl. destruct type; reflexivity.
Qed.

Lemma findIndex_absent {A} (q : A -> bool) (l : list A) :
  Js.some q l = false -> Js.findIndex q l = -1.
Proof.
  unfold Js.some. induction l as [|x l IH]; simpl; [reflexivity|].
  destruct (q x); simpl; [discriminate|].
  intros H. rewrite (IH H). reflexivity.
Qed.

Lemma findIndex_first {A} (q : A -> bool) (pre post : list A) (x : A) :
  Js.some q pre = false -> q x = true ->
  Js.findIndex q (pre ++ x :: post) = Z.of_nat (List.length pre).
Proof.
  unfold Js.some. induction pre as [|y pre IH]; simpl; intros Hpre Hx.
  - rewrite Hx. reflexivity.
  - destruct (q y); simpl in Hpre; [discriminate|].
    rewrite (IH Hpre Hx).
    destruct (Z.ltb_spec (Z.of_nat (List.length pre)) 0); lia.
Qed.

Lemma splice_one_at {A} (pre post : list A) (x : A) :
  Js.splice (Z.of_nat (List.length pre)) 1 (pre ++ x :: post) = pre ++ post.
Proof.
  unfold Js.splice.
  rewrite length_app; simpl List.length.
  destruct (Z.ltb_spec (Z.of_nat (List.length pre)) 0); [lia|].
  replace (Z.min _ (Z.of_nat (List.length pre + S (List.length post))))
    with (Z.of_nat (List.length pre)) by lia.
  replace (Z.of_nat (List.length pre) + Z.min _ _)
    with (Z.of_nat (S (List.length pre))) by lia.
  rewrite !Nat2Z.id.
  rewrite firstn_app, firstn_all, Nat.sub_diag; simpl firstn.
  rewrite app_nil_r.
  rewrite skipn_app, skipn_all2 by lia.
  replace (S (List.length pre) - List.length pre)%nat with 1%nat by lia.
  reflexivity.
Qed.

(** [splice(-1, 1)] deletes the last element. *)
Lemma splice_minus_one {A} (l : list A) :
  Js.splice (-1) 1 l = removelast l.
Proof.
  destruct l as [|y l]; [reflexivity|].
  destruct (@exists_last _ (y :: l)) as [l' [x E]]; [discriminate|].
  rewrite E, removelast_last.
  replace (-1) with (Z.of_nat (List.length l') - Z.of_nat (List.length (l' ++ [x])))
    by (rewrite length_app; simpl; lia).
  unfold Js.splice.
  set (n := Z.of_nat (List.length (l' ++ [x]))).
  assert (Hn : n = Z.of_nat (List.length l') + 1)
    by (unfold n; rewrite length_app; simpl; lia).
  destruct (Z.ltb_spec (Z.of_nat (List.length l') - n) 0); [|lia].
  replace (Z.max (n + (Z.of_nat (List.length l') - n)) 0)
    with (Z.of_nat (List.length l')) by lia.
  replace (Z.of_nat (List.length l') + Z.min _ _)
    with (Z.of_nat (S (List.length l'))) by lia.
  rewrite !Nat2Z.id.
  rewrite firstn_app, firstn_all, Nat.sub_diag; simpl firstn.
  rewrite app_nil_r, skipn_all2 by (rewrite length_app; simpl; lia).
  apply app_nil_r.
Qed.

(** With a matching entry in the ledger, [clearIgnoredEvent] removes the
    first one and leaves every other entry where it was. *)
Lemma clearIgnoredEvent_present (pre post : list IIgnoredEvent) (x : IIgnoredEvent)
    (w : World) :
  ignoredEvents w = pre ++ x :: post ->
  Js.some (sameEvent type userId) pre = false ->
  sameEvent type userId x = true ->
  clearIgnoredEvent type userId w
  = (Value tt, mkWorld (pre ++ post) (timers w) (trace w)).
Proof.
  intros Hw Hpre Hx. unfold clearIgnoredEvent.
  rewrite Hw, (findIndex_first _ pre post x Hpre Hx), splice_one_at.
  reflexivity.
Qed.

(** Without one, the call is [splice(-1, 1)]: the last entry goes. *)
Lemma clearIgnoredEvent_absent (w : World) :
  Js.some (sameEvent type userId) (ignoredEvents w) = false ->
  clearIgnoredEvent type userId w
  = (Value tt, mkWorld (removelast (ignoredEvents w)) (timers w) (trace w)).
Proof.
  intros H. unfold clearIgnoredEvent.
  rewrite (findIndex_absent _ _ H), splice_minus_one.
  reflexivity.
Qed.

(** Registering on a ledger without a matching entry and consuming again
    gives the ledger back. *)
Lemma ignore_then_clear (ledger : list IIgnoredEvent) (tms : list Timer)
    (t : list Effect) (timeout : option Z) :
  Js.some (sameEvent type userId) ledger = false ->
  ignoredEvents
    (after (clearIgnoredEvent type userId)
       (after (ignoreEvent type userId timeout) (mkWorld ledger tms t)))
  = ledger.
Proof.
  intros H. unfold after, ignoreEvent, Js.push; cbn [snd ignoredEvents timers trace].
  rewrite (clearIgnoredEvent_present ledger [] (mkIgnored type userId)
             (mkWorld (ledger ++ [mkIgnored type userId])
                      (tms ++ [mkTimer type userId (Js.orNum timeout (1000 * 15))]) t)
             eq_refl H sameEvent_self).
  apply app_nil_r.
Qed.

Lemma isEventIgnored_after_ignore (ledger : list IIgnoredEvent) :
  Js.some (sameEvent type userId) (Js.push ledger (mkIgnored type userId)) = true.
Proof.
  unfold Js.some, Js.push. rewrite existsb_app; simpl.
  rewrite sameEvent_self. apply orb_true_iff; right; reflexivity.
Qed.

End Ledger.

(** C3 (the code departs from the claim).  Consuming a suppression for a
    pair that has no entry is not a no-op: on the ledger holding only a
    Kick entry for user 2, [clearIgnoredEvent(Ban, "1")] finds index [-1],
    and [splice(-1, 1)] removes the entry of user 2. *)
Theorem clearIgnoredEvent_absent_removes_other_entry :
  Js.some (sameEvent IgnoredEventType.Ban "1")
          [mkIgnored IgnoredEventType.Kick "2"] = false
  /\ ignoredEvents
       (run (clearIgnoredEvent IgnoredEventType.Ban "1")
            [mkIgnored IgnoredEventType.Kick "2"]) = [].
Proof. split; reflexivity. Qed.

(** How the plugin reaches that call: a ban of user 1 is commanded and its
    echo consumed; a kick of user 2 is commanded; the 15 s timer of the
    ban fires before the kick's echo arrives and takes the kick's entry
    with it, so the echo is booked as a second, automatic case. *)
Lemma late_timer_unsuppresses_other_user :
  let env := kickAuditEnv in
  let w1 := after (banCmd env moderator (mkMember alice) None) (mkWorld [] [] []) in
  let w2 := after (onGuildBanAdd env alice) w1 in
  let w3 := after (kickCmd env moderator (mkMember bob) None) w2 in
  let w4 := after (fireTimer 0) w3 in
  let w5 := after (onGuildMemberRemove env (mkMember bob)) w4 in
  ignoredEvents w3 = [mkIgnored IgnoredEventType.Kick "2"]
  /\ ignoredEvents w4 = []
  /\ List.length (filter (fun c => String.eqb (c_userId c) "2") (createdCases (trace w5)))
     = 2%nat.
Proof. repeat split; reflexivity. Qed.

(* ------------------------------------------------------------------ *)
(** ** Gateway events *)

(** A suppressed event consumes one entry and does nothing else. *)
Lemma observe_suppressed (env : Env) (kind : IgnoredEventType.t) (u : User) (w : World) :
  Js.some (sameEvent kind (id u)) (ignoredEvents w) = true ->
  observe env kind u w = (Returned, after (clearIgnoredEvent kind (id u)) w).
Proof.
  intros H.
  destruct kind; unfold observe, onGuildBanAdd, onGuildBanRemove, onGuildMemberRemove,
    bind, isEventIgnored, after, member_id; cbn [user];
    rewrite H; reflexivity.
Qed.

(** An event that is not suppressed leaves the ledger alone. *)
Lemma observe_unsuppressed_ledger (env : Env) (kind : IgnoredEventType.t) (u : User)
    (w : World) :
  Js.some (sameEvent kind (id u)) (ignoredEvents w) = false ->
  ignoredEvents (after (observe env kind u) w) = ignoredEvents w.
Proof.
  intros H.
  destruct kind; unfold observe, onGuildBanAdd, onGuildBanRemove, onGuildMemberRemove,
    bind, isEventIgnored, after, member_id; cbn [user];
    rewrite H; cbn;
    destruct (findRelevantAuditLogEntry env _ (id u)); reflexivity.
Qed.

(** C2 (counterexample to the claim as stated).  A member leaves, nothing
    is suppressed and the audit log has no kick entry for them: the handler
    creates no case. *)
Lemma unmatched_member_removal_creates_no_case :
  Js.some (sameEvent IgnoredEventType.Kick (id bob)) [] = false
  /\ findRelevantAuditLogEntry sampleEnv AuditLogActions.MEMBER_KICK (id bob) = None
  /\ createdCases (trace (run (onGuildMemberRemove sampleEnv (mkMember bob)) [])) = [].
Proof. repeat split. Qed.

(** C2 (amended).  For a Ban or Unban event that is not suppressed and for
    which the audit log holds no entry, exactly one case is created, for
    the subject, with no moderator; for Unban it carries [automatic: true].
    A member removal with no kick entry in the audit log creates no case. *)
Theorem unmatched_event_case (env : Env) (kind : IgnoredEventType.t) (u : User)
    (ledger : list IIgnoredEvent) :
  Js.some (sameEvent kind (id u)) ledger = false ->
  findRelevantAuditLogEntry env (auditActionOf kind) (id u) = None ->
  let cases := createdCases (trace (run (observe env kind u) ledger)) in
  match kind with
  | IgnoredEventType.Ban =>
      exists c, cases = [c] /\ c_userId c = id u /\ c_type c = CaseTypes.Ban
                /\ c_modId c = None
  | IgnoredEventType.Unban =>
      exists c, cases = [c] /\ c_userId c = id u /\ c_type c = CaseTypes.Unban
                /\ c_modId c = None /\ c_automatic c = Some true
  | IgnoredEventType.Kick => cases = []
  end.
Proof.
  intros Hled Haudit.
  destruct kind; unfold observe, onGuildBanAdd, onGuildBanRemove, onGuildMemberRemove,
    run, bind, isEventIgnored, member_id; cbn [user ignoredEvents];
    rewrite Hled; cbn; simpl in Haudit; rewrite Haudit; cbn.
  - eexists; repeat split.
  - eexists; repeat split.
  - reflexivity.
Qed.

Lemma unmatched_event_case_witness :
  exists c,
    createdCases (trace (run (observe sampleEnv IgnoredEventType.Unban alice) [])) = [c]
    /\ c_userId c = id alice /\ c_type c = CaseTypes.Unban
    /\ c_modId c = None /\ c_automatic c = Some true.
Proof.
  apply (unmatched_event_case sampleEnv IgnoredEventType.Unban alice []); reflexivity.
Defined.

(** The two ban handlers differ when the audit log has no entry: the case
    of an unmatched unban is flagged [automatic: true], the object literal of
    an unmatched ban has no [automatic] key. *)
Example unmatched_ban_case_carries_no_automatic_flag :
  map c_automatic
      (createdCases (trace (run (onGuildBanAdd sampleEnv alice) []))) = [None]
  /\ map c_automatic
         (createdCases (trace (run (onGuildBanRemove sampleEnv alice) []))) = [Some true].
Proof. split; reflexivity. Qed.

(** C4 (counterexample to the claim as stated).  A kick suppression for
    user 2 is registered and the first member-removal event consumes it;
    the second member-removal event, for which the audit log has no kick
    entry, creates no case. *)
Lemma second_removal_creates_no_automatic_case :
  let w1 := after (onGuildMemberRemove sampleEnv (mkMember bob))
              (after (ignoreEvent IgnoredEventType.Kick (id bob) None)
                     (mkWorld [] [] [])) in
  let w2 := after (onGuildMemberRemove sampleEnv (mkMember bob)) w1 in
  ignoredEvents w1 = [] /\ createdCases (trace w1) = []
  /\ createdCases (trace w2) = [].
Proof. repeat split. Qed.

(** C4 (amended).  On a ledger without an entry for the pair, registering
    one suppression and observing one matching event creates no case and
    consumes the entry.  A second matching event takes the ordinary path:
    with an audit entry it creates one case with [automatic: true] and the
    entry's moderator; without one, Unban creates one case with
    [automatic: true], Ban creates one case, and a member removal none. *)
Theorem suppression_consumed_by_first_event (env : Env) (kind : IgnoredEventType.t)
    (u : User) (ledger : list IIgnoredEvent) (timeout : option Z) :
  Js.some (sameEvent kind (id u)) ledger = false ->
  let w1 := after (observe env kind u)
              (after (ignoreEvent kind (id u) timeout) (mkWorld ledger [] [])) in
  let w2 := after (observe env kind u) w1 in
  createdCases (trace w1) = [] /\ ignoredEvents w1 = ledger
  /\ ignoredEvents w2 = ledger
  /\ match findRelevantAuditLogEntry env (auditActionOf kind) (id u), kind with
     | Some entry, _ =>
         exists c, createdCases (trace w2) = [c] /\ c_userId c = id u
                   /\ c_automatic c = Some true
                   /\ c_modId c = Some (id (al_user entry))
     | None, IgnoredEventType.Unban =>
         exists c, createdCases (trace w2) = [c] /\ c_userId c = id u
                   /\ c_automatic c = Some true /\ c_modId c = None
     | None, IgnoredEventType.Ban =>
         exists c, createdCases (trace w2) = [c] /\ c_userId c = id u
                   /\ c_modId c = None
     | None, IgnoredEventType.Kick => createdCases (trace w2) = []
     end.
Proof.
  intros Hled.
  assert (E1 : after (observe env kind u)
                 (after (ignoreEvent kind (id u) timeout) (mkWorld ledger [] []))
               = mkWorld ledger [mkTimer kind (id u) (Js.orNum timeout (1000 * 15))] []).
  { unfold after at 1. rewrite observe_suppressed.
    - cbn [snd]. unfold after, ignoreEvent, Js.push;
        cbn [snd ignoredEvents timers trace app].
      rewrite (clearIgnoredEvent_present kind (id u) ledger [] (mkIgnored kind (id u))
                 (mkWorld (ledger ++ [mkIgnored kind (id u)])
                    [mkTimer kind (id u) (Js.orNum timeout (1000 * 15))] [])
                 eq_refl Hled (sameEvent_self kind (id u))).
      cbn. rewrite app_nil_r. reflexivity.
    - apply isEventIgnored_after_ignore. }
  cbv zeta. rewrite E1. cbn [trace ignoredEvents createdCases].
  repeat split.
  - apply observe_unsuppressed_ledger. exact Hled.
  - destruct kind;
      unfold observe, onGuildBanAdd, onGuildBanRemove, onGuildMemberRemove,
        after, bind, isEventIgnored, member_id; cbn [user ignoredEvents auditActionOf];
      rewrite Hled; cbn;
      destruct (findRelevantAuditLogEntry env _ (id u)); cbn;
      try reflexivity; eexists; repeat split.
Qed.

Lemma suppression_consumed_by_first_event_witness :
  let w1 := after (observe kickAuditEnv IgnoredEventType.Kick bob)
              (after (ignoreEvent IgnoredEventType.Kick (id bob) None)
                     (mkWorld [] [] [])) in
  let w2 := after (observe kickAuditEnv IgnoredEventType.Kick bob) w1 in
  createdCases (trace w1) = [] /\ ignoredEvents w1 = []
  /\ ignoredEvents w2 = []
  /\ exists c, createdCases (trace w2) = [c] /\ c_userId c = id bob
               /\ c_automatic c = Some true
               /\ c_modId c = Some (id (author moderator)).
Proof.
  apply (suppression_consumed_by_first_event kickAuditEnv IgnoredEventType.Kick bob
           [] None).
  reflexivity.
Defined.

(* ------------------------------------------------------------------ *)
(** ** Notification *)

(** [tryToMessageUser] never throws and touches nothing but the trace. *)
Lemma tryToMessageUser_world (env : Env) (u : User) (str : string)
    (useDM useChannel : bool) (w : World) :
  tryToMessageUser env u str useDM useChannel w
  = (Value (delivered env u str useDM useChannel),
     mkWorld (ignoredEvents w) (timers w)
             (trace w ++ attempts env u str useDM useChannel)).
Proof.
  unfold attempts, run, delivered, tryToMessageUser. unfold_cmd.
  destruct w as [l tms t].
  destruct useDM, useChannel; cbn;
    try destruct (dmResolves env (id u) str); cbn;
    try destruct (Js.truthy (message_channel (config env))); cbn;
    try destruct (channelResolves env _ _); cbn;
    rewrite ?app_nil_r, <- ?app_assoc; reflexivity.
Qed.

Lemma attempts_are_notifications (env : Env) (u : User) (str : string)
    (useDM useChannel : bool) :
  forallb isNotification (attempts env u str useDM useChannel) = true.
Proof.
  unfold attempts, run, tryToMessageUser. unfold_cmd.
  destruct useDM, useChannel; cbn;
    try destruct (dmResolves env (id u) str); cbn;
    try destruct (Js.truthy (message_channel (config env))); cbn;
    try destruct (channelResolves env _ _); reflexivity.
Qed.

(** C10.  With direct messaging off, the channel fallback on and no
    fallback channel configured, [tryToMessageUser] attempts nothing and
    resolves to [false]; and whatever the two switches, no fallback message
    is attempted while no fallback channel is configured. *)
Theorem no_fallback_channel_no_delivery (env : Env) (u : User) (str : string)
    (w : World) :
  Js.truthy (message_channel (config env)) = false ->
  tryToMessageUser env u str false true w = (Value false, w)
  /\ forall useDM useChannel e,
       In e (attempts env u str useDM useChannel) -> isFallback e = false.
Proof.
  intros Hch. split.
  - unfold tryToMessageUser. unfold_cmd. cbn. rewrite Hch. reflexivity.
  - intros useDM useChannel e.
    unfold attempts, run, tryToMessageUser. unfold_cmd. rewrite Hch.
    destruct useDM, useChannel; cbn;
      try destruct (dmResolves env (id u) str); cbn;
      intros Hin; repeat destruct Hin as [<- | Hin]; try reflexivity;
      try contradiction.
Qed.

Lemma no_fallback_channel_no_delivery_witness :
  tryToMessageUser sampleEnv alice "hello" false true (mkWorld [] [] [])
  = (Value false, mkWorld [] [] [])
  /\ forall useDM useChannel e,
       In e (attempts sampleEnv alice "hello" useDM useChannel) -> isFallback e = false.
Proof.
  apply (no_fallback_channel_no_delivery sampleEnv alice "hello" (mkWorld [] [] [])).
  reflexivity.
Defined.

(** With both switches off the routine resolves to [true] at once. *)
Lemma both_disabled_vacuously_delivered (env : Env) (u : User) (str : string)
    (w : World) :
  tryToMessageUser env u str false false w = (Value true, w).
Proof. reflexivity. Qed.

(* ------------------------------------------------------------------ *)
(** ** Reading traces *)

Lemma createdCases_app (a b : list Effect) :
  createdCases (a ++ b) = createdCases a ++ createdCases b.
Proof.
  induction a as [|e a IH]; [reflexivity|].
  destruct e; simpl; rewrite IH; reflexivity.
Qed.

Lemma banRequests_app (a b : list Effect) :
  banRequests (a ++ b) = banRequests a ++ banRequests b.
Proof.
  induction a as [|e a IH]; [reflexivity|].
  destruct e; simpl; rewrite IH; reflexivity.
Qed.

Lemma massbanLogs_app (a b : list Effect) :
  massbanLogs (a ++ b) = massbanLogs a ++ massbanLogs b.
Proof.
  induction a as [|e a IH]; [reflexivity|].
  destruct e as [| | | | | | | | |t ? ? ?| | | | | |]; simpl; try (rewrite IH; reflexivity).
  destruct t; simpl; rewrite IH; reflexivity.
Qed.

Lemma notifications_create_no_case (t : list Effect) :
  forallb isNotification t = true -> createdCases t = [].
Proof.
  induction t as [|e t IH]; [reflexivity|].
  destruct e; simpl; try discriminate; exact IH.
Qed.

Lemma notifications_filter (t : list Effect) :
  forallb isNotification t = true -> filter isNotification t = t.
Proof.
  induction t as [|e t IH]; [reflexivity|].
  simpl. destruct (isNotification e); simpl; [|discriminate].
  intros H. rewrite (IH H). reflexivity.
Qed.

Lemma notifiedBeforeMutated_prefix (pre rest : list Effect) :
  forallb isNotification pre = true ->
  notifiedBeforeMutated (pre ++ rest) = notifiedBeforeMutated rest.
Proof.
  induction pre as [|e pre IH]; [reflexivity|].
  simpl. intros H. apply andb_true_iff in H as [He Hpre].
  rewrite (IH Hpre).
  destruct e; simpl in *; try discriminate; reflexivity.
Qed.

Lemma notifiedBeforeMutated_sound (t : list Effect) :
  notifiedBeforeMutated t = true -> notificationsPrecedeMutations t.
Proof.
  induction t as [|a t IH]; intros H i j e1 e2 Hi Hn Hj Hm.
  - destruct i; discriminate.
  - simpl in H. apply andb_true_iff in H as [Ha Ht].
    destruct i as [|i], j as [|j]; simpl in Hi, Hj.
    + injection Hi as ->. injection Hj as ->.
      destruct e2; discriminate.
    + lia.
    + injection Hj as ->. rewrite Hm in Ha.
      rewrite forallb_forall in Ha.
      specialize (Ha e1 (nth_error_In _ _ Hi)).
      rewrite Hn in Ha. discriminate.
    + apply -> Nat.succ_lt_mono. exact (IH Ht i j e1 e2 Hi Hn Hj Hm).
Qed.

(* ------------------------------------------------------------------ *)
(** ** Kick and ban *)

Section KickBan.

Variable env : Env.
Variable msg : Message.
Variable target : Member.
Variable reason : option string.
Hypothesis allowed : canActOn env (member msg) target = true.

(** What an allowed kick does, start to end. *)
Lemma kickCmd_allowed (w : World) :
  kickCmd env msg target reason w
  = (Value tt,
     mkWorld
       (ignoredEvents w ++ [mkIgnored IgnoredEventType.Kick (member_id target)])
       (timers w ++ [mkTimer IgnoredEventType.Kick (member_id target) 15000])
       (trace w ++ kickAttempts env target reason ++
          [IgnoreLog LogType.MEMBER_KICK (member_id target) None;
           MemberKick (member_id target) reason (kickResolves env (member_id target));
           FireCreateCase
             (commandedCase (member_id target) (id (author msg)) CaseTypes.Kick reason);
           CreateMessage
             (successMessage
                ("Kicked **" ++ tag (user target) ++ "**"
                 ++ failedToMessage (kickDelivered env target reason))%string);
           Log LogType.MEMBER_KICK (id (user (member msg))) (Some (id (user target)))
               None])).
Proof.
  unfold kickCmd, kickAttempts, kickDelivered.
  unfold bind at 1. unfold when at 1. rewrite allowed. cbn [negb].
  unfold ret at 1. unfold bind at 1.
  destruct (Js.truthy reason).
  - rewrite tryToMessageUser_world. unfold_cmd. cbn.
    rewrite <- !app_assoc. reflexivity.
  - unfold_cmd. cbn. rewrite <- !app_assoc. reflexivity.
Qed.

(** What an allowed ban does, start to end. *)
Lemma banCmd_allowed (w : World) :
  banCmd env msg target reason w
  = (Value tt,
     mkWorld
       (ignoredEvents w ++ [mkIgnored IgnoredEventType.Ban (member_id target)])
       (timers w ++ [mkTimer IgnoredEventType.Ban (member_id target) 15000])
       (trace w ++ banAttempts env target reason ++
          [IgnoreLog LogType.MEMBER_BAN (member_id target) None;
           BanMember (member_id target) (Some 1) reason
                     (banResolves env 0%nat (member_id target));
           FireCreateCase
             (commandedCase (member_id target) (id (author msg)) CaseTypes.Ban reason);
           CreateMessage
             (successMessage
                ("Banned **" ++ tag (user target) ++ "**"
                 ++ failedToMessage (banDelivered env target reason))%string);
           Log LogType.MEMBER_BAN (id (user (member msg))) (Some (member_id target))
               None])).
Proof.
  unfold banCmd, banAttempts, banDelivered.
  unfold bind at 1. unfold when at 1. rewrite allowed. cbn [negb].
  unfold ret at 1. unfold bind at 1.
  destruct (Js.truthy reason).
  - rewrite tryToMessageUser_world. unfold_cmd. cbn.
    rewrite <- !app_assoc. reflexivity.
  - unfold_cmd. cbn. rewrite <- !app_assoc. reflexivity.
Qed.

Lemma kickAttempts_are_notifications :
  forallb isNotification (kickAttempts env target reason) = true.
Proof.
  unfold kickAttempts. destruct (Js.truthy reason);
    [apply attempts_are_notifications | reflexivity].
Qed.

Lemma banAttempts_are_notifications :
  forallb isNotification (banAttempts env target reason) = true.
Proof.
  unfold banAttempts. destruct (Js.truthy reason);
    [apply attempts_are_notifications | reflexivity].
Qed.

End KickBan.

(** The routine attempts exactly the deliveries that are due. *)
Lemma attempts_are_the_expected (env : Env) (u : User) (str : string)
    (useDM useChannel : bool) :
  attempts env u str useDM useChannel = expectedAttempts env u str useDM useChannel.
Proof.
  unfold attempts, expectedAttempts, run, tryToMessageUser. unfold_cmd.
  destruct useDM, useChannel; cbn;
    try destruct (dmResolves env (id u) str); cbn;
    try destruct (Js.truthy (message_channel (config env))); cbn;
    try destruct (channelResolves env _ _); reflexivity.
Qed.

(** C8.  A kick or ban command that passes the authority check issues its
    platform request, and when a reason is given every delivery that is
    due (the direct message if switched on, the channel message if
    switched on and configured) has been attempted, on the rendered
    message, before the request: these attempts are exactly the
    notifications in the part of the trace before the request, none comes
    after it, and no other removal request comes before it. *)
Theorem notification_precedes_removal (env : Env) (msg : Message) (target : Member)
    (reason : option string) (ledger : list IIgnoredEvent) :
  canActOn env (member msg) target = true ->
  let kicked := trace (run (kickCmd env msg target reason) ledger) in
  let banned := trace (run (banCmd env msg target reason) ledger) in
  (exists before after_,
      kicked = before
               ++ MemberKick (member_id target) reason
                             (kickResolves env (member_id target)) :: after_
      /\ filter isNotification before
         = (if Js.truthy reason
            then expectedAttempts env (user target) (kickMessage env reason)
                   (dm_on_kick (config env)) (message_on_kick (config env))
            else [])
      /\ filter isNotification after_ = []
      /\ filter isMutation before = []
      /\ notificationsPrecedeMutations kicked)
  /\ (exists before after_,
         banned = before
                  ++ BanMember (member_id target) (Some 1) reason
                               (banResolves env 0%nat (member_id target)) :: after_
         /\ filter isNotification before
            = (if Js.truthy reason
               then expectedAttempts env (user target) (banMessage env reason)
                      (dm_on_ban (config env)) (message_on_ban (config env))
               else [])
         /\ filter isNotification after_ = []
         /\ filter isMutation before = []
         /\ notificationsPrecedeMutations banned).
Proof.
  intros Hcan. cbv zeta. unfold run.
  rewrite (kickCmd_allowed env msg target reason Hcan),
          (banCmd_allowed env msg target reason Hcan).
  cbn [snd trace app].
  pose proof (kickAttempts_are_notifications env target reason) as Hk.
  pose proof (banAttempts_are_notifications env target reason) as Hb.
  assert (Hnomut : forall t, forallb isNotification t = true -> filter isMutation t = []).
  { induction t as [|e t IH]; [reflexivity|].
    simpl. intros H. apply andb_true_iff in H as [He Ht].
    destruct e; simpl in *; try discriminate; exact (IH Ht). }
  split.
  - exists (kickAttempts env target reason
            ++ [IgnoreLog LogType.MEMBER_KICK (member_id target) None]).
    eexists. split; [rewrite <- app_assoc; reflexivity|].
    repeat split.
    + rewrite filter_app, (notifications_filter _ Hk). cbn. rewrite app_nil_r.
      unfold kickAttempts. destruct (Js.truthy reason);
        [apply attempts_are_the_expected | reflexivity].
    + rewrite filter_app, (Hnomut _ Hk). reflexivity.
    + apply notifiedBeforeMutated_sound.
      rewrite (notifiedBeforeMutated_prefix _ _ Hk). reflexivity.
  - exists (banAttempts env target reason
            ++ [IgnoreLog LogType.MEMBER_BAN (member_id target) None]).
    eexists. split; [rewrite <- app_assoc; reflexivity|].
    repeat split.
    + rewrite filter_app, (notifications_filter _ Hb). cbn. rewrite app_nil_r.
      unfold banAttempts. destruct (Js.truthy reason);
        [apply attempts_are_the_expected | reflexivity].
    + rewrite filter_app, (Hnomut _ Hb). reflexivity.
    + apply notifiedBeforeMutated_sound.
      rewrite (notifiedBeforeMutated_prefix _ _ Hb). reflexivity.
Qed.

Lemma notification_precedes_removal_witness :
  let kicked :=
    trace (run (kickCmd notifyingEnv moderator (mkMember bob) (Some "spam")) []) in
  let banned :=
    trace (run (banCmd notifyingEnv moderator (mkMember bob) (Some "spam")) []) in
  (exists before after_,
      kicked = before ++ MemberKick "2" (Some "spam") true :: after_
      /\ filter isNotification before
         = [DirectMessage "2" "kicked" true; FallbackMessage "700" "<@!2> kicked" true]
      /\ filter isNotification after_ = []
      /\ filter isMutation before = []
      /\ notificationsPrecedeMutations kicked)
  /\ (exists before after_,
         banned = before ++ BanMember "2" (Some 1) (Some "spam") true :: after_
         /\ filter isNotification before
            = [DirectMessage "2" "banned" true; FallbackMessage "700" "<@!2> banned" true]
         /\ filter isNotification after_ = []
         /\ filter isMutation before = []
         /\ notificationsPrecedeMutations banned).
Proof.
  apply (notification_precedes_removal notifyingEnv moderator (mkMember bob)
           (Some "spam") []).
  reflexivity.
Defined.

(** The run behind it: both messages go out, then the member is kicked. *)
Example kick_notifies_then_removes :
  firstn 4 (trace (run (kickCmd notifyingEnv moderator (mkMember bob) (Some "spam")) []))
  = [DirectMessage "2" "kicked" true;
     FallbackMessage "700" "<@!2> kicked" true;
     IgnoreLog LogType.MEMBER_KICK "2" None;
     MemberKick "2" (Some "spam") true].
Proof. reflexivity. Qed.

(** A kick with direct messages switched on: the message goes out, then
    the user is removed. *)
Example kick_messages_then_removes :
  let env :=
    mkEnv "Guild"
      (mkConfig None false false true false false false false false None "" "" "" "bye" "")
      (fun _ _ => true) (fun _ => None) (fun _ _ => true) (fun _ _ => true)
      (fun _ _ => None) (fun _ _ => None) (fun _ => 1) (fun _ => true)
      (fun _ _ => true) (fun _ => true) None None (fun _ => None) (fun _ => "")
      (fun template _ => template) (fun s _ _ => s) in
  firstn 3 (trace (run (kickCmd env moderator (mkMember bob) (Some "spam")) []))
  = [DirectMessage "2" "bye" true;
     IgnoreLog LogType.MEMBER_KICK "2" None;
     MemberKick "2" (Some "spam") true].
Proof. reflexivity. Qed.

(* ------------------------------------------------------------------ *)
(** ** Mutation and case *)

(** C1 (the code departs from the claim).  A ban and a kick pass the
    authority check and the platform rejects the request; the handler did
    not wait for the request, and the case is created all the same. *)
Theorem rejected_ban_still_creates_case :
  let banned := trace (run (banCmd rejectingEnv moderator (mkMember alice) None) []) in
  let kicked := trace (run (kickCmd rejectingEnv moderator (mkMember alice) None) []) in
  canActOn rejectingEnv (member moderator) (mkMember alice) = true
  /\ In (BanMember "1" (Some 1) None false) banned
  /\ createdCases banned = [commandedCase "1" "100" CaseTypes.Ban None]
  /\ In (MemberKick "1" None false) kicked
  /\ createdCases kicked = [commandedCase "1" "100" CaseTypes.Kick None].
Proof. repeat split; simpl; auto. Qed.

(** Whatever the platform answers, an allowed ban or kick creates its case. *)
Lemma ban_kick_case_whatever_the_platform (env : Env) (msg : Message)
    (target : Member) (reason : option string) (ledger : list IIgnoredEvent) :
  canActOn env (member msg) target = true ->
  createdCases (trace (run (banCmd env msg target reason) ledger))
  = [commandedCase (member_id target) (id (author msg)) CaseTypes.Ban reason]
  /\ createdCases (trace (run (kickCmd env msg target reason) ledger))
     = [commandedCase (member_id target) (id (author msg)) CaseTypes.Kick reason].
Proof.
  intros Hcan. unfold run.
  rewrite (kickCmd_allowed env msg target reason Hcan),
          (banCmd_allowed env msg target reason Hcan).
  cbn [snd trace app].
  rewrite !createdCases_app.
  rewrite (notifications_create_no_case _ (kickAttempts_are_notifications env target reason)),
          (notifications_create_no_case _ (banAttempts_are_notifications env target reason)).
  split; reflexivity.
Qed.

(** The sibling commands wait for the platform: forceban, unban and softban
    create their case exactly when the request resolves. *)
Lemma forcebanCmd_case_iff_resolved (env : Env) (msg : Message) (userId : string)
    (reason : option string) (ledger : list IIgnoredEvent) :
  (forall target, guildMembers env userId = Some target ->
                  canActOn env (member msg) target = true) ->
  createdCases (trace (run (forcebanCmd env msg userId reason) ledger))
  = if banResolves env 0%nat userId
    then [commandedCase userId (id (author msg)) CaseTypes.Ban reason] else [].
Proof.
  intros Hcan. unfold run, forcebanCmd. unfold_cmd.
  destruct (guildMembers env userId) as [target|];
    [rewrite (Hcan target eq_refl)|]; cbn;
    destruct (banResolves env 0%nat userId); reflexivity.
Qed.

Lemma unbanCmd_case_iff_resolved (env : Env) (msg : Message) (userId : string)
    (reason : option string) (ledger : list IIgnoredEvent) :
  createdCases (trace (run (unbanCmd env msg userId reason) ledger))
  = if unbanResolves env userId
    then [commandedCase userId (id (author msg)) CaseTypes.Unban reason] else [].
Proof.
  unfold run, unbanCmd. unfold_cmd. cbn.
  destruct (unbanResolves env userId); reflexivity.
Qed.

Lemma softbanCmd_case_iff_resolved (env : Env) (msg : Message) (target : Member)
    (reason : option string) (ledger : list IIgnoredEvent) :
  canActOn env (member msg) target = true ->
  createdCases (trace (run (softbanCmd env msg target reason) ledger))
  = if banResolves env 0%nat (member_id target) && unbanResolves env (member_id target)
    then [commandedCase (member_id target) (id (author msg)) CaseTypes.Softban reason]
    else [].
Proof.
  intros Hcan. unfold run, softbanCmd. unfold_cmd. rewrite Hcan. cbn.
  destruct (banResolves env 0%nat (member_id target)); cbn;
    [destruct (unbanResolves env (member_id target))|]; reflexivity.
Qed.

(* ------------------------------------------------------------------ *)
(** ** Mute *)

Lemma createdNotes_app (a b : list Effect) :
  createdNotes (a ++ b) = createdNotes a ++ createdNotes b.
Proof.
  induction a as [|e a IH]; [reflexivity|].
  destruct e; simpl; rewrite IH; reflexivity.
Qed.

Lemma notifications_create_no_note (t : list Effect) :
  forallb isNotification t = true -> createdNotes t = [].
Proof.
  induction t as [|e t IH]; [reflexivity|].
  destruct e; simpl; try discriminate; exact IH.
Qed.

Section Mute.

Variable env : Env.
Variable msg : Message.
Variable target : Member.
Variables time reason : option string.
Variable ledger : list IIgnoredEvent.

Let muteTime := muteTimeOf env time.
Let reason' := muteReasonOf env time reason.
Let theCase :=
  commandedCase (member_id target) (id (author msg)) CaseTypes.Mute reason'.

Hypothesis role : Js.truthy (mute_role (config env)) = true.
Hypothesis allowed : canActOn env (member msg) target = true.

(** What a mute does once the Mutes plugin has handed back a mute. *)
Lemma muteCmd_trace (mute : Mute) :
  fireMute env target muteTime = Some mute ->
  trace (run (muteCmd env msg target time reason) ledger)
  = [IgnoreLog LogType.MEMBER_ROLE_ADD (member_id target) None;
     FireMute (member_id target) muteTime]
    ++ match case_id mute with
       | Some oldCase =>
           (if Js.truthy reason'
            then [FireCreateCaseNote oldCase (id (author msg)) (orEmpty reason')]
            else [])
           ++ [CreateMessage
                 (successMessage
                    (muteResponse env target muteTime ++ failedToMessage true)%string);
               Log LogType.MEMBER_MUTE (id (user (member msg)))
                   (Some (member_id target)) None]
       | None =>
           [FireCreateCase theCase; SetCaseId (member_id target) (newCaseId env theCase)]
           ++ (if Js.truthy reason'
               then attempts env (user target) (muteMessage env muteTime reason')
                      (dm_on_mute (config env)) (message_on_mute (config env))
               else [])
           ++ [CreateMessage
                 (successMessage
                    (muteResponse env target muteTime
                     ++ failedToMessage (muteDelivered env target time reason))%string);
               Log LogType.MEMBER_MUTE (id (user (member msg)))
                   (Some (member_id target)) None]
       end.
Proof.
  intros Hmute. unfold run, muteCmd, muteDelivered.
  fold muteTime reason'. unfold_cmd.
  rewrite role, allowed, Hmute. cbn [negb snd fst].
  destruct (case_id mute) as [oldCase|]; destruct (Js.truthy reason');
    cbn -[tryToMessageUser]; rewrite ?tryToMessageUser_world;
    cbn -[attempts delivered]; rewrite <- ?app_assoc; reflexivity.
Qed.

Lemma muteCmd_failed :
  fireMute env target muteTime = None ->
  trace (run (muteCmd env msg target time reason) ledger)
  = [IgnoreLog LogType.MEMBER_ROLE_ADD (member_id target) None;
     FireMute (member_id target) muteTime;
     CreateMessage (errorMessage "Could not mute the user")].
Proof.
  intros Hmute. unfold run, muteCmd. fold muteTime. unfold_cmd.
  rewrite role, allowed, Hmute. reflexivity.
Qed.

End Mute.

(** A mute that is refused (no mute role configured, or no authority over
    the target) creates no case and no note. *)
Lemma muteCmd_refused (env : Env) (msg : Message) (target : Member)
    (time reason : option string) (ledger : list IIgnoredEvent) :
  Js.truthy (mute_role (config env)) && canActOn env (member msg) target = false ->
  createdCases (trace (run (muteCmd env msg target time reason) ledger)) = []
  /\ createdNotes (trace (run (muteCmd env msg target time reason) ledger)) = [].
Proof.
  unfold run, muteCmd. unfold_cmd.
  destruct (Js.truthy (mute_role (config env)));
    destruct (canActOn env (member msg) target); try discriminate;
    intros _; split; reflexivity.
Qed.

(** C5.  When the mute handed back to [muteCmd] already carries a case id,
    the command creates no case; it appends exactly one note to that case
    when a reason is supplied and none otherwise.  A Mute case is created
    only when the mute carries no case id, and then exactly one. *)
Theorem remute_reuses_the_open_case (env : Env) (msg : Message) (target : Member)
    (time reason : option string) (ledger : list IIgnoredEvent) :
  let t := trace (run (muteCmd env msg target time reason) ledger) in
  let muteTime := muteTimeOf env time in
  let reason' := muteReasonOf env time reason in
  let theCase :=
    commandedCase (member_id target) (id (author msg)) CaseTypes.Mute reason' in
  (forall mute oldCase,
      Js.truthy (mute_role (config env)) = true ->
      canActOn env (member msg) target = true ->
      fireMute env target muteTime = Some mute ->
      case_id mute = Some oldCase ->
      createdCases t = []
      /\ createdNotes t
         = if Js.truthy reason'
           then [(oldCase, id (author msg), orEmpty reason')] else [])
  /\ (forall mute,
         Js.truthy (mute_role (config env)) = true ->
         canActOn env (member msg) target = true ->
         fireMute env target muteTime = Some mute ->
         case_id mute = None ->
         createdCases t = [theCase] /\ createdNotes t = []
         /\ In (SetCaseId (member_id target) (newCaseId env theCase)) t)
  /\ (createdCases t = []
      \/ createdCases t = [theCase]
         /\ exists mute, fireMute env target muteTime = Some mute
                         /\ case_id mute = None).
Proof.
  cbv zeta.
  assert (Hnotif : forall r,
             forallb isNotification
               (if Js.truthy r
                then attempts env (user target)
                       (muteMessage env (muteTimeOf env time) r)
                       (dm_on_mute (config env)) (message_on_mute (config env))
                else []) = true).
  { intros r. destruct (Js.truthy r);
      [apply attempts_are_notifications | reflexivity]. }
  repeat apply conj.
  - intros mute oldCase Hrole Hcan Hmute Hold.
    rewrite (muteCmd_trace env msg target time reason ledger Hrole Hcan mute Hmute), Hold.
    destruct (Js.truthy (muteReasonOf env time reason)); split; reflexivity.
  - intros mute Hrole Hcan Hmute Hnew.
    rewrite (muteCmd_trace env msg target time reason ledger Hrole Hcan mute Hmute), Hnew.
    cbn [app]. unfold createdCases, createdNotes; fold createdCases; fold createdNotes.
    rewrite createdCases_app, createdNotes_app,
      (notifications_create_no_case _ (Hnotif _)),
      (notifications_create_no_note _ (Hnotif _)).
    repeat split. simpl. auto.
  - destruct (Js.truthy (mute_role (config env))
              && canActOn env (member msg) target) eqn:Hgate.
    + apply andb_true_iff in Hgate as [Hrole Hcan].
      destruct (fireMute env target (muteTimeOf env time)) as [mute|] eqn:Hmute.
      * rewrite (muteCmd_trace env msg target time reason ledger Hrole Hcan mute Hmute).
        destruct (case_id mute) as [oldCase|] eqn:Hid.
        -- left. destruct (Js.truthy (muteReasonOf env time reason)); reflexivity.
        -- right. split; [|exists mute; split; [reflexivity | exact Hid]].
           cbn [app]. unfold createdCases; fold createdCases.
           rewrite createdCases_app, (notifications_create_no_case _ (Hnotif _)).
           reflexivity.
      * left.
        rewrite (muteCmd_failed env msg target time reason ledger Hrole Hcan Hmute).
        reflexivity.
    + left. apply (muteCmd_refused env msg target time reason ledger Hgate).
Qed.

Lemma remute_reuses_the_open_case_witness :
  let t := trace (run (muteCmd mutedEnv moderator (mkMember bob) None (Some "again")) []) in
  createdCases t = [] /\ createdNotes t = [(7, "100", "again")].
Proof.
  exact (proj1 (remute_reuses_the_open_case mutedEnv moderator (mkMember bob) None
                  (Some "again") [])
               (mkMute "2" (Some 7)) 7 eq_refl eq_refl eq_refl eq_refl).
Defined.

(* ------------------------------------------------------------------ *)
(** ** Notification failure and the case *)

(** An allowed warning creates its case when the user was reached or the
    operator confirms, and not otherwise. *)
Lemma warnCmd_cases (env : Env) (msg : Message) (target : Member) (reason : string)
    (ledger : list IIgnoredEvent) :
  canActOn env (member msg) target = true ->
  createdCases (trace (run (warnCmd env msg target reason) ledger))
  = if warnDelivered env target reason || confirmed (waitForReaction env)
    then [commandedCase (member_id target) (id (author msg)) CaseTypes.Warn (Some reason)]
    else [].
Proof.
  intros Hcan. unfold run, warnCmd, warnDelivered.
  unfold bind at 1. unfold when at 1. rewrite Hcan. cbn [negb].
  unfold ret at 1. unfold bind at 1.
  rewrite tryToMessageUser_world.
  pose proof (attempts_are_notifications env (user target) (warnMessage env reason)
                (dm_on_warn (config env)) (message_on_warn (config env))) as Hn.
  destruct (delivered env (user target) (warnMessage env reason) _ _).
  - unfold_cmd. cbn. rewrite <- !app_assoc, createdCases_app,
      (notifications_create_no_case _ Hn). reflexivity.
  - unfold_cmd. cbn.
    destruct (waitForReaction env) as [[|]|]; cbn;
      rewrite <- ?app_assoc, createdCases_app, (notifications_create_no_case _ Hn);
      reflexivity.
Qed.

(** C9 (counterexample to the claim as stated).  A warning passes the
    authority check, the message does not reach the user, and the operator
    answers the prompt with the cross: no case is created. *)
Lemma undelivered_warning_declined_creates_no_case :
  let env := undeliverableEnv (Some CrossMark) in
  canActOn env (member moderator) (mkMember bob) = true
  /\ warnDelivered env (mkMember bob) "spam" = false
  /\ createdCases (trace (run (warnCmd env moderator (mkMember bob) "spam") [])) = [].
Proof. repeat split. Qed.

(** C9 (amended).  For a kick or ban that passes the authority check and
    whose request resolves, and for a first mute that succeeds, the case is
    created whether or not the notification reached the user, and the
    answer to the operator is the success message, with the remark
    "(failed to message user)" when it did not.  A warning whose
    notification failed creates its case only if the operator confirms. *)
Theorem failed_notification_keeps_case (env : Env) (msg : Message) (target : Member)
    (ledger : list IIgnoredEvent) :
  canActOn env (member msg) target = true ->
  (forall reason,
      kickResolves env (member_id target) = true ->
      let t := trace (run (kickCmd env msg target reason) ledger) in
      createdCases t
      = [commandedCase (member_id target) (id (author msg)) CaseTypes.Kick reason]
      /\ In (CreateMessage
               (successMessage
                  ("Kicked **" ++ tag (user target) ++ "**"
                   ++ failedToMessage (kickDelivered env target reason))%string)) t)
  /\ (forall reason,
         banResolves env 0%nat (member_id target) = true ->
         let t := trace (run (banCmd env msg target reason) ledger) in
         createdCases t
         = [commandedCase (member_id target) (id (author msg)) CaseTypes.Ban reason]
         /\ In (CreateMessage
                  (successMessage
                     ("Banned **" ++ tag (user target) ++ "**"
                      ++ failedToMessage (banDelivered env target reason))%string)) t)
  /\ (forall time reason mute,
         Js.truthy (mute_role (config env)) = true ->
         fireMute env target (muteTimeOf env time) = Some mute ->
         case_id mute = None ->
         let t := trace (run (muteCmd env msg target time reason) ledger) in
         createdCases t
         = [commandedCase (member_id target) (id (author msg)) CaseTypes.Mute
                          (muteReasonOf env time reason)]
         /\ In (CreateMessage
                  (successMessage
                     (muteResponse env target (muteTimeOf env time)
                      ++ failedToMessage (muteDelivered env target time reason))%string))
               t)
  /\ (forall reason,
         createdCases (trace (run (warnCmd env msg target reason) ledger))
         = if warnDelivered env target reason || confirmed (waitForReaction env)
           then [commandedCase (member_id target) (id (author msg)) CaseTypes.Warn
                               (Some reason)]
           else []).
Proof.
  intros Hcan. repeat apply conj.
  - intros reason _. cbv zeta. split.
    + apply (ban_kick_case_whatever_the_platform env msg target reason ledger Hcan).
    + unfold run. rewrite (kickCmd_allowed env msg target reason Hcan).
      cbn [snd trace app]. apply in_or_app; right; simpl; auto.
  - intros reason _. cbv zeta. split.
    + apply (ban_kick_case_whatever_the_platform env msg target reason ledger Hcan).
    + unfold run. rewrite (banCmd_allowed env msg target reason Hcan).
      cbn [snd trace app]. apply in_or_app; right; simpl; auto.
  - intros time reason mute Hrole Hmute Hnew. cbv zeta.
    rewrite (muteCmd_trace env msg target time reason ledger Hrole Hcan mute Hmute), Hnew.
    split.
    + cbn [app]. unfold createdCases; fold createdCases.
      rewrite createdCases_app.
      destruct (Js.truthy (muteReasonOf env time reason));
        [rewrite (notifications_create_no_case _ (attempts_are_notifications _ _ _ _ _))|];
        reflexivity.
    + apply in_or_app; right. apply in_or_app; right. apply in_or_app; right.
      simpl; auto.
  - intros reason. apply warnCmd_cases. exact Hcan.
Qed.

Lemma failed_notification_keeps_case_witness :
  createdCases
    (trace (run (warnCmd (undeliverableEnv (Some CheckMark)) moderator (mkMember bob)
                         "spam") []))
  = [commandedCase "2" "100" CaseTypes.Warn (Some "spam")].
Proof.
  exact (proj2 (proj2 (proj2
           (failed_notification_keeps_case (undeliverableEnv (Some CheckMark)) moderator
              (mkMember bob) [] eq_refl))) "spam").
Defined.

(* ------------------------------------------------------------------ *)
(** ** Massban *)

Section Massban.

Variable env : Env.
Variable msg : Message.

(** The pre-check lets a list through when every target that is a member
    passes the authority check. *)
Lemma massbanVerify_pass (userIds : list string) (w : World) :
  mayActOnAll env msg userIds -> massbanVerify env msg userIds w = (Value tt, w).
Proof.
  unfold mayActOnAll. revert w.
  induction userIds as [|u rest IH]; intros w H; [reflexivity|].
  simpl. unfold bind at 1.
  destruct (guildMembers env u) as [target|] eqn:Hm.
  - rewrite (H u target (or_introl eq_refl) Hm). cbn.
    apply IH. intros u' t' Hin. apply H. right. exact Hin.
  - cbn. apply IH. intros u' t' Hin. apply H. right. exact Hin.
Qed.

(** It stops the command, with one message to the operator, as soon as a
    target fails the check. *)
Lemma massbanVerify_fail (userIds : list string) (w : World) :
  mayNotActOnSome env msg userIds ->
  massbanVerify env msg userIds w
  = (Returned,
     mkWorld (ignoredEvents w) (timers w)
       (trace w ++
        [CreateMessage
           (errorMessage "Cannot massban one or more users: insufficient permissions")])).
Proof.
  unfold mayNotActOnSome. revert w.
  induction userIds as [|u rest IH]; intros w (u0 & target & Hin & Hm & Hcan).
  - destruct Hin.
  - simpl. unfold bind at 1.
    destruct (guildMembers env u) as [t|] eqn:Hu.
    + destruct (canActOn env (member msg) t) eqn:Ht.
      * cbn. apply IH. destruct Hin as [-> | Hin].
        -- rewrite Hu in Hm. injection Hm as ->. congruence.
        -- exists u0, target. auto.
      * reflexivity.
    + cbn. apply IH. destruct Hin as [-> | Hin].
      * congruence.
      * exists u0, target. auto.
Qed.

Lemma massbanIgnore_world (userIds : list string) (w : World) :
  massbanIgnore userIds w
  = (Value tt,
     mkWorld
       (ignoredEvents w ++ map (mkIgnored IgnoredEventType.Ban) userIds)
       (timers w ++ map (fun u => mkTimer IgnoredEventType.Ban u 120000) userIds)
       (trace w ++ map (fun u => IgnoreLog LogType.MEMBER_BAN u (Some 120000)) userIds)).
Proof.
  revert w. induction userIds as [|u rest IH]; intros w.
  - destruct w. simpl. rewrite !app_nil_r. reflexivity.
  - simpl. unfold_cmd. cbn. rewrite IH. cbn. rewrite <- !app_assoc. reflexivity.
Qed.

Lemma massbanLoop_world (banReason : string) (userIds : list string) :
  forall (i : nat) (failedBans : list string) (w : World),
    massbanLoop env msg banReason i userIds failedBans w
    = (Value (failedBans ++ failedFrom env i userIds),
       mkWorld (ignoredEvents w) (timers w)
               (trace w ++ massbanEffects env msg banReason i userIds)).
Proof.
  induction userIds as [|u rest IH]; intros i failedBans w.
  - destruct w. simpl. rewrite !app_nil_r. reflexivity.
  - simpl. unfold bind at 1. unfold tryCatch, await, bind, emit, ret, Js.push.
    destruct (banResolves env i u); cbn; rewrite IH; cbn;
      rewrite <- !app_assoc; reflexivity.
Qed.

Lemma massbanEffects_requests (banReason : string) (userIds : list string) (i : nat) :
  banRequests (massbanEffects env msg banReason i userIds) = userIds.
Proof.
  revert i. induction userIds as [|u rest IH]; intros i; [reflexivity|].
  simpl. destruct (banResolves env i u); simpl; rewrite IH; reflexivity.
Qed.

Lemma massbanEffects_cases (banReason : string) (userIds : list string) (i : nat) :
  createdCases (massbanEffects env msg banReason i userIds)
  = map (massbanCase msg banReason) (succeededFrom env i userIds).
Proof.
  revert i. induction userIds as [|u rest IH]; intros i; [reflexivity|].
  simpl. destruct (banResolves env i u); simpl; rewrite IH; reflexivity.
Qed.

Lemma massbanEffects_logs (banReason : string) (userIds : list string) (i : nat) :
  massbanLogs (massbanEffects env msg banReason i userIds) = [].
Proof.
  revert i. induction userIds as [|u rest IH]; intros i; [reflexivity|].
  simpl. destruct (banResolves env i u); simpl; rewrite IH; reflexivity.
Qed.

Lemma succeeded_failed_length (userIds : list string) (i : nat) :
  (List.length (succeededFrom env i userIds) + List.length (failedFrom env i userIds)
   = List.length userIds)%nat.
Proof.
  revert i. induction userIds as [|u rest IH]; intros i; [reflexivity|].
  simpl. destruct (banResolves env i u); simpl; rewrite <- (IH (S i)); lia.
Qed.

Lemma massbanCase_userIds (banReason : string) (userIds : list string) :
  map c_userId (map (massbanCase msg banReason) userIds) = userIds.
Proof.
  induction userIds as [|u rest IH]; simpl; [reflexivity|].
  rewrite IH. reflexivity.
Qed.

Lemma massbanCase_fields (banReason : string) (userIds : list string) :
  Forall (fun c => c_type c = CaseTypes.Ban
                   /\ c_modId c = Some (id (author msg))
                   /\ c_reason c = Some ("Mass ban: " ++ banReason)%string)
         (map (massbanCase msg banReason) userIds).
Proof.
  induction userIds as [|u rest IH]; simpl; constructor; auto.
Qed.

Lemma ignoreLog_entries (userIds : list string) :
  let t := map (fun u => IgnoreLog LogType.MEMBER_BAN u (Some 120000)) userIds in
  banRequests t = [] /\ createdCases t = [] /\ massbanLogs t = [].
Proof.
  induction userIds as [|u rest IH]; simpl; [auto|exact IH].
Qed.

End Massban.

(** C6.  A massban that gets past the size limit, the confirmation and the
    authority pre-check sends one ban request per target, in order,
    whatever the earlier requests answered; it creates one case per target
    whose request resolved and none for the others: the users of the
    created cases are exactly the banned targets, in order, and each case
    is a ban by the operator with the mass-ban reason; it writes one MASSBAN
    log entry carrying the number of resolved requests when there is at
    least one, and none otherwise, in which case the operator is told that
    all bans failed; with both successes and failures the answer to the
    operator lists the failed targets. *)
Theorem massban_partial_failure (env : Env) (msg : Message) (userIds : list string)
    (ledger : list IIgnoredEvent) :
  (List.length userIds <= 100)%nat ->
  massbanCancelled (waitForReply env) = false ->
  mayActOnAll env msg userIds ->
  let t := trace (run (massbanCmd env msg userIds) ledger) in
  let succeeded := succeededFrom env 0 userIds in
  let failed := failedFrom env 0 userIds in
  banRequests t = userIds
  /\ createdCases t = map (massbanCase msg (orEmpty (waitForReply env))) succeeded
  /\ map c_userId (createdCases t) = succeeded
  /\ Forall (fun c => c_type c = CaseTypes.Ban
                      /\ c_modId c = Some (id (author msg))
                      /\ c_reason c
                         = Some ("Mass ban: " ++ orEmpty (waitForReply env))%string)
            (createdCases t)
  /\ massbanLogs t
     = match succeeded with
       | [] => []
       | _ :: _ => [Some (Z.of_nat (List.length succeeded))]
       end
  /\ (succeeded = [] ->
      In (CreateMessage (errorMessage "All bans failed. Make sure the IDs are valid.")) t)
  /\ (succeeded <> [] -> failed <> [] ->
      In (CreateMessage
            (successMessage
               ("Banned " ++ numberToString (Z.of_nat (List.length succeeded))
                ++ " users, " ++ numberToString (Z.of_nat (List.length failed))
                ++ " failed: " ++ String.concat " " failed)%string)) t).
Proof.
  intros Hlen Hreply Hall. cbv zeta. unfold run, massbanCmd.
  assert (Hlen' : (100 <? Z.of_nat (List.length userIds)) = false)
    by (apply Z.ltb_ge; lia).
  rewrite Hlen', Hreply.
  unfold bind, when, emit, ret. cbn [fst snd ignoredEvents timers trace app].
  rewrite massbanVerify_pass by exact Hall.
  rewrite massbanIgnore_world.
  cbn [fst snd ignoredEvents timers trace app].
  rewrite massbanLoop_world.
  cbn [fst snd ignoredEvents timers trace app].
  replace (Z.of_nat (List.length userIds)
           - Z.of_nat (List.length (failedFrom env 0 userIds)))
    with (Z.of_nat (List.length (succeededFrom env 0 userIds)))
    by (pose proof (succeeded_failed_length env userIds 0); lia).
  destruct (ignoreLog_entries userIds) as (Hi1 & Hi2 & Hi3). cbv zeta in Hi1, Hi2, Hi3.
  pose proof (massbanEffects_requests env msg (orEmpty (waitForReply env)) userIds 0) as He1.
  pose proof (massbanEffects_cases env msg (orEmpty (waitForReply env)) userIds 0) as He2.
  pose proof (massbanEffects_logs env msg (orEmpty (waitForReply env)) userIds 0) as He3.
  pose proof (massbanCase_userIds msg (orEmpty (waitForReply env))
                (succeededFrom env 0 userIds)) as Hu.
  pose proof (massbanCase_fields msg (orEmpty (waitForReply env))
                (succeededFrom env 0 userIds)) as Hf.
  destruct (succeededFrom env 0 userIds) as [|s ss] eqn:Hs.
  - cbn [List.length Z.of_nat Z.eqb fst snd ignoredEvents timers trace app].
    cbn [banRequests createdCases massbanLogs].
    rewrite !banRequests_app, !createdCases_app, !massbanLogs_app,
      Hi1, Hi2, Hi3, He1, He2, He3.
    cbn. rewrite !app_nil_r. repeat split.
    + constructor.
    + intros _. do 2 right. apply in_or_app. right. simpl. auto.
    + intros H. exfalso. apply H. reflexivity.
  - assert (Hnz : (Z.of_nat (List.length (s :: ss)) =? 0) = false)
      by (apply Z.eqb_neq; simpl List.length; lia).
    rewrite Hnz.
    destruct (failedFrom env 0 userIds) as [|f fs] eqn:Hfl;
      cbn [List.length Nat.eqb negb fst snd ignoredEvents timers trace app];
      cbn [banRequests createdCases massbanLogs];
      rewrite !banRequests_app, !createdCases_app, !massbanLogs_app,
        Hi1, Hi2, Hi3, He1, He2, He3;
      cbn [banRequests createdCases massbanLogs app]; rewrite ?app_nil_r;
      (split; [reflexivity|]); (split; [reflexivity|]);
      (split; [exact Hu|]); (split; [exact Hf|]);
      (split; [reflexivity|]); split; try discriminate.
    + intros _ H. exfalso. apply H. reflexivity.
    + intros _ _. do 2 right. apply in_or_app. right. simpl. auto.
Qed.

Lemma massban_partial_failure_witness :
  let t := trace (run (massbanCmd partialEnv moderator ["A"; "B"; "C"]) []) in
  banRequests t = ["A"; "B"; "C"]
  /\ createdCases t = map (massbanCase moderator "raid") ["A"; "C"]
  /\ map c_userId (createdCases t) = ["A"; "C"]
  /\ Forall (fun c => c_type c = CaseTypes.Ban
                      /\ c_modId c = Some "100"
                      /\ c_reason c = Some "Mass ban: raid")
            (createdCases t)
  /\ massbanLogs t = [Some 2]
  /\ (["A"; "C"] = [] ->
      In (CreateMessage (errorMessage "All bans failed. Make sure the IDs are valid.")) t)
  /\ (["A"; "C"] <> [] -> ["B"] <> [] ->
      In (CreateMessage (successMessage "Banned 2 users, 1 failed: B")) t).
Proof.
  apply (massban_partial_failure partialEnv moderator ["A"; "B"; "C"] []).
  - simpl. lia.
  - reflexivity.
  - intros u target _ H. discriminate H.
Defined.

(** A reply that is the word between white space of any kind, a
    no-break space included, cancels the massban: nobody is banned. *)
Example massban_cancel_with_no_break_space :
  let nbsp := String (ascii_of_nat 194) (String (ascii_of_nat 160) EmptyString) in
  let byte160 := String (ascii_of_nat 160) EmptyString in
  let env reply :=
    mkEnv (guildName partialEnv) (config partialEnv) (canActOn partialEnv)
          (guildMembers partialEnv) (dmResolves partialEnv)
          (channelResolves partialEnv) (findRelevantAuditLogEntry partialEnv)
          (fireMute partialEnv) (newCaseId partialEnv) (kickResolves partialEnv)
          (banResolves partialEnv) (unbanResolves partialEnv)
          (waitForReaction partialEnv) (Some reply)
          (convertDelayStringToMS partialEnv) (humanizeDuration partialEnv)
          (formatTemplateString partialEnv) (replace partialEnv) in
  massbanCancelled (Some ("cancel" ++ nbsp)%string) = true
  /\ massbanCancelled (Some ("cancel" ++ byte160)%string) = true
  /\ massbanCancelled (Some (nbsp ++ "Cancel" ++ nbsp ++ " ")%string) = true
  /\ massbanCancelled (Some ("cancel" ++ nbsp ++ "x")%string) = false
  /\ trace (run (massbanCmd (env ("cancel" ++ nbsp)%string) moderator ["A"; "B"; "C"]) [])
     = [CreateMessage (plainMessage "Ban reason? `cancel` to cancel");
        WaitForReply;
        CreateMessage (plainMessage "Cancelled")]
  /\ trace (run (massbanCmd (env ("cancel" ++ byte160)%string) moderator ["A"; "B"; "C"]) [])
     = [CreateMessage (plainMessage "Ban reason? `cancel` to cancel");
        WaitForReply;
        CreateMessage (plainMessage "Cancelled")].
Proof. repeat split. Qed.

(** The run of the specification's example, in full: A and C are banned and
    get a case each, B is not and gets none, and there is one log entry. *)
Example massban_A_B_C :
  trace (run (massbanCmd partialEnv moderator ["A"; "B"; "C"]) [])
  = [CreateMessage (plainMessage "Ban reason? `cancel` to cancel");
     WaitForReply;
     IgnoreLog LogType.MEMBER_BAN "A" (Some 120000);
     IgnoreLog LogType.MEMBER_BAN "B" (Some 120000);
     IgnoreLog LogType.MEMBER_BAN "C" (Some 120000);
     CreateMessage (plainMessage "Banning...");
     BanMember "A" None None true;
     FireCreateCase (massbanCase moderator "raid" "A");
     BanMember "B" None None false;
     BanMember "C" None None true;
     FireCreateCase (massbanCase moderator "raid" "C");
     DeleteMessage;
     Log LogType.MASSBAN "100" None (Some 2);
     CreateMessage (successMessage "Banned 2 users, 1 failed: B")].
Proof. reflexivity. Qed.

(** C7.  When some target that is a member of the server fails the
    authority check, the massban sends no request to the platform, creates
    no case, leaves the ledger of ignored events and its timers as they
    were, and asks the activity log to ignore nothing. *)
Theorem massban_aborts_on_disallowed_target (env : Env) (msg : Message)
    (userIds : list string) (ledger : list IIgnoredEvent) :
  mayNotActOnSome env msg userIds ->
  let w := run (massbanCmd env msg userIds) ledger in
  banRequests (trace w) = []
  /\ (forall e, In e (trace w) -> isMutation e = false)
  /\ createdCases (trace w) = []
  /\ ignoredEvents w = ledger
  /\ timers w = []
  /\ ignoredLogs (trace w) = [].
Proof.
  intros Hsome. cbv zeta. unfold run, massbanCmd.
  unfold bind, when, emit, ret, return_.
  destruct (100 <? Z.of_nat (List.length userIds)).
  - cbn. repeat split. intros e [<- | []]. reflexivity.
  - cbn [fst snd ignoredEvents timers trace app].
    destruct (massbanCancelled (waitForReply env)).
    + cbn. repeat split. intros e [<- | [<- | [<- | []]]]; reflexivity.
    + cbn [fst snd ignoredEvents timers trace app].
      rewrite (massbanVerify_fail env msg userIds _ Hsome).
      cbn. repeat split. intros e [<- | [<- | [<- | []]]]; reflexivity.
Qed.

Lemma massban_aborts_on_disallowed_target_witness :
  let w := run (massbanCmd protectedEnv moderator ["1"; "2"; "3"]) [] in
  banRequests (trace w) = []
  /\ (forall e, In e (trace w) -> isMutation e = false)
  /\ createdCases (trace w) = []
  /\ ignoredEvents w = []
  /\ timers w = []
  /\ ignoredLogs (trace w) = [].
Proof.
  apply (massban_aborts_on_disallowed_target protectedEnv moderator ["1"; "2"; "3"] []).
  exists "2", (mkMember (mkUser "2" "bob" "0003")).
  repeat split. simpl. auto.
Defined.

(* ================================================================== *)
(** * Further properties *)

(* ------------------------------------------------------------------ *)
(** ** Suppressions are consumed pair by pair *)

Lemma sameEvent_entry (type : IgnoredEventType.t) (userId : string)
    (info : IIgnoredEvent) :
  sameEvent type userId info = true <-> info = mkIgnored type userId.
Proof.
  unfold sameEvent. destruct info as [ty u]; simpl.
  rewrite andb_true_iff, String.eqb_eq. split.
  - intros [Hty ->]. destruct type, ty; try discriminate Hty; reflexivity.
  - intros [= -> ->]. split; [destruct type|]; reflexivity.
Qed.

Lemma some_split {A} (q : A -> bool) (l : list A) :
  Js.some q l = true ->
  exists pre x post, l = pre ++ x :: post /\ Js.some q pre = false /\ q x = true.
Proof.
  unfold Js.some. induction l as [|y l IH]; simpl; [discriminate|].
  destruct (q y) eqn:Hy.
  - intros _. exists [], y, l. auto.
  - simpl. intros H. destruct (IH H) as (pre & x & post & -> & Hpre & Hx).
    exists (y :: pre), x, post. simpl. rewrite Hy. auto.
Qed.

Lemma pending_app (type : IgnoredEventType.t) (userId : string)
    (a b : list IIgnoredEvent) :
  pending type userId (a ++ b) = (pending type userId a + pending type userId b)%nat.
Proof. unfold pending. rewrite filter_app, length_app. reflexivity. Qed.

Lemma pending_zero (type : IgnoredEventType.t) (userId : string)
    (l : list IIgnoredEvent) :
  Js.some (sameEvent type userId) l = false <-> pending type userId l = 0%nat.
Proof.
  unfold Js.some, pending. induction l as [|x l IH]; simpl; [tauto|].
  destruct (sameEvent type userId x); simpl; [split; discriminate | exact IH].
Qed.

Lemma pending_positive (type : IgnoredEventType.t) (userId : string)
    (l : list IIgnoredEvent) :
  (0 < pending type userId l)%nat -> Js.some (sameEvent type userId) l = true.
Proof.
  intros H. destruct (Js.some (sameEvent type userId) l) eqn:E; [reflexivity|].
  apply pending_zero in E. lia.
Qed.

Lemma pending_entry (type type' : IgnoredEventType.t) (userId userId' : string) :
  pending type' userId' [mkIgnored type userId]
  = if sameEvent type' userId' (mkIgnored type userId) then 1%nat else 0%nat.
Proof.
  unfold pending. cbn [filter].
  destruct (sameEvent type' userId' (mkIgnored type userId)); reflexivity.
Qed.

(** A gateway event removes one entry of its own pair when there is one,
    and no entry of another pair. *)
Lemma observe_pending (env : Env) (kind kind' : IgnoredEventType.t) (u : User)
    (userId' : string) (w : World) :
  pending kind' userId' (ignoredEvents (after (observe env kind u) w))
  = if sameEvent kind' userId' (mkIgnored kind (id u))
    then Nat.pred (pending kind (id u) (ignoredEvents w))
    else pending kind' userId' (ignoredEvents w).
Proof.
  destruct (Js.some (sameEvent kind (id u)) (ignoredEvents w)) eqn:Hs.
  - unfold after at 1. rewrite (observe_suppressed env kind u w Hs). cbn [snd].
    destruct (some_split _ _ Hs) as (pre & x & post & Hw & Hpre & Hx).
    unfold after. rewrite (clearIgnoredEvent_present kind (id u) pre post x w Hw Hpre Hx).
    cbn [snd ignoredEvents]. rewrite Hw.
    apply sameEvent_entry in Hx. subst x.
    change (mkIgnored kind (id u) :: post) with ([mkIgnored kind (id u)] ++ post).
    rewrite !pending_app, !pending_entry, sameEvent_self.
    destruct (sameEvent kind' userId' (mkIgnored kind (id u))) eqn:Hk.
    + apply sameEvent_entry in Hk. injection Hk as <- <-. lia.
    + lia.
  - rewrite (observe_unsuppressed_ledger env kind u w Hs).
    destruct (sameEvent kind' userId' (mkIgnored kind (id u))) eqn:Hk;
      [|reflexivity].
    apply sameEvent_entry in Hk. injection Hk as <- <-.
    apply pending_zero in Hs. rewrite Hs. reflexivity.
Qed.

(** A gateway event that is suppressed adds nothing to the trace. *)
Lemma observe_suppressed_trace (env : Env) (kind : IgnoredEventType.t) (u : User)
    (w : World) :
  (0 < pending kind (id u) (ignoredEvents w))%nat ->
  trace (after (observe env kind u) w) = trace w.
Proof.
  intros H. unfold after.
  rewrite (observe_suppressed env kind u w (pending_positive _ _ _ H)). reflexivity.
Qed.

(** X1.  A gateway event removes one ledger entry of its own
    (kind, user) pair when there is one, and never an entry of another
    pair; registering a suppression adds one entry of its pair. *)
Theorem event_consumes_only_its_own_suppression (env : Env)
    (kind kind' : IgnoredEventType.t) (u : User) (userId' : string)
    (timeout : option Z) (w : World) :
  pending kind' userId' (ignoredEvents (after (observe env kind u) w))
  = (if sameEvent kind' userId' (mkIgnored kind (id u))
     then Nat.pred (pending kind (id u) (ignoredEvents w))
     else pending kind' userId' (ignoredEvents w))
  /\ pending kind' userId' (ignoredEvents (after (ignoreEvent kind (id u) timeout) w))
     = (if sameEvent kind' userId' (mkIgnored kind (id u))
        then S (pending kind (id u) (ignoredEvents w))
        else pending kind' userId' (ignoredEvents w)).
Proof.
  split; [apply observe_pending|].
  unfold after, ignoreEvent, Js.push. cbn [snd ignoredEvents].
  rewrite pending_app, pending_entry.
  destruct (sameEvent kind' userId' (mkIgnored kind (id u))) eqn:Hk.
  - apply sameEvent_entry in Hk. injection Hk as <- <-. lia.
  - lia.
Qed.

(** X2.  When the timer of a suppression fires while no other entry of
    its pair is in the ledger, the plugin is back where it was before the
    registration: the entry and the timer are gone and the pair is no
    longer ignored. *)
Theorem expired_suppression_is_forgotten (kind : IgnoredEventType.t) (userId : string)
    (timeout : option Z) (ledger : list IIgnoredEvent) (tms : list Timer)
    (t : list Effect) :
  Js.some (sameEvent kind userId) ledger = false ->
  let w1 := after (ignoreEvent kind userId timeout) (mkWorld ledger tms t) in
  let w2 := after (fireTimer (List.length tms)) w1 in
  fst (isEventIgnored kind userId w1) = Value true
  /\ w2 = mkWorld ledger tms t
  /\ fst (isEventIgnored kind userId w2) = Value false.
Proof.
  intros Hled. cbv zeta.
  assert (E : after (fireTimer (List.length tms))
                (after (ignoreEvent kind userId timeout) (mkWorld ledger tms t))
              = mkWorld ledger tms t).
  { unfold after, ignoreEvent, fireTimer, Js.push. cbn [snd ignoredEvents timers trace].
    rewrite nth_error_app2, Nat.sub_diag by lia. cbn [nth_error tm_type tm_userId].
    erewrite clearIgnoredEvent_present
      with (pre := ledger) (post := []) (x := mkIgnored kind userId);
      [ | reflexivity | exact Hled | apply sameEvent_self ].
    cbn [snd timers trace].
    rewrite firstn_app, firstn_all, Nat.sub_diag, skipn_all2
      by (rewrite length_app; simpl; lia).
    cbn. rewrite !app_nil_r. reflexivity. }
  rewrite E. repeat split.
  - unfold isEventIgnored, after, ignoreEvent. cbn [fst snd ignoredEvents].
    rewrite isEventIgnored_after_ignore. reflexivity.
  - unfold isEventIgnored. cbn [fst ignoredEvents]. rewrite Hled. reflexivity.
Qed.

Lemma expired_suppression_is_forgotten_witness :
  let w1 := after (ignoreEvent IgnoredEventType.Ban "1" None)
              (mkWorld [mkIgnored IgnoredEventType.Kick "2"]
                       [mkTimer IgnoredEventType.Kick "2" 15000] []) in
  let w2 := after (fireTimer 1) w1 in
  fst (isEventIgnored IgnoredEventType.Ban "1" w1) = Value true
  /\ w2 = mkWorld [mkIgnored IgnoredEventType.Kick "2"]
                  [mkTimer IgnoredEventType.Kick "2" 15000] []
  /\ fst (isEventIgnored IgnoredEventType.Ban "1" w2) = Value false.
Proof.
  apply (expired_suppression_is_forgotten IgnoredEventType.Ban "1" None
           [mkIgnored IgnoredEventType.Kick "2"]
           [mkTimer IgnoredEventType.Kick "2" 15000] []).
  reflexivity.
Defined.

(* ------------------------------------------------------------------ *)
(** ** Refused commands *)

(** X3.  A warn, mute, kick, ban or softban on a member the moderator may
    not act on does one thing: it posts its error message.  No suppression
    is registered, nothing is sent to the user or the platform, and no
    case or log entry is written. *)
Theorem refused_command_only_reports (env : Env) (msg : Message) (target : Member)
    (time reason : option string) (text : string) (w : World) :
  canActOn env (member msg) target = false ->
  let reported (m : string) :=
    (@Returned unit,
     mkWorld (ignoredEvents w) (timers w)
             (trace w ++ [CreateMessage (errorMessage m)])) in
  warnCmd env msg target text w = reported "Cannot warn: insufficient permissions"
  /\ muteCmd env msg target time reason w
     = reported (if Js.truthy (mute_role (config env))
                 then "Cannot mute: insufficient permissions"
                 else "Cannot mute: no mute role specified")
  /\ kickCmd env msg target reason w = reported "Cannot kick: insufficient permissions"
  /\ banCmd env msg target reason w = reported "Cannot ban: insufficient permissions"
  /\ softbanCmd env msg target reason w = reported "Cannot ban: insufficient permissions".
Proof.
  intros Hcan. cbv zeta.
  unfold warnCmd, muteCmd, kickCmd, banCmd, softbanCmd. unfold_cmd. rewrite Hcan.
  repeat split.
  destruct (Js.truthy (mute_role (config env))); reflexivity.
Qed.

Lemma refused_command_only_reports_witness :
  kickCmd deniedEnv moderator (mkMember bob) (Some "spam") (mkWorld [] [] [])
  = (Returned,
     mkWorld [] []
       [CreateMessage (errorMessage "Cannot kick: insufficient permissions")]).
Proof.
  exact (proj1 (proj2 (proj2
           (refused_command_only_reports deniedEnv moderator (mkMember bob) None
              (Some "spam") "spam" (mkWorld [] [] []) eq_refl)))).
Defined.

(* ------------------------------------------------------------------ *)
(** ** A command and its echo *)

(** X4.  An allowed kick (ban) followed by the member-removal (ban) event
    it causes leaves exactly one case, the one of the command: the echo is
    recognised and adds none, whatever the ledger held before. *)
Theorem command_and_echo_make_one_case (env : Env) (msg : Message) (target : Member)
    (reason : option string) (ledger : list IIgnoredEvent) :
  canActOn env (member msg) target = true ->
  createdCases
    (trace (after (onGuildMemberRemove env target)
                  (run (kickCmd env msg target reason) ledger)))
  = [commandedCase (member_id target) (id (author msg)) CaseTypes.Kick reason]
  /\ createdCases
       (trace (after (onGuildBanAdd env (user target))
                     (run (banCmd env msg target reason) ledger)))
     = [commandedCase (member_id target) (id (author msg)) CaseTypes.Ban reason].
Proof.
  intros Hcan.
  pose proof (ban_kick_case_whatever_the_platform env msg target reason ledger Hcan)
    as [Hban Hkick].
  split.
  - rewrite <- Hkick. f_equal. unfold after.
    change (onGuildMemberRemove env target)
      with (observe env IgnoredEventType.Kick (user target)) at 1.
    rewrite observe_suppressed; [reflexivity|].
      unfold run. rewrite (kickCmd_allowed env msg target reason Hcan).
      cbn [snd ignoredEvents]. apply isEventIgnored_after_ignore.
  - rewrite <- Hban. f_equal. unfold after.
    change (onGuildBanAdd env (user target))
      with (observe env IgnoredEventType.Ban (user target)) at 1.
    rewrite observe_suppressed; [reflexivity|].
    unfold run. rewrite (banCmd_allowed env msg target reason Hcan).
    cbn [snd ignoredEvents]. apply isEventIgnored_after_ignore.
Qed.

Lemma command_and_echo_make_one_case_witness :
  createdCases
    (trace (after (onGuildMemberRemove kickAuditEnv (mkMember bob))
                  (run (kickCmd kickAuditEnv moderator (mkMember bob) None) [])))
  = [commandedCase "2" "100" CaseTypes.Kick None]
  /\ createdCases
       (trace (after (onGuildBanAdd kickAuditEnv bob)
                     (run (banCmd kickAuditEnv moderator (mkMember bob) None) [])))
     = [commandedCase "2" "100" CaseTypes.Ban None].
Proof.
  apply (command_and_echo_make_one_case kickAuditEnv moderator (mkMember bob) None []).
  reflexivity.
Defined.

Section Softban.

Variable env : Env.
Variable msg : Message.
Variable target : Member.
Variable reason : option string.
Hypothesis allowed : canActOn env (member msg) target = true.

Let uid := member_id target.

(** What an allowed softban has done when it ends or stops. *)
Lemma softbanCmd_allowed (w : World) :
  softbanCmd env msg target reason w
  = ((if banResolves env 0%nat uid && unbanResolves env uid
      then Value tt else Thrown),
     mkWorld
       (ignoredEvents w ++ [mkIgnored IgnoredEventType.Ban uid;
                            mkIgnored IgnoredEventType.Unban uid])
       (timers w ++ [mkTimer IgnoredEventType.Ban uid 15000;
                     mkTimer IgnoredEventType.Unban uid 15000])
       (trace w
        ++ [IgnoreLog LogType.MEMBER_BAN uid None;
            IgnoreLog LogType.MEMBER_UNBAN uid None;
            BanMember uid (Some 1) reason (banResolves env 0%nat uid)]
        ++ (if banResolves env 0%nat uid
            then [UnbanMember uid (unbanResolves env uid)] else [])
        ++ (if banResolves env 0%nat uid && unbanResolves env uid
            then [FireCreateCase
                    (commandedCase uid (id (author msg)) CaseTypes.Softban reason);
                  CreateMessage
                    (successMessage ("Softbanned **" ++ tag (user target) ++ "**")%string);
                  Log LogType.MEMBER_SOFTBAN (id (user (member msg))) (Some uid) None]
            else []))).
Proof.
  unfold softbanCmd. fold uid. unfold_cmd. rewrite allowed.
  destruct (banResolves env 0%nat uid); cbn;
    [destruct (unbanResolves env uid); cbn|];
    rewrite <- ?app_assoc; reflexivity.
Qed.

End Softban.

(** X5.  An allowed softban registers a Ban and an Unban suppression for
    the member before its two requests, so that the ban event and the
    unban event that follow add no case: when both requests resolve the
    only case is the Softban case; when the ban resolves and the unban is
    rejected the command stops with an exception and there is no case at
    all, not even from the ban event. *)
Theorem softban_echoes_add_no_case (env : Env) (msg : Message) (target : Member)
    (reason : option string) (ledger : list IIgnoredEvent) :
  canActOn env (member msg) target = true ->
  let w1 := run (softbanCmd env msg target reason) ledger in
  let w2 := after (onGuildBanAdd env (user target)) w1 in
  let w3 := after (onGuildBanRemove env (user target)) w2 in
  createdCases (trace w1)
  = (if banResolves env 0%nat (member_id target)
        && unbanResolves env (member_id target)
     then [commandedCase (member_id target) (id (author msg)) CaseTypes.Softban reason]
     else [])
  /\ createdCases (trace w2) = createdCases (trace w1)
  /\ createdCases (trace w3) = createdCases (trace w1).
Proof.
  intros Hcan. cbv zeta.
  split; [apply (softbanCmd_case_iff_resolved env msg target reason ledger Hcan)|].
  assert (Hban : (0 < pending IgnoredEventType.Ban (id (user target))
                       (ignoredEvents (run (softbanCmd env msg target reason) ledger)))%nat).
  { unfold run. rewrite (softbanCmd_allowed env msg target reason Hcan).
    cbn [snd ignoredEvents]. rewrite pending_app.
    unfold pending at 2, member_id. cbn [filter].
    rewrite sameEvent_self. simpl. lia. }
  assert (Hunban : (0 < pending IgnoredEventType.Unban (id (user target))
                         (ignoredEvents (run (softbanCmd env msg target reason) ledger)))%nat).
  { unfold run. rewrite (softbanCmd_allowed env msg target reason Hcan).
    cbn [snd ignoredEvents]. rewrite pending_app.
    unfold pending at 2, member_id. cbn [filter].
    rewrite sameEvent_self.
    destruct (sameEvent IgnoredEventType.Unban (id (user target))
                (mkIgnored IgnoredEventType.Ban (id (user target)))); simpl; lia. }
  change (onGuildBanAdd env (user target))
    with (observe env IgnoredEventType.Ban (user target)).
  change (onGuildBanRemove env (user target))
    with (observe env IgnoredEventType.Unban (user target)).
  pose proof (observe_suppressed_trace env IgnoredEventType.Ban (user target) _ Hban) as E2.
  split; [rewrite E2; reflexivity|].
  rewrite observe_suppressed_trace; [rewrite E2; reflexivity|].
  rewrite observe_pending.
  replace (sameEvent IgnoredEventType.Unban (id (user target))
             (mkIgnored IgnoredEventType.Ban (id (user target)))) with false
    by (unfold sameEvent; reflexivity).
  exact Hunban.
Qed.

Lemma softban_echoes_add_no_case_witness :
  let w1 := run (softbanCmd sampleEnv moderator (mkMember bob) None) [] in
  let w2 := after (onGuildBanAdd sampleEnv bob) w1 in
  let w3 := after (onGuildBanRemove sampleEnv bob) w2 in
  createdCases (trace w1) = [commandedCase "2" "100" CaseTypes.Softban None]
  /\ createdCases (trace w2) = createdCases (trace w1)
  /\ createdCases (trace w3) = createdCases (trace w1).
Proof.
  apply (softban_echoes_add_no_case sampleEnv moderator (mkMember bob) None []).
  reflexivity.
Defined.

(* ------------------------------------------------------------------ *)
(** ** A rejected request leaves its suppression behind *)

(** X6.  A forceban that passes the authority check and is rejected by
    the platform creates no case but keeps the Ban suppression it
    registered: a ban event for the same user that arrives afterwards (a
    ban made by somebody else) is taken for the echo and creates no case. *)
Theorem rejected_forceban_swallows_next_ban (env : Env) (msg : Message) (u : User)
    (reason : option string) (ledger : list IIgnoredEvent) :
  (forall target, guildMembers env (id u) = Some target ->
                  canActOn env (member msg) target = true) ->
  banResolves env 0%nat (id u) = false ->
  let w1 := run (forcebanCmd env msg (id u) reason) ledger in
  let w2 := after (onGuildBanAdd env u) w1 in
  ignoredEvents w1 = ledger ++ [mkIgnored IgnoredEventType.Ban (id u)]
  /\ In (CreateMessage (errorMessage "Failed to forceban member")) (trace w1)
  /\ createdCases (trace w1) = []
  /\ createdCases (trace w2) = [].
Proof.
  intros Hcan Hrej. cbv zeta.
  assert (E : run (forcebanCmd env msg (id u) reason) ledger
              = mkWorld (ledger ++ [mkIgnored IgnoredEventType.Ban (id u)])
                  [mkTimer IgnoredEventType.Ban (id u) 15000]
                  [IgnoreLog LogType.MEMBER_BAN (id u) None;
                   BanMember (id u) (Some 1) reason false;
                   CreateMessage (errorMessage "Failed to forceban member")]).
  { unfold run, forcebanCmd. unfold_cmd. rewrite Hrej.
    destruct (guildMembers env (id u)) as [target|];
      [rewrite (Hcan target eq_refl)|]; reflexivity. }
  rewrite E. cbn [ignoredEvents trace].
  repeat split.
  - simpl. auto.
  - change (onGuildBanAdd env u) with (observe env IgnoredEventType.Ban u).
    rewrite observe_suppressed_trace; [reflexivity|].
    cbn [ignoredEvents]. rewrite pending_app, pending_entry, sameEvent_self. lia.
Qed.

Lemma rejected_forceban_swallows_next_ban_witness :
  let w1 := run (forcebanCmd rejectingEnv moderator (id alice) None) [] in
  let w2 := after (onGuildBanAdd rejectingEnv alice) w1 in
  ignoredEvents w1 = [] ++ [mkIgnored IgnoredEventType.Ban (id alice)]
  /\ In (CreateMessage (errorMessage "Failed to forceban member")) (trace w1)
  /\ createdCases (trace w1) = []
  /\ createdCases (trace w2) = [].
Proof.
  apply (rejected_forceban_swallows_next_ban rejectingEnv moderator alice None []).
  - intros target H. discriminate H.
  - reflexivity.
Defined.

(* ------------------------------------------------------------------ *)
(** ** What the notification routine reports *)

(** X7.  [tryToMessageUser] never throws, changes nothing but the trace,
    makes at most two delivery attempts, and resolves to [true] exactly
    when both switches are off or one of its attempts went through. *)
Theorem notification_result_reflects_attempts (env : Env) (u : User) (str : string)
    (useDM useChannel : bool) (w : World) :
  exists t,
    tryToMessageUser env u str useDM useChannel w
    = (Value ((negb useDM && negb useChannel) || existsb attemptResolved t),
       mkWorld (ignoredEvents w) (timers w) (trace w ++ t))
    /\ (List.length t <= 2)%nat
    /\ forallb isNotification t = true.
Proof.
  exists (attempts env u str useDM useChannel).
  rewrite tryToMessageUser_world.
  split; [|split; [|apply attempts_are_notifications]].
  - f_equal. f_equal.
    unfold delivered, attempts, run, tryToMessageUser. unfold_cmd.
    destruct useDM, useChannel; cbn;
      try destruct (dmResolves env (id u) str); cbn;
      try destruct (Js.truthy (message_channel (config env))); cbn;
      try destruct (channelResolves env _ _); reflexivity.
  - unfold attempts, run, tryToMessageUser. unfold_cmd.
    destruct useDM, useChannel; cbn;
      try destruct (dmResolves env (id u) str); cbn;
      try destruct (Js.truthy (message_channel (config env))); cbn;
      try destruct (channelResolves env _ _); cbn; lia.
Qed.

(** X8.  With both switches on and a fallback channel configured, the
    direct message is attempted first and the channel message is attempted
    as well, whether or not the direct message went through. *)
Theorem both_channels_are_attempted (env : Env) (u : User) (str : string) (w : World) :
  Js.truthy (message_channel (config env)) = true ->
  let channel := orEmpty (message_channel (config env)) in
  let text := ("<@!" ++ id u ++ "> " ++ str)%string in
  tryToMessageUser env u str true true w
  = (Value (dmResolves env (id u) str || channelResolves env channel text),
     mkWorld (ignoredEvents w) (timers w)
       (trace w ++ [DirectMessage (id u) str (dmResolves env (id u) str);
                    FallbackMessage channel text (channelResolves env channel text)])).
Proof.
  intros Hch. cbv zeta. unfold tryToMessageUser. unfold_cmd. rewrite Hch. cbn.
  destruct (dmResolves env (id u) str); cbn;
    destruct (channelResolves env _ _); cbn; rewrite <- ?app_assoc; reflexivity.
Qed.

Lemma both_channels_are_attempted_witness :
  tryToMessageUser channelEnv bob "bye" true true (mkWorld [] [] [])
  = (Value true,
     mkWorld [] []
       [DirectMessage "2" "bye" false; FallbackMessage "700" "<@!2> bye" true]).
Proof.
  exact (both_channels_are_attempted channelEnv bob "bye" (mkWorld [] [] []) eq_refl).
Defined.

(* ------------------------------------------------------------------ *)
(** ** Mute without a message *)

(** X9.  A mute of a member whose mute already has a case sends nothing
    to the member, with or without a reason, and the answer to the
    operator never carries the remark on a failed message. *)
Theorem remute_sends_no_message (env : Env) (msg : Message) (target : Member)
    (time reason : option string) (ledger : list IIgnoredEvent)
    (mute : Mute) (oldCase : Z) :
  Js.truthy (mute_role (config env)) = true ->
  canActOn env (member msg) target = true ->
  fireMute env target (muteTimeOf env time) = Some mute ->
  case_id mute = Some oldCase ->
  let t := trace (run (muteCmd env msg target time reason) ledger) in
  filter isNotification t = []
  /\ In (CreateMessage
           (successMessage
              (muteResponse env target (muteTimeOf env time)
               ++ failedToMessage true)%string)) t.
Proof.
  intros Hrole Hcan Hmute Hold. cbv zeta.
  rewrite (muteCmd_trace env msg target time reason ledger Hrole Hcan mute Hmute), Hold.
  destruct (Js.truthy (muteReasonOf env time reason)); split;
    try reflexivity; simpl; auto.
Qed.

Lemma remute_sends_no_message_witness :
  let t := trace (run (muteCmd mutedEnv moderator (mkMember bob) None (Some "again")) []) in
  filter isNotification t = []
  /\ In (CreateMessage (successMessage "Muted **bob#0003** indefinitely")) t.
Proof.
  exact (remute_sends_no_message mutedEnv moderator (mkMember bob) None (Some "again") []
           (mkMute "2" (Some 7)) 7 eq_refl eq_refl eq_refl eq_refl).
Defined.

(* ------------------------------------------------------------------ *)
(** ** Massban: the gates before the pre-check, and the suppressions *)

(** X10.  A massban of more than 100 users is refused before the reason
    is even asked for; a massban whose reason prompt gets no reply, an
    empty reply or "cancel" (in any case, between white space of any
    kind, a no-break space included) answers "Cancelled".  In both cases the command stops there: the
    ledger, its timers and the rest of the trace are untouched. *)
Theorem massban_stops_at_cap_or_cancel (env : Env) (msg : Message)
    (userIds : list string) (w : World) :
  100 < Z.of_nat (List.length userIds) \/ massbanCancelled (waitForReply env) = true ->
  massbanCmd env msg userIds w
  = (Returned,
     mkWorld (ignoredEvents w) (timers w)
       (trace w
        ++ (if 100 <? Z.of_nat (List.length userIds)
            then [CreateMessage (errorMessage "Can only massban max 100 users at once")]
            else [CreateMessage (plainMessage "Ban reason? `cancel` to cancel");
                  WaitForReply;
                  CreateMessage (plainMessage "Cancelled")]))).
Proof.
  intros H. unfold massbanCmd. unfold bind, when, emit, ret, return_.
  destruct (Z.ltb_spec 100 (Z.of_nat (List.length userIds))) as [Hcap | Hcap].
  - reflexivity.
  - destruct H as [H | H]; [lia|]. rewrite H. cbn.
    rewrite <- !app_assoc. reflexivity.
Qed.

Lemma massban_stops_at_cap_or_cancel_witness :
  massbanCmd (mkEnv "Guild" sampleConfig (fun _ _ => true) (fun _ => None)
                (fun _ _ => true) (fun _ _ => true) (fun _ _ => None)
                (fun _ _ => None) (fun _ => 1) (fun _ => true) (fun _ _ => true)
                (fun _ => true) None (Some "  CanCel ") (fun _ => None)
                (fun _ => "") (fun template _ => template) (fun s _ _ => s))
             moderator ["1"; "2"] (mkWorld [] [] [])
  = (Returned,
     mkWorld [] []
       [CreateMessage (plainMessage "Ban reason? `cancel` to cancel");
        WaitForReply;
        CreateMessage (plainMessage "Cancelled")]).
Proof.
  refine (massban_stops_at_cap_or_cancel _ moderator ["1"; "2"] (mkWorld [] [] []) _).
  right. reflexivity.
Defined.

Lemma pending_targets (u : string) (userIds : list string) :
  In u userIds ->
  (0 < pending IgnoredEventType.Ban u (map (mkIgnored IgnoredEventType.Ban) userIds))%nat.
Proof.
  induction userIds as [|v rest IH]; [intros []|].
  intros [-> | Hin]; simpl map;
    change (mkIgnored IgnoredEventType.Ban ?x :: ?l)
      with ([mkIgnored IgnoredEventType.Ban x] ++ l);
    rewrite pending_app, pending_entry.
  - rewrite sameEvent_self. lia.
  - specialize (IH Hin). lia.
Qed.

(** X11.  A massban that gets to its banning loop has by then registered
    one Ban suppression per target, each with a 120 s timer, also for the
    targets whose ban is then rejected; the ban event of any target that
    arrives afterwards creates no case. *)
Theorem massban_suppresses_every_target (env : Env) (msg : Message)
    (userIds : list string) (ledger : list IIgnoredEvent) :
  (List.length userIds <= 100)%nat ->
  massbanCancelled (waitForReply env) = false ->
  mayActOnAll env msg userIds ->
  let w := run (massbanCmd env msg userIds) ledger in
  ignoredEvents w = ledger ++ map (mkIgnored IgnoredEventType.Ban) userIds
  /\ timers w = map (fun u => mkTimer IgnoredEventType.Ban u 120000) userIds
  /\ forall u : User,
       In (id u) userIds ->
       createdCases (trace (after (onGuildBanAdd env u) w)) = createdCases (trace w).
Proof.
  intros Hlen Hreply Hall. cbv zeta.
  assert (E : ignoredEvents (run (massbanCmd env msg userIds) ledger)
              = ledger ++ map (mkIgnored IgnoredEventType.Ban) userIds
              /\ timers (run (massbanCmd env msg userIds) ledger)
                 = map (fun u => mkTimer IgnoredEventType.Ban u 120000) userIds).
  { unfold run, massbanCmd.
    assert (Hlen' : (100 <? Z.of_nat (List.length userIds)) = false)
      by (apply Z.ltb_ge; lia).
    rewrite Hlen', Hreply.
    unfold bind, when, emit, ret. cbn [fst snd ignoredEvents timers trace app].
    rewrite massbanVerify_pass by exact Hall.
    rewrite massbanIgnore_world.
    cbn [fst snd ignoredEvents timers trace app].
    rewrite massbanLoop_world.
    cbn [fst snd ignoredEvents timers trace app].
    destruct (_ =? 0); [|destruct (negb _)]; split; reflexivity. }
  destruct E as [El Et]. repeat split; try assumption.
  intros u Hin.
  change (onGuildBanAdd env u) with (observe env IgnoredEventType.Ban u).
  rewrite observe_suppressed_trace; [reflexivity|].
  rewrite El, pending_app.
  pose proof (pending_targets (id u) userIds Hin). lia.
Qed.

Lemma massban_suppresses_every_target_witness :
  let w := run (massbanCmd partialEnv moderator ["A"; "B"; "C"]) [] in
  ignoredEvents w = [] ++ map (mkIgnored IgnoredEventType.Ban) ["A"; "B"; "C"]
  /\ timers w = map (fun u => mkTimer IgnoredEventType.Ban u 120000) ["A"; "B"; "C"]
  /\ forall u : User,
       In (id u) ["A"; "B"; "C"] ->
       createdCases (trace (after (onGuildBanAdd partialEnv u) w))
       = createdCases (trace w).
Proof.
  apply (massban_suppresses_every_target partialEnv moderator ["A"; "B"; "C"] []).
  - simpl. lia.
  - reflexivity.
  - intros u target _ H. discriminate H.
Defined.

(* ------------------------------------------------------------------ *)
(** ** Unmute *)

(** X12.  An unmute goes through exactly when a mute role is configured,
    the moderator may act on the member and the member has a mute: then
    one unmute is fired and one Unmute case is created; otherwise neither
    happens, and the mute store is asked only once the two checks passed. *)
Theorem unmute_needs_role_authority_and_mute (env : Env) (svc : Services)
    (msg : Message) (target : Member) (time reason : option string) :
  let t := calls (unmuteCmd env svc msg target time reason) in
  let checked :=
    Js.truthy (mute_role (config env)) && canActOn env (member msg) target in
  let muted :=
    match findExistingMuteForUserId svc (member_id target) with
    | Some _ => true
    | None => false
    end in
  createdCases (coreEffects t)
  = (if checked && muted
     then [commandedCase (member_id target) (id (author msg)) CaseTypes.Unmute
                         (unmuteReasonOf env time reason)]
     else [])
  /\ unmutesFired t
     = (if checked && muted
        then [(member_id target,
               if Js.truthyNum (muteTimeOf env time) then muteTimeOf env time else None)]
        else [])
  /\ (In (FindExistingMuteForUserId (member_id target)) t <-> checked = true).
Proof.
  cbv zeta. unfold unmuteCmd, unmuteReasonOf. unfold_act.
  destruct (Js.truthy (mute_role (config env)));
    destruct (canActOn env (member msg) target); cbn;
    try (repeat split; try reflexivity;
         intros H; try discriminate H;
         repeat (destruct H as [H | H]; try discriminate H); try contradiction H).
  destruct (findExistingMuteForUserId svc (member_id target)); cbn;
    [destruct (Js.truthyNum (muteTimeOf env time)); cbn|];
    repeat split; auto.
Qed.

(** X13.  A delayed unmute (a delay that is not zero) fires the unmute
    with the delay, does not ask the activity log to ignore anything, and
    files its case under "Timed unmute", followed by the reason when there
    is one.  Any other unmute first asks the activity log to ignore the
    role removal, then fires the unmute at once, and files the case under
    the reason as given. *)
Theorem timed_and_immediate_unmute (env : Env) (svc : Services) (msg : Message)
    (target : Member) (time reason : option string) (mute : Mute) :
  Js.truthy (mute_role (config env)) = true ->
  canActOn env (member msg) target = true ->
  findExistingMuteForUserId svc (member_id target) = Some mute ->
  let uid := member_id target in
  let delay := muteTimeOf env time in
  let given := muteReasonOf env time reason in
  calls (unmuteCmd env svc msg target time reason)
  = FindExistingMuteForUserId uid
    :: (if Js.truthyNum delay then
          [FireUnmute uid delay;
           Core (CreateMessage
                   (successMessage
                      ("Unmuting **" ++ tag (user target) ++ "** in "
                       ++ interpolate (timeUntilUnmute env delay))%string));
           Core (FireCreateCase
                   (commandedCase uid (id (author msg)) CaseTypes.Unmute
                      (Some (if Js.truthy given
                             then ("Timed unmute: " ++ orEmpty given)%string
                             else "Timed unmute"))))]
        else
          [Core (IgnoreLog LogType.MEMBER_ROLE_REMOVE uid None);
           FireUnmute uid None;
           Core (CreateMessage
                   (successMessage ("Unmuted **" ++ tag (user target) ++ "**")%string));
           Core (FireCreateCase
                   (commandedCase uid (id (author msg)) CaseTypes.Unmute given))])
       ++ [Core (Log LogType.MEMBER_UNMUTE (id (user (member msg))) (Some uid) None)].
Proof.
  intros Hrole Hcan Hmute. cbv zeta. unfold unmuteCmd. unfold_act.
  rewrite Hrole, Hcan, Hmute. cbn.
  destruct (Js.truthyNum (muteTimeOf env time)); cbn;
    [destruct (Js.truthy (muteReasonOf env time reason))|]; reflexivity.
Qed.

Lemma timed_and_immediate_unmute_witness :
  calls (unmuteCmd timedEnv (sampleServices []) moderator (mkMember bob)
                   (Some "10m") (Some "calmed down"))
  = [FindExistingMuteForUserId "2";
     FireUnmute "2" (Some 600000);
     Core (CreateMessage (successMessage "Unmuting **bob#0003** in 10 minutes"));
     Core (FireCreateCase
             (commandedCase "2" "100" CaseTypes.Unmute
                            (Some "Timed unmute: calmed down")));
     Core (Log LogType.MEMBER_UNMUTE "100" (Some "2") None)].
Proof.
  exact (timed_and_immediate_unmute timedEnv (sampleServices []) moderator
           (mkMember bob) (Some "10m") (Some "calmed down") (mkMute "2" (Some 5))
           eq_refl eq_refl eq_refl).
Defined.

(* ------------------------------------------------------------------ *)
(** ** Looking a case up *)

(** X14.  [updateCmd] and [showcaseCmd] on a case number the store does
    not know answer "Case not found" and do nothing else; on a known
    number [updateCmd] appends exactly one note, the moderator's, to that
    case, and [showcaseCmd] posts exactly that case. *)
Theorem unknown_case_number_is_reported (svc : Services) (msg : Message)
    (caseNumber : Z) (note : string) :
  let updated := calls (updateCmd svc msg caseNumber note) in
  let shown := calls (showcaseCmd svc caseNumber) in
  match findByCaseNumber svc caseNumber with
  | None =>
      updated = [FindByCaseNumber caseNumber;
                 Core (CreateMessage (errorMessage "Case not found"))]
      /\ shown = updated
  | Some theCase =>
      createdNotes (coreEffects updated) = [(case_pk theCase, id (author msg), note)]
      /\ postedCases shown = [case_pk theCase]
      /\ ~ In (Core (CreateMessage (errorMessage "Case not found"))) (updated ++ shown)
  end.
Proof.
  cbv zeta. unfold updateCmd, showcaseCmd. unfold_act.
  destruct (findByCaseNumber svc caseNumber) as [theCase|]; cbn.
  - repeat split. intros H.
    repeat (destruct H as [H | H]; try discriminate H). exact H.
  - split; reflexivity.
Qed.

(* ------------------------------------------------------------------ *)
(** ** The alert on rejoin *)

(** X15.  When a member joins, the alert is sent exactly when the alert
    is switched on, an alert channel is configured and exists, and the
    member has at least one case; it names the number of cases.  The case
    store is not asked while the alert is off or has no channel, and a
    configured channel that does not exist makes the handler fail at the
    moment it would send. *)
Theorem rejoin_alert_conditions (svc : Services) (joined : Member) :
  let run := onGuildMemberAdd svc joined [] in
  let enabled := alert_on_rejoin svc && Js.truthy (alert_channel svc) in
  let records := getByUserId svc (member_id joined) in
  let channel := orEmpty (alert_channel svc) in
  snd run
  = (if enabled then [GetByUserId (member_id joined)] else [])
    ++ (if enabled && negb (Nat.eqb (List.length records) 0) && guildChannels svc channel
        then [AlertSend channel
                ("<@!" ++ member_id joined ++ "> (" ++ tag (user joined) ++ " `"
                 ++ member_id joined ++ "`) joined with "
                 ++ numberToString (Z.of_nat (List.length records))
                 ++ " prior record(s)")%string]
        else [])
  /\ (fst run = Thrown
      <-> enabled && negb (Nat.eqb (List.length records) 0)
          && negb (guildChannels svc channel) = true).
Proof.
  cbv zeta. unfold onGuildMemberAdd. unfold_act.
  destruct (alert_on_rejoin svc); cbn;
    [destruct (Js.truthy (alert_channel svc)); cbn;
     [destruct (Nat.eqb (List.length (getByUserId svc (member_id joined))) 0); cbn;
      [|destruct (guildChannels svc (orEmpty (alert_channel svc))); cbn]|]|];
    split; try reflexivity; split; intros H; try discriminate H; reflexivity.
Qed.

(* ------------------------------------------------------------------ *)
(** ** Adding a case by hand *)

(** X16.  [addcaseCmd] looks the member up under [args.userId], a name
    the command's arguments do not have, so it finds no member and never
    asks the authority check: for every target of 17 to 20 digits and
    every known case type it creates the case, also when the target is a
    member the moderator may not act on. *)
Theorem addcase_skips_authority_check (env : Env) (svc : Services) (msg : Message)
    (args : AddcaseArgs) (c : ascii) (rest : string) (caseType : CaseTypes.t) :
  isSnowflakeish (ac_target args) = true ->
  ac_type args = String c rest ->
  caseTypeByName svc (String (JsStr.upperChar c) (Js.toLowerCase rest)) = Some caseType ->
  calls (addcaseCmd env svc msg args)
  = [Core (FireCreateCase
             (commandedCase (ac_target args) (id (author msg)) caseType (ac_reason args)));
     Core (CreateMessage (successMessage "Case created!"));
     Core (Log LogType.CASE_CREATE (id (user (member msg))) None None)].
Proof.
  intros Hid Hty Hknown. unfold addcaseCmd. unfold_act.
  rewrite Hid, Hty. cbn [negb membersGet ac_userId].
  assert (Hrest : JsStr.sliceFrom (String c rest) 1 = rest).
  { unfold JsStr.sliceFrom, JsStr.slice. cbn [String.length].
    destruct (Z.ltb_spec 1 0); [lia|].
    destruct (Z.ltb_spec (Z.of_nat (S (String.length rest))) 0); [lia|].
    replace (Z.min 1 (Z.of_nat (S (String.length rest)))) with 1 by lia.
    replace (Z.min (Z.of_nat (S (String.length rest))) (Z.of_nat (S (String.length rest))))
      with (Z.of_nat (S (String.length rest))) by lia.
    replace (Z.to_nat (Z.max (Z.of_nat (S (String.length rest)) - 1) 0))
      with (String.length rest) by lia.
    change (Z.to_nat 1) with 1%nat. cbn [substring].
    clear. induction rest as [|a r IH]; [reflexivity|].
    cbn [String.length substring]. rewrite IH. reflexivity. }
  rewrite Hrest, Hknown. reflexivity.
Qed.

Lemma addcase_skips_authority_check_witness :
  guildMembers lockedEnv "12345678901234567" = Some (mkMember bob)
  /\ canActOn lockedEnv (member moderator) (mkMember bob) = false
  /\ calls (addcaseCmd lockedEnv (sampleServices []) moderator
              (mkAddcaseArgs "wARN" "12345678901234567" (Some "spam")))
     = [Core (FireCreateCase
                (commandedCase "12345678901234567" "100" CaseTypes.Warn (Some "spam")));
        Core (CreateMessage (successMessage "Case created!"));
        Core (Log LogType.CASE_CREATE "100" None None)].
Proof.
  split; [reflexivity|]. split; [reflexivity|].
  apply (addcase_skips_authority_check lockedEnv (sampleServices []) moderator
           (mkAddcaseArgs "wARN" "12345678901234567" (Some "spam"))
           "w"%char "ARN" CaseTypes.Warn); reflexivity.
Defined.

(** X17.  Every case [addcaseCmd] creates is for its target argument, and
    that target is a string of 17 to 20 decimal digits; a target of any
    other shape gets the answer "invalid user id" and nothing else. *)
Theorem addcase_only_for_snowflakes (env : Env) (svc : Services) (msg : Message)
    (args : AddcaseArgs) :
  let t := calls (addcaseCmd env svc msg args) in
  (forall c, In c (createdCases (coreEffects t)) ->
             c_userId c = ac_target args
             /\ JsStr.allDigits (ac_target args) = true
             /\ (17 <= String.length (ac_target args) <= 20)%nat)
  /\ (isSnowflakeish (ac_target args) = false ->
      t = [Core (CreateMessage (errorMessage "Cannot add case: invalid user id"))]).
Proof.
  cbv zeta. unfold addcaseCmd. unfold_act.
  destruct (isSnowflakeish (ac_target args)) eqn:Hid; cbn.
  - split; [|discriminate].
    unfold isSnowflakeish in Hid.
    apply andb_true_iff in Hid as [Hid Hhi]. apply andb_true_iff in Hid as [Hdig Hlo].
    apply Nat.leb_le in Hlo, Hhi.
    destruct (ac_type args) as [|c0 rest]; cbn; [intros c []|].
    destruct (caseTypeByName svc _); cbn.
    + intros c [<- | []]. auto.
    + intros c [].
  - split; [intros c [] | reflexivity].
Qed.

Lemma addcase_only_for_snowflakes_witness :
  calls (addcaseCmd sampleEnv (sampleServices []) moderator
           (mkAddcaseArgs "warn" "123" None))
  = [Core (CreateMessage (errorMessage "Cannot add case: invalid user id"))].
Proof.
  exact (proj2 (addcase_only_for_snowflakes sampleEnv (sampleServices []) moderator
                  (mkAddcaseArgs "warn" "123" None)) eq_refl).
Defined.

(* ------------------------------------------------------------------ *)
(** ** Listing a user's cases *)

(** X18.  In the compact list a first note of at most 80 UTF-16 code
    units is shown whole, and a longer one is cut to its first 79 code
    units followed by "...": the search for the next blank or punctuation
    mark runs on [reason.slice(80, 20)], which is always empty, so the cut
    never moves.  The preview is never longer than 82 code units. *)
Theorem preview_is_cut_at_79 (firstNote : option CaseNote) :
  let reason :=
    JsStr.units (match firstNote with Some n => body n | None => EmptyString end) in
  previewReason firstNote
  = (if (80 <? List.length reason)%nat
     then firstn 79 reason ++ [46; 46; 46]%N else reason)
  /\ (List.length (previewReason firstNote) <= 82)%nat.
Proof.
  cbv zeta.
  set (reason := JsStr.units (match firstNote with Some n => body n | None => _ end)).
  assert (E : previewReason firstNote
              = if (80 <? List.length reason)%nat
                then firstn 79 reason ++ [46; 46; 46]%N else reason).
  { unfold previewReason. fold reason. unfold CASE_LIST_REASON_MAX_LENGTH.
    destruct (Nat.ltb_spec 80 (List.length reason)) as [Hlong | Hshort].
    - destruct (Z.ltb_spec 80 (Z.of_nat (List.length reason))); [|lia].
      assert (Hs : JsStr.sliceUnits reason 80 20 = []).
      { unfold JsStr.sliceUnits.
        destruct (Z.ltb_spec 80 0); [lia|]. destruct (Z.ltb_spec 20 0); [lia|].
        replace (Z.to_nat (Z.max (Z.min 20 (Z.of_nat (List.length reason))
                                  - Z.min 80 (Z.of_nat (List.length reason))) 0))
          with 0%nat by lia.
        reflexivity. }
      rewrite Hs. cbn [JsStr.breakIndex].
      destruct (Z.ltb_spec (80 + 0) (Z.of_nat (List.length reason))); [|lia].
      unfold JsStr.sliceUnits.
      destruct (Z.ltb_spec 0 0); [lia|]. destruct (Z.ltb_spec (80 + 0 - 1) 0); [lia|].
      replace (Z.to_nat (Z.min 0 (Z.of_nat (List.length reason)))) with 0%nat by lia.
      replace (Z.to_nat (Z.max (Z.min (80 + 0 - 1) (Z.of_nat (List.length reason))
                                - Z.min 0 (Z.of_nat (List.length reason))) 0))
        with 79%nat by lia.
      reflexivity.
    - destruct (Z.ltb_spec 80 (Z.of_nat (List.length reason))); [lia|]. reflexivity. }
  split; [exact E|]. rewrite E.
  destruct (Nat.ltb_spec 80 (List.length reason)) as [Hlong | Hshort].
  - rewrite length_app, length_firstn. simpl List.length. lia.
  - lia.
Qed.

(** A note of 50 characters of three bytes each is 50 code units long and
    is shown whole; a note of 81 letters is cut. *)
Example preview_counts_code_units :
  let han := String (ascii_of_nat 228) (String (ascii_of_nat 184)
               (String (ascii_of_nat 173) EmptyString)) in
  let note := String.concat EmptyString (repeat han 50) in
  String.length note = 150%nat
  /\ previewReason (Some (mkCaseNote note "2018-07-01")) = repeat 20013%N 50
  /\ List.length
       (previewReason
          (Some (mkCaseNote (String.concat EmptyString (repeat "a"%string 81))
                            "2018-07-01"))) = 82%nat.
Proof. repeat split; vm_compute; reflexivity. Qed.

Lemma act_forEach_calls {A} (f : A -> Call) (l : list A) (t : list Call) :
  act_forEach (fun x => call (f x)) l t = (Value tt, t ++ map f l).
Proof.
  revert t. induction l as [|x l IH]; intros t; cbn.
  - rewrite app_nil_r. reflexivity.
  - unfold act_bind, call. rewrite IH, <- app_assoc. reflexivity.
Qed.

(** X19.  [usercasesCmd] for a user without cases answers "No cases
    found" whatever view was asked for.  In the expanded view (an argument
    beginning with "expand") it posts every case of the user once, in the
    order of the store, when there are at most 8, and posts none, with the
    answer "Too many cases", when there are more. *)
Theorem expanded_view_posts_at_most_eight (svc : Services) (userId : string)
    (expanded : option string) :
  let cases := getByUserId svc userId in
  let t := calls (usercasesCmd svc userId expanded) in
  (cases = [] ->
   t = [GetByUserId userId;
        Core (CreateMessage (plainMessage "No cases found for the specified user!"))])
  /\ (cases <> [] ->
      Js.truthy expanded && JsStr.startsWith (orEmpty expanded) "expand" = true ->
      t = GetByUserId userId
          :: (if (8 <? List.length cases)%nat
              then [Core (CreateMessage
                            (plainMessage
                               "Too many cases for expanded view. Please use compact view instead."))]
              else map (fun theCase => FirePostCase (case_pk theCase)) cases)).
Proof.
  cbv zeta. unfold usercasesCmd. unfold_act. cbn [app snd].
  split.
  - intros ->. reflexivity.
  - intros Hne Hexp. rewrite Hexp.
    destruct (getByUserId svc userId) as [|c0 rest] eqn:Hc; [contradiction|].
    cbn [List.length Nat.eqb].
    destruct (Nat.ltb_spec 8 (S (List.length rest))) as [Hmany | Hfew].
    + reflexivity.
    + rewrite (act_forEach_calls (fun theCase => FirePostCase (case_pk theCase))).
      reflexivity.
Qed.

Lemma expanded_view_posts_at_most_eight_witness :
  calls (usercasesCmd (sampleServices [sampleCase]) "1" (Some "expanded"))
  = [GetByUserId "1"; FirePostCase 41].
Proof.
  refine (proj2 (expanded_view_posts_at_most_eight (sampleServices [sampleCase]) "1"
                   (Some "expanded")) _ eq_refl).
  discriminate.
Defined.

(* ------------------------------------------------------------------ *)
(** ** The censor *)

Section CensorFilters.

Variable env : Censor.Env.
Variable msg : Censor.ChatMessage.

Lemma censorMessage_calls (reason : string) (t : list Call) :
  act_bind (Censor.censorMessage env msg reason) (fun _ => act_return) t
  = (@Returned unit, t ++ Censor.censored env msg reason).
Proof.
  unfold Censor.censorMessage, Censor.censored. unfold_act.
  destruct (Censor.deleteResolves env (Censor.message_id msg)); cbn;
    rewrite <- ?app_assoc; reflexivity.
Qed.

Lemma filterInvites_ends (invites : list Censor.Invite) :
  Censor.passesOrCensors env msg (Censor.filterInvites env msg invites).
Proof.
  induction invites as [|invite rest IH]; intros t; [left; reflexivity|].
  cbn [Censor.filterInvites].
  repeat match goal with
         | |- context [if ?b then _ else _] =>
             destruct b; [right; eexists; apply censorMessage_calls|]
         end.
  apply IH.
Qed.

Lemma filterDomains_ends (hostnames : list string) :
  Censor.passesOrCensors env msg (Censor.filterDomains env msg hostnames).
Proof.
  induction hostnames as [|hostname rest IH]; intros t; [left; reflexivity|].
  cbn [Censor.filterDomains].
  repeat match goal with
         | |- context [if ?b then _ else _] =>
             destruct b; [right; eexists; apply censorMessage_calls|]
         end.
  apply IH.
Qed.

Lemma filterTokens_ends (tokens : list string) :
  Censor.passesOrCensors env msg (Censor.filterTokens env msg tokens).
Proof.
  induction tokens as [|token rest IH]; intros t; [left; reflexivity|].
  cbn [Censor.filterTokens].
  destruct (Censor.includes _ _); [right; eexists; apply censorMessage_calls|].
  apply IH.
Qed.

Lemma filterWords_ends (words : list string) :
  Censor.passesOrCensors env msg (Censor.filterWords env msg words).
Proof.
  induction words as [|word rest IH]; intros t; [left; reflexivity|].
  cbn [Censor.filterWords].
  destruct (Censor.wordTest _ _ _); [right; eexists; apply censorMessage_calls|].
  apply IH.
Qed.

(** The last loop can also fail, on an expression that does not compile. *)
Lemma filterRegex_ends (regexes : list string) (t : list Call) :
  Censor.filterRegex env msg regexes t = (Value tt, t)
  \/ Censor.filterRegex env msg regexes t = (Thrown, t)
  \/ exists reason,
       Censor.filterRegex env msg regexes t
       = (Returned, t ++ Censor.censored env msg reason).
Proof.
  induction regexes as [|regexStr rest IH]; [left; reflexivity|].
  cbn [Censor.filterRegex].
  destruct (Censor.regexTest _ _ _) as [[|]|].
  - right; right. eexists. apply censorMessage_calls.
  - apply IH.
  - right; left. reflexivity.
Qed.

Lemma passes_at_most_once (f : Act unit) :
  Censor.passesOrCensors env msg f -> Censor.censorsAtMostOnce env msg f.
Proof.
  intros H t. destruct (H t) as [E | [reason E]]; rewrite E.
  - exists (Value tt), []. rewrite app_nil_r. auto.
  - exists Returned, (Censor.censored env msg reason). eauto.
Qed.

Lemma bind_at_most_once (f g : Act unit) :
  Censor.passesOrCensors env msg f -> Censor.censorsAtMostOnce env msg g ->
  Censor.censorsAtMostOnce env msg (act_bind f (fun _ => g)).
Proof.
  intros Hf Hg t. unfold act_bind.
  destruct (Hf t) as [E | [reason E]]; rewrite E.
  - apply Hg.
  - exists Returned, (Censor.censored env msg reason). eauto.
Qed.

Lemma when_passes (b : bool) (f : Act unit) :
  Censor.passesOrCensors env msg f -> Censor.passesOrCensors env msg (act_when b f).
Proof.
  intros H t. destruct b; [apply H | left; reflexivity].
Qed.

Lemma filterRegex_at_most_once (regexes : list string) :
  Censor.censorsAtMostOnce env msg (Censor.filterRegex env msg regexes).
Proof.
  intros t. destruct (filterRegex_ends regexes t) as [E | [E | [reason E]]]; rewrite E.
  - exists (Value tt), []. rewrite app_nil_r. auto.
  - exists Thrown, []. rewrite app_nil_r. auto.
  - exists Returned, (Censor.censored env msg reason). eauto.
Qed.

(** The filters after the invite filter. *)
Lemma later_filters_at_most_once :
  Censor.censorsAtMostOnce env msg
    (act_bind
       (act_when (Censor.filter_domains (Censor.config env))
          (Censor.filterDomains env msg (Censor.urlHostnames env (Censor.content msg))))
       (fun _ =>
          act_bind
            (Censor.filterTokens env msg
               (Censor.orNil (Censor.blocked_tokens (Censor.config env))))
            (fun _ =>
               act_bind
                 (Censor.filterWords env msg
                    (Censor.orNil (Censor.blocked_words (Censor.config env))))
                 (fun _ =>
                    Censor.filterRegex env msg
                      (Censor.orNil (Censor.blocked_regex (Censor.config env))))))).
Proof.
  apply bind_at_most_once; [apply when_passes, filterDomains_ends|].
  apply bind_at_most_once; [apply filterTokens_ends|].
  apply bind_at_most_once; [apply filterWords_ends|].
  apply filterRegex_at_most_once.
Qed.

Lemma lookups_are_lookups (codes : list string) :
  forallb Censor.isLookup (Censor.lookups env codes) = true.
Proof. induction codes as [|c rest IH]; [reflexivity | exact IH]. Qed.

End CensorFilters.

(** X20.  Whatever the configuration and the message, the censor deletes
    the message at most once: its calls are the invite look-ups, followed
    by nothing or by one censoring, which asks the activity log to ignore
    the deletion, requests the deletion, and writes the CENSOR entry only
    if the deletion went through. *)
Theorem censor_deletes_at_most_once (env : Censor.Env) (msg : Censor.ChatMessage) :
  exists looked rest,
    calls (Censor.applyFiltersToMsg env msg) = looked ++ rest
    /\ forallb Censor.isLookup looked = true
    /\ (rest = []
        \/ exists reason,
             rest = IgnoreMessageDelete (Censor.message_id msg)
                    :: MessageDelete (Censor.message_id msg)
                         (Censor.deleteResolves env (Censor.message_id msg))
                    :: (if Censor.deleteResolves env (Censor.message_id msg)
                        then [LogCensor (Censor.message_id msg) reason] else [])).
Proof.
  change (exists looked rest,
    calls (Censor.applyFiltersToMsg env msg) = looked ++ rest
    /\ forallb Censor.isLookup looked = true
    /\ (rest = [] \/ exists reason, rest = Censor.censored env msg reason)).
  unfold calls, Censor.applyFiltersToMsg.
  unfold act_bind at 1. unfold act_when at 1.
  destruct (Censor.author_bot msg); [exists [], []; cbn; auto|].
  unfold act_ret at 1.
  unfold act_bind at 1. unfold act_when at 1.
  destruct (Censor.message_type msg =? 0); [|exists [], []; cbn; auto].
  cbn [negb]. unfold act_ret at 1.
  unfold act_bind at 1. unfold act_when at 1.
  destruct (Js.truthy (Some (Censor.content msg))); [|exists [], []; cbn; auto].
  cbn [negb]. unfold act_ret at 1.
  unfold act_bind at 1. unfold act_when at 1.
  destruct (Censor.filter_invites (Censor.config env)).
  - unfold act_bind at 1. unfold Censor.getInvites.
    set (codes := Censor.getInviteCodesInString (Censor.content msg)).
    cbn [app].
    destruct (Censor.allResolved (map (Censor.getInvite env) codes)) as [invites|].
    + destruct (filterInvites_ends env msg invites (Censor.lookups env codes))
        as [E | [reason E]]; rewrite E.
      * destruct (later_filters_at_most_once env msg (Censor.lookups env codes))
          as (o & rest & E' & Hrest).
        rewrite E'. exists (Censor.lookups env codes), rest.
        split; [reflexivity|]. split; [apply lookups_are_lookups | exact Hrest].
      * exists (Censor.lookups env codes), (Censor.censored env msg reason).
        split; [reflexivity|]. split; [apply lookups_are_lookups | eauto].
    + exists (Censor.lookups env codes), [].
      rewrite app_nil_r. split; [reflexivity|].
      split; [apply lookups_are_lookups | auto].
  - unfold act_ret at 1.
    destruct (later_filters_at_most_once env msg []) as (o & rest & E' & Hrest).
    rewrite E'. exists [], rest. auto.
Qed.

(** X21.  The censor leaves a message alone, without a single call, when
    the message comes from a bot, is not of the default type or has no
    text, and also when the plugin runs with its default options. *)
Theorem censor_leaves_alone (env : Censor.Env) (msg : Censor.ChatMessage) :
  Censor.eligible msg = false \/ Censor.config env = Censor.defaultConfig ->
  calls (Censor.applyFiltersToMsg env msg) = [].
Proof.
  intros H. unfold calls.
  destruct (Censor.eligible msg) eqn:Hel.
  - destruct H as [H | H]; [discriminate|].
    enter_filters Hel. rewrite H. reflexivity.
  - clear H. unfold Censor.eligible in Hel. unfold Censor.applyFiltersToMsg.
    unfold act_bind at 1. unfold act_when at 1.
    destruct (Censor.author_bot msg); [reflexivity|].
    unfold act_ret at 1. unfold act_bind at 1. unfold act_when at 1.
    destruct (Censor.message_type msg =? 0); [|reflexivity].
    cbn [negb]. unfold act_ret at 1. unfold act_bind at 1. unfold act_when at 1.
    cbn [negb andb] in Hel. rewrite Hel. reflexivity.
Qed.

Lemma censor_leaves_alone_witness :
  calls (Censor.applyFiltersToMsg
           (Censor.sampleEnv (Censor.mkConfig true (Some []) None None None false None
                                None (Some ["x"]) None None))
           (Censor.mkChatMessage "m1" true 0 "x discord.gg/abc")) = [].
Proof.
  apply censor_leaves_alone. left. reflexivity.
Defined.

(** X22.  With the invite filter on, a message containing an invite code
    the platform cannot resolve makes the handler fail after the
    look-ups: nothing is deleted, and the domain, token, word and
    expression filters are not run on it. *)
Theorem unresolved_invite_skips_all_filters (env : Censor.Env)
    (msg : Censor.ChatMessage) (t : list Call) :
  Censor.eligible msg = true ->
  Censor.filter_invites (Censor.config env) = true ->
  (exists code,
      In code (Censor.getInviteCodesInString (Censor.content msg))
      /\ Censor.getInvite env code = None) ->
  Censor.applyFiltersToMsg env msg t
  = (Thrown,
     t ++ Censor.lookups env (Censor.getInviteCodesInString (Censor.content msg))).
Proof.
  intros Hel Hinv (code & Hin & Hnone).
  enter_filters Hel. rewrite Hinv.
  unfold act_bind at 1. unfold act_when at 1. unfold act_bind at 1.
  unfold Censor.getInvites.
  assert (E : Censor.allResolved
                (map (Censor.getInvite env)
                     (Censor.getInviteCodesInString (Censor.content msg))) = None).
  { induction (Censor.getInviteCodesInString (Censor.content msg)) as [|c rest IH];
      [destruct Hin|].
    cbn. destruct Hin as [-> | Hin].
    - rewrite Hnone. reflexivity.
    - destruct (Censor.getInvite env c); [rewrite (IH Hin)|]; reflexivity. }
  rewrite E. reflexivity.
Qed.

Lemma unresolved_invite_skips_all_filters_witness :
  Censor.applyFiltersToMsg
    (Censor.sampleEnv (Censor.mkConfig true None None None None false None None
                         (Some ["spam"]) None None))
    (Censor.mkChatMessage "m1" false 0 "spam discord.gg/zzz") []
  = (Thrown, [GetInvite "zzz" false]).
Proof.
  apply (unresolved_invite_skips_all_filters
           (Censor.sampleEnv (Censor.mkConfig true None None None None false None None
                                (Some ["spam"]) None None))
           (Censor.mkChatMessage "m1" false 0 "spam discord.gg/zzz") []);
    try reflexivity.
  exists "zzz". split; [left|]; reflexivity.
Defined.

Lemma filterTokens_first (env : Censor.Env) (msg : Censor.ChatMessage)
    (tokens : list string) (t : list Call) :
  Censor.filterTokens env msg tokens t
  = match find (Censor.includes (Censor.content msg)) tokens with
    | Some token =>
        (Returned,
         t ++ Censor.censored env msg ("blocked token (`" ++ token ++ "`) found")%string)
    | None => (Value tt, t)
    end.
Proof.
  induction tokens as [|token rest IH]; [reflexivity|].
  cbn [Censor.filterTokens find].
  destruct (Censor.includes (Censor.content msg) token);
    [apply censorMessage_calls | exact IH].
Qed.

(** X23.  With the invite and domain filters off, a message containing a
    blocked token is censored for the first such token of the list, with
    no regard to the blocked words and expressions, which are not even
    tried. *)
Theorem blocked_token_wins (env : Censor.Env) (msg : Censor.ChatMessage)
    (token : string) :
  Censor.eligible msg = true ->
  Censor.filter_invites (Censor.config env) = false ->
  Censor.filter_domains (Censor.config env) = false ->
  find (Censor.includes (Censor.content msg))
       (Censor.orNil (Censor.blocked_tokens (Censor.config env))) = Some token ->
  Censor.applyFiltersToMsg env msg []
  = (Returned,
     Censor.censored env msg ("blocked token (`" ++ token ++ "`) found")%string).
Proof.
  intros Hel Hinv Hdom Hfind.
  enter_filters Hel. rewrite Hinv, Hdom.
  unfold act_bind at 1. unfold act_when at 1. unfold act_ret at 1.
  unfold act_bind at 1. unfold act_when at 1. unfold act_ret at 1.
  unfold act_bind at 1. rewrite filterTokens_first, Hfind. reflexivity.
Qed.

Lemma blocked_token_wins_witness :
  Censor.applyFiltersToMsg
    (Censor.mkEnv (Censor.mkConfig false None None None None false None None
                     (Some ["eggs"; "spam"]) (Some ["spam"]) (Some ["("]))
                  (fun _ => None) (fun _ => []) (fun _ _ => true) (fun _ _ => None)
                  (fun _ => false))
    (Censor.mkChatMessage "m1" false 0 "buy spam now") []
  = (Returned, [IgnoreMessageDelete "m1"; MessageDelete "m1" false]).
Proof.
  apply (blocked_token_wins
           (Censor.mkEnv (Censor.mkConfig false None None None None false None None
                            (Some ["eggs"; "spam"]) (Some ["spam"]) (Some ["("]))
                         (fun _ => None) (fun _ => []) (fun _ _ => true)
                         (fun _ _ => None) (fun _ => false))
           (Censor.mkChatMessage "m1" false 0 "buy spam now") "spam"); reflexivity.
Defined.

(** X24.  An invite guild whitelist that is configured but empty censors
    every message with an invite (the first invite is "not found in
    whitelist"), unlike a whitelist that is not configured. *)
Theorem empty_whitelist_blocks_every_invite (env : Censor.Env)
    (msg : Censor.ChatMessage) (invite : Censor.Invite) (others : list Censor.Invite) :
  Censor.eligible msg = true ->
  Censor.filter_invites (Censor.config env) = true ->
  Censor.invite_guild_whitelist (Censor.config env) = Some [] ->
  Censor.allResolved
    (map (Censor.getInvite env) (Censor.getInviteCodesInString (Censor.content msg)))
  = Some (invite :: others) ->
  Censor.applyFiltersToMsg env msg []
  = (Returned,
     Censor.lookups env (Censor.getInviteCodesInString (Censor.content msg))
     ++ Censor.censored env msg
          ("invite guild (**" ++ Censor.guild_name invite ++ "** `"
           ++ Censor.guild_id invite ++ "`) not found in whitelist")%string).
Proof.
  intros Hel Hinv Hwl Hres.
  enter_filters Hel. rewrite Hinv.
  unfold act_bind at 1. unfold act_when at 1. unfold act_bind at 1.
  unfold Censor.getInvites. rewrite Hres. cbn [app Censor.filterInvites].
  rewrite Hwl. cbn [Censor.given Censor.listIncludes existsb negb].
  rewrite censorMessage_calls. reflexivity.
Qed.

Lemma empty_whitelist_blocks_every_invite_witness :
  Censor.applyFiltersToMsg
    (Censor.sampleEnv (Censor.mkConfig true (Some []) None None None false None None
                         None None None))
    (Censor.mkChatMessage "m1" false 0 "join DISCORD.GG/abc!") []
  = (Returned,
     [GetInvite "abc" true; IgnoreMessageDelete "m1"; MessageDelete "m1" true;
      LogCensor "m1" "invite guild (**Nine** `9`) not found in whitelist"]).
Proof.
  apply (empty_whitelist_blocks_every_invite
           (Censor.sampleEnv (Censor.mkConfig true (Some []) None None None false None
                                None None None None))
           (Censor.mkChatMessage "m1" false 0 "join DISCORD.GG/abc!")
           (Censor.mkInvite "abc" "9" "Nine") []); reflexivity.
Defined.

(* ------------------------------------------------------------------ *)
(** ** Invite codes *)

Lemma takeCode_chars (s : string) : Censor.allCodeChars (Censor.takeCode s) = true.
Proof.
  induction s as [|c s IH]; [reflexivity|].
  cbn [Censor.takeCode]. destruct (Censor.isCodeChar c) eqn:Hc; [|reflexivity].
  cbn [Censor.allCodeChars]. rewrite Hc, IH. reflexivity.
Qed.

Lemma slash_literal (c : ascii) :
  Censor.matchesLit "/" c = true -> Ascii.eqb c "/" = true.
Proof.
  destruct c as [[] [] [] [] [] [] [] []]; cbv; congruence.
Qed.

Lemma hasSlash_dropBytes (n : nat) (s : string) :
  Censor.hasSlash (Censor.dropBytes n s) = true -> Censor.hasSlash s = true.
Proof.
  revert s. induction n as [|n IH]; intros s; [destruct s; exact (fun H => H)|].
  destruct s as [|c s]; [exact (fun H => H)|].
  cbn [Censor.dropBytes Censor.hasSlash]. intros H.
  rewrite (IH s H). apply orb_true_r.
Qed.

Lemma matchAny_slash (s rest : string) :
  Censor.matchAny s = Some rest -> Censor.hasSlash rest = true ->
  Censor.hasSlash s = true.
Proof.
  unfold Censor.matchAny. destruct (Js.chars s) as [|ch l]; [discriminate|].
  destruct (_ && _)%bool; [|discriminate].
  intros [= <-]. apply hasSlash_dropBytes.
Qed.

Lemma matchPrefix_slash (ps : list Censor.Pat) (s rest : string) :
  In (Censor.Lit "/") ps -> Censor.matchPrefix ps s = Some rest ->
  Censor.hasSlash s = true.
Proof.
  revert s. induction ps as [|p ps IH]; intros s Hin; [destruct Hin|].
  destruct p as [a|]; cbn [Censor.matchPrefix].
  - destruct s as [|c s]; [discriminate|].
    destruct (Censor.matchesLit a c) eqn:Hp; [|discriminate].
    intros Hm. cbn [Censor.hasSlash]. apply orb_true_iff.
    destruct Hin as [[= ->] | Hin].
    + left. apply slash_literal. exact Hp.
    + right. apply (IH s Hin Hm).
  - destruct (Censor.matchAny s) as [s'|] eqn:Hany; [|discriminate].
    intros Hm. destruct Hin as [Hin | Hin]; [discriminate Hin|].
    apply (matchAny_slash s s' Hany). apply (IH s' Hin Hm).
Qed.

Lemma matchAt_code (s code : string) (len : nat) :
  Censor.matchAt s = Some (code, len) ->
  code <> EmptyString /\ Censor.allCodeChars code = true /\ Censor.hasSlash s = true.
Proof.
  unfold Censor.matchAt.
  assert (H : forall ps,
             In (Censor.Lit "/") ps ->
             match Censor.matchPrefix ps s with
             | Some rest =>
                 match Censor.takeCode rest with
                 | EmptyString => None
                 | String a s0 =>
                     Some (String a s0,
                           (String.length s - String.length rest
                            + String.length (String a s0))%nat)
                 end
             | None => None
             end = Some (code, len) ->
             code <> EmptyString /\ Censor.allCodeChars code = true
             /\ Censor.hasSlash s = true).
  { intros ps Hin. destruct (Censor.matchPrefix ps s) as [rest|] eqn:Hm; [|discriminate].
    pose proof (takeCode_chars rest) as Hchars.
    destruct (Censor.takeCode rest) as [|a s0]; [discriminate|].
    intros [= <- _]. repeat split; [discriminate | exact Hchars |].
    apply (matchPrefix_slash ps s rest Hin Hm). }
  destruct (match Censor.matchPrefix Censor.discordGg s with
            | Some rest => _
            | None => None
            end) as [m|] eqn:Hgg.
  - intros [= ->]. apply (H Censor.discordGg); [|exact Hgg].
    cbv. tauto.
  - apply (H Censor.discordApp). cbv. tauto.
Qed.

Lemma scanInvites_codes (s : string) :
  forall skip code,
    In code (Censor.scanInvites skip s) ->
    code <> EmptyString /\ Censor.allCodeChars code = true.
Proof.
  induction s as [|c s IH]; intros skip code; [intros []|].
  cbn [Censor.scanInvites]. destruct skip as [|k]; [|apply IH].
  destruct (Censor.matchAt (String c s)) as [[found len]|] eqn:Hm; [|apply IH].
  intros [<- | Hin]; [|apply (IH _ _ Hin)].
  destruct (matchAt_code _ _ _ Hm) as (Hne & Hchars & _). auto.
Qed.

Lemma scanInvites_needs_slash (s : string) :
  forall skip, Censor.hasSlash s = false -> Censor.scanInvites skip s = [].
Proof.
  induction s as [|c s IH]; intros skip Hs; [reflexivity|].
  cbn [Censor.scanInvites].
  assert (Hs' : Censor.hasSlash s = false).
  { cbn [Censor.hasSlash] in Hs. apply orb_false_iff in Hs. tauto. }
  destruct skip as [|k]; [|apply IH, Hs'].
  destruct (Censor.matchAt (String c s)) as [[found len]|] eqn:Hm; [|apply IH, Hs'].
  destruct (matchAt_code _ _ _ Hm) as (_ & _ & Hslash). congruence.
Qed.

(** X25.  Every invite code [getInviteCodesInString] returns is a
    non-empty run of ASCII letters and digits, and a text without a slash
    contains no invite code. *)
Theorem invite_codes_are_alphanumeric (str : string) :
  (forall code,
      In code (Censor.getInviteCodesInString str) ->
      code <> EmptyString /\ Censor.allCodeChars code = true)
  /\ (Censor.hasSlash str = false -> Censor.getInviteCodesInString str = []).
Proof.
  split.
  - intros code. apply scanInvites_codes.
  - apply scanInvites_needs_slash.
Qed.

Lemma invite_codes_are_alphanumeric_witness :
  Censor.getInviteCodesInString "see discord.gg and discordapp.com" = [].
Proof.
  exact (proj2 (invite_codes_are_alphanumeric "see discord.gg and discordapp.com")
               eq_refl).
Defined.

(** Two links in one text, in either spelling and any case. *)
Example invite_codes_of_two_links :
  Censor.getInviteCodesInString
    "a Discord.gg/AbC1, b https://discordapp.com/invite/xyz?x discordXgg/q"
  = ["AbC1"; "xyz"; "q"].
Proof. reflexivity. Qed.

(** The dot of the expression is one code unit: a character of several
    bytes stands for it, one above U+FFFF or a line separator does not. *)
Example invite_code_after_any_character :
  let bytes l := string_of_list_ascii (map ascii_of_nat l) in
  Censor.getInviteCodesInString ("discord" ++ bytes [195; 169]%nat ++ "gg/abc")%string
  = ["abc"]
  /\ Censor.getInviteCodesInString
       ("discord" ++ bytes [228; 184; 173]%nat ++ "gg/abc discord.gg/x")%string
     = ["abc"; "x"]
  /\ Censor.getInviteCodesInString
       ("discord" ++ bytes [240; 159; 152; 128]%nat ++ "gg/abc")%string
     = []
  /\ Censor.getInviteCodesInString
       ("discord" ++ bytes [226; 128; 168]%nat ++ "gg/abc")%string
     = [].
Proof. repeat split. Qed.

